(** * ServerManage: scheduled server icons and banners

    A shallow embedding of [servermanage/servermanage.py] (the ServerManage
    cog) and the proofs of its specification.

    Layout of the development:
    - [PyStr]: the fragments of Python's [str] and [os.path] the cog calls
      ([str.lower], [posixpath.splitext], two-digit formatting);
    - [Calendar]: the fragments of [datetime] the cog calls (the constructor
      and its range checks, [strftime] for the two formats used,
      [date.fromisoformat], ordering, one-day shifts);
    - [Cog]: the persisted configuration, the file store and the commands
      ([imageAdd], [imageRemove], [imageList], [imageDateSet],
      [imageDateReset]);
    - [Applier]: the background task ([imageLoop], [checkGuildIcons],
      [checkGuildBanners]) over an explicit clock, in a state-and-exception
      monad;
    - [Surface]: [imageShow] and the commands of the icons and banners
      groups.

    Modelling conventions.  Python [int]s are [Z]; [str] is [string] (the
    UTF-8 bytes of the text); a [dict] used as a map is a [gmap]; an
    exception is a value of [PyExc]; each command runs to completion on the
    store it is given (the handlers of one event loop are not interleaved
    here).  A function of a library that the cog calls and that decides
    nothing the cog stores ([pagify] of Red's [chat_formatting]) is an
    argument of the command that calls it. *)

From Stdlib Require Import ZArith String Ascii List Lia.
From stdpp Require Import gmap strings list fin_maps sorting pretty.

Local Open Scope string_scope.
Local Open Scope Z_scope.

(** ** Python exceptions raised or caught by the cog *)

Inductive PyExc : Type :=
  | ValueError
  | OverflowError
  | KeyError
  | IndexError
  | FileNotFoundError
  | Forbidden                 (* discord.errors.Forbidden *)
  | HTTPException             (* any other failure of the platform API *)
  | InvalidAttachmentsError
  | InvalidFileError
  | InvalidImageError.

#[global] Instance PyExc_eq_dec : EqDecision PyExc.
Proof. solve_decision. Defined.

(** The result of running a piece of Python: a value or a raised exception. *)
Inductive Outcome (A : Type) : Type :=
  | Returned (a : A)
  | Raised (e : PyExc).
Arguments Returned {A} a.
Arguments Raised {A} e.

(** ** Strings *)

Module PyStr.

Definition is_upper (c : ascii) : bool :=
  let n := Z.of_nat (nat_of_ascii c) in (65 <=? n) && (n <=? 90).

Definition is_digit (c : ascii) : bool :=
  let n := Z.of_nat (nat_of_ascii c) in (48 <=? n) && (n <=? 57).

(** [str.lower] on one character.  Bytes above 127 (the UTF-8 encoding of
    the non-ASCII characters) are left alone: no non-ASCII character
    lower-cases to one of the letters compared against in this cog
    ("yes", ".png", ".gif"), so the comparisons below agree with
    Python's. *)
Definition lower_char (c : ascii) : ascii :=
  if is_upper c then ascii_of_nat (nat_of_ascii c + 32) else c.

Fixpoint lower (s : string) : string :=
  match s with
  | EmptyString => EmptyString
  | String c s' => String (lower_char c) (lower s')
  end.

(** [s.rfind(c)] for a one-character needle: the last index of [c], or -1. *)
Fixpoint rfind_from (c : ascii) (s : string) (i : Z) (acc : Z) : Z :=
  match s with
  | EmptyString => acc
  | String a s' => rfind_from c s' (i + 1) (if Ascii.eqb a c then i else acc)
  end.

Definition rfind (c : ascii) (s : string) : Z := rfind_from c s 0 (-1).

(** The [while filenameIndex < dotIndex] loop of [genericpath._splitext]:
    [true] when some character of [p] in [filenameIndex, dotIndex) is not
    a dot.  [n] is the number of iterations left. *)
Fixpoint splitext_scan (p : string) (filenameIndex : Z) (n : nat) : bool :=
  match n with
  | O => false
  | S n' =>
      match String.get (Z.to_nat filenameIndex) p with
      | Some c =>
          if negb (Ascii.eqb c ".") then true
          else splitext_scan p (filenameIndex + 1) n'
      | None => true
      end
  end.

(** [posixpath.splitext]: split at the last dot of the last path
    component, unless that component consists of leading dots only. *)
Definition splitext (p : string) : string * string :=
  let sepIndex := rfind "/" p in
  let dotIndex := rfind "." p in
  if (sepIndex <? dotIndex)
     && splitext_scan p (sepIndex + 1) (Z.to_nat (dotIndex - (sepIndex + 1)))
  then (String.substring 0 (Z.to_nat dotIndex) p,
        String.substring (Z.to_nat dotIndex)
                         (String.length p - Z.to_nat dotIndex) p)
  else (p, EmptyString).

Definition digit_char (d : Z) : ascii := ascii_of_nat (Z.to_nat (48 + d)).

Definition digit_val (c : ascii) : Z := Z.of_nat (nat_of_ascii c) - 48.

(** ["%02d"] for a number in 0..99, as [strftime] prints months and days. *)
Definition pad2 (n : Z) : string :=
  String (digit_char (n / 10)) (String (digit_char (n mod 10)) EmptyString).

End PyStr.

(** ** Dates *)

Module Calendar.

Record DateTime : Type := mkDateTime {
  year : Z; month : Z; day : Z;
  hour : Z; minute : Z; second : Z; microsecond : Z
}.

Definition MINYEAR : Z := 1.
Definition MAXYEAR : Z := 9999.

Definition is_leap (y : Z) : bool :=
  (y mod 4 =? 0) && (negb (y mod 100 =? 0) || (y mod 400 =? 0)).

(** [_DAYS_IN_MONTH] of the [datetime] module (index 0 is a placeholder). *)
Definition DAYS_IN_MONTH : list Z :=
  [-1; 31; 28; 31; 30; 31; 30; 31; 31; 30; 31; 30; 31].

Definition days_in_month (y m : Z) : Z :=
  if (m =? 2) && is_leap y then 29
  else nth (Z.to_nat m) DAYS_IN_MONTH 0.

(** The range of a C [int]. *)
Definition C_INT_MIN : Z := -2147483648.
Definition C_INT_MAX : Z := 2147483647.

Definition fits_c_int (n : Z) : bool := (C_INT_MIN <=? n) && (n <=? C_INT_MAX).

(** [datetime(year, month, day)] of CPython: the arguments are first
    converted to C [int]s, which raises [OverflowError] for one that does not
    fit; then come the range checks, which raise [ValueError]. *)
Definition datetime (y m d : Z) : Outcome DateTime :=
  if negb (fits_c_int y && fits_c_int m && fits_c_int d) then Raised OverflowError
  else if negb ((MINYEAR <=? y) && (y <=? MAXYEAR)) then Raised ValueError
  else if negb ((1 <=? m) && (m <=? 12)) then Raised ValueError
  else if negb ((1 <=? d) && (d <=? days_in_month y m)) then Raised ValueError
  else Returned (mkDateTime y m d 0 0 0 0).

(** [strftime("%m-%d")]. *)
Definition strftime_md (t : DateTime) : string :=
  PyStr.pad2 (month t) +:+ "-" +:+ PyStr.pad2 (day t).

Definition month_name (m : Z) : string :=
  nth (Z.to_nat m)
    [""; "January"; "February"; "March"; "April"; "May"; "June"; "July";
     "August"; "September"; "October"; "November"; "December"] "".

(** [strftime("%B %d")] (English month names). *)
Definition strftime_Bd (t : DateTime) : string :=
  month_name (month t) +:+ " " +:+ PyStr.pad2 (day t).

Definition two_digits (a b : ascii) : option Z :=
  if PyStr.is_digit a && PyStr.is_digit b
  then Some (10 * PyStr.digit_val a + PyStr.digit_val b) else None.

(** [date.fromisoformat("2020-" + key)]: the text after the year must be
    [MM-DD], two digits each, and name a day of 2020. *)
Definition fromisoformat_2020 (key : string) : Outcome DateTime :=
  match key with
  | String m1 (String m2 (String sep (String d1 (String d2 EmptyString)))) =>
      if Ascii.eqb sep "-" then
        match two_digits m1 m2, two_digits d1 d2 with
        | Some m, Some d => datetime 2020 m d
        | _, _ => Raised ValueError
        end
      else Raised ValueError
  | _ => Raised ValueError
  end.

(** The calendar date of a reading, and the order on dates. *)
Definition date_of (t : DateTime) : Z * Z * Z := (year t, month t, day t).

Definition date_lt (a b : Z * Z * Z) : Prop :=
  let '(y1, m1, d1) := a in
  let '(y2, m2, d2) := b in
  y1 < y2 \/ (y1 = y2 /\ (m1 < m2 \/ (m1 = m2 /\ d1 < d2))).

Definition time_of (t : DateTime) : Z * Z * Z * Z :=
  (hour t, minute t, second t, microsecond t).

Definition time_le (a b : Z * Z * Z * Z) : Prop :=
  let '(h1, m1, s1, u1) := a in
  let '(h2, m2, s2, u2) := b in
  h1 < h2 \/ (h1 = h2 /\ (m1 < m2 \/ (m1 = m2 /\
    (s1 < s2 \/ (s1 = s2 /\ u1 <= u2))))).

(** [a <= b] on naive datetimes: field by field, most significant first. *)
Definition dt_le (a b : DateTime) : Prop :=
  date_lt (date_of a) (date_of b)
  \/ (date_of a = date_of b /\ time_le (time_of a) (time_of b)).

(** A reading the clock can return: a real day of a supported year. *)
Definition well_formed (t : DateTime) : Prop :=
  MINYEAR <= year t <= MAXYEAR /\ 1 <= month t <= 12
  /\ 1 <= day t <= days_in_month (year t) (month t).

(** [t - timedelta(days=1)]; leaving year 1 raises [OverflowError], which
    no clock reading reaches and is modelled by year 0. *)
Definition minus_one_day (t : DateTime) : DateTime :=
  if 1 <? day t then
    mkDateTime (year t) (month t) (day t - 1)
               (hour t) (minute t) (second t) (microsecond t)
  else if 1 <? month t then
    mkDateTime (year t) (month t - 1) (days_in_month (year t) (month t - 1))
               (hour t) (minute t) (second t) (microsecond t)
  else
    mkDateTime (year t - 1) 12 31
               (hour t) (minute t) (second t) (microsecond t).

(** The calendar date that follows [(y, m, d)]. *)
Definition next_date (x : Z * Z * Z) : Z * Z * Z :=
  let '(y, m, d) := x in
  if d <? days_in_month y m then (y, m, d + 1)
  else if m <? 12 then (y, m + 1, 1)
  else (y + 1, 1, 1).

End Calendar.

(** ** [validDate] *)

(** [ServerManage.validDate]: try to build the date in the year 2020; only
    [ValueError] is caught. *)
Definition validDate (month day : Z) : Outcome bool :=
  match Calendar.datetime 2020 month day with
  | Returned _ => Returned true
  | Raised ValueError => Returned false
  | Raised e => Raised e
  end.

(** ** A state-and-exception monad

    A computation reads and updates a state of type [S] and either returns
    a value or raises; the state reached when the exception was raised is
    kept (what was sent, written or logged before it stays so). *)

Definition M (S A : Type) : Type := S -> Outcome A * S.

Definition ret {S A} (a : A) : M S A := fun s => (Returned a, s).

Definition raise {S A} (e : PyExc) : M S A := fun s => (Raised e, s).

Definition bind {S A B} (m : M S A) (k : A -> M S B) : M S B :=
  fun s =>
    match m s with
    | (Returned a, s') => k a s'
    | (Raised e, s') => (Raised e, s')
    end.

Definition gets {S A} (f : S -> A) : M S A := fun s => (Returned (f s), s).

Definition modify {S} (f : S -> S) : M S unit := fun s => (Returned tt, f s).

(** [try: m except exc: handler]. *)
Definition try_except {S A} (m : M S A) (exc : PyExc) (handler : M S A) : M S A :=
  fun s =>
    match m s with
    | (Raised e, s') => if decide (e = exc) then handler s' else (Raised e, s')
    | r => r
    end.

(** [for x in l: body x]. *)
Fixpoint for_each {S A} (l : list A) (body : A -> M S unit) : M S unit :=
  match l with
  | [] => ret tt
  | x :: l' => bind (body x) (fun _ => for_each l' body)
  end.

Declare Scope py_scope.
Delimit Scope py_scope with py.
Notation "x <- m ;; k" := (bind m (fun x => k))
  (at level 100, m at next level, right associativity) : py_scope.
Notation "m ;; k" := (bind m (fun _ => k))
  (at level 100, right associativity) : py_scope.
Local Open Scope py_scope.

(** ** The persisted data and the commands

    The commands are modelled with what they send and what they do to the
    configuration and to the files; their log lines, the creation of the
    directories and [imageShow] (which changes nothing) are left out. *)

Module Cog.

Inductive ImageType : Type := Icons | Banners.

#[global] Instance ImageType_eq_dec : EqDecision ImageType.
Proof. solve_decision. Defined.

(** The string a command wrapper passes as [imageType]; the wrappers pass
    these two and no other. *)
Definition imageType_str (imageType : ImageType) : string :=
  match imageType with Icons => "icons" | Banners => "banners" end.

Definition getSingularImageType (imageType : ImageType) : string :=
  match imageType with Icons => "icon" | Banners => "banner" end.

(** The [{"filename": ...}] dictionary stored for an image. *)
Record ImageDetails : Type := mkImageDetails { filename : string }.

#[global] Instance ImageDetails_eq_dec : EqDecision ImageDetails.
Proof. solve_decision. Defined.

(** A guild's configuration, as registered by [BASE_GUILD]. *)
Record GuildConfig : Type := mkGuildConfig {
  icons : gmap string ImageDetails;
  iconsDates : gmap string string;
  banners : gmap string ImageDetails;
  bannersDates : gmap string string
}.

Definition BASE_GUILD : GuildConfig := mkGuildConfig ∅ ∅ ∅ ∅.

(** The configuration of every guild and the files of the data folder. *)
Record Store : Type := mkStore {
  config : gmap Z GuildConfig;
  files : gmap string (list Byte.byte)
}.

Definition guild_conf (st : Store) (gid : Z) : GuildConfig :=
  default BASE_GUILD (config st !! gid).

(** [getattr(self.config.guild(g), imageType)()] *)
Definition images_of (c : GuildConfig) (imageType : ImageType)
  : gmap string ImageDetails :=
  match imageType with Icons => icons c | Banners => banners c end.

(** [getattr(self.config.guild(g), f"{imageType}Dates")()] *)
Definition dates_of (c : GuildConfig) (imageType : ImageType)
  : gmap string string :=
  match imageType with Icons => iconsDates c | Banners => bannersDates c end.

Definition set_images (imageType : ImageType) (v : gmap string ImageDetails)
    (c : GuildConfig) : GuildConfig :=
  match imageType with
  | Icons => mkGuildConfig v (iconsDates c) (banners c) (bannersDates c)
  | Banners => mkGuildConfig (icons c) (iconsDates c) v (bannersDates c)
  end.

Definition set_dates (imageType : ImageType) (v : gmap string string)
    (c : GuildConfig) : GuildConfig :=
  match imageType with
  | Icons => mkGuildConfig (icons c) v (banners c) (bannersDates c)
  | Banners => mkGuildConfig (icons c) (iconsDates c) (banners c) v
  end.

Definition update_guild (gid : Z) (f : GuildConfig -> GuildConfig)
    (st : Store) : Store :=
  mkStore (<[gid := f (guild_conf st gid)]> (config st)) (files st).

(** Discord objects, as far as the cog reads them. *)
Record Guild : Type := mkGuild { guild_id : Z; guild_name : string }.

Record Attachment : Type := mkAttachment {
  att_filename : string;
  height : option Z;
  width : option Z;
  att_bytes : list Byte.byte
}.

Record Message : Type := mkMessage {
  author : Z;
  channel : Z;
  content : string;
  attachments : list Attachment
}.

Record Context : Type := mkContext { guild : Guild; message : Message }.

(** A [discord.Embed] as [imageList] fills it. *)
Record Embed : Type := mkEmbed {
  embed_title : string;
  embed_description : string;
  embed_footer : string
}.

(** What a command shows: a plain [ctx.send], or the call
    [menu(ctx, pageList, DEFAULT_CONTROLS)] of [imageList] with the list of
    embeds it is given. *)
Inductive Sent : Type :=
  | Text (s : string)
  | Menu (pageList : list Embed).

(** The state a command runs on. *)
Record CmdState : Type := mkCmdState { store : Store; sent : list Sent }.

Definition send (s : string) : M CmdState unit :=
  modify (fun c => mkCmdState (store c) (sent c ++ [Text s])).

Definition send_menu (pageList : list Embed) : M CmdState unit :=
  modify (fun c => mkCmdState (store c) (sent c ++ [Menu pageList])).

Definition read_images (g : Guild) (imageType : ImageType)
  : M CmdState (gmap string ImageDetails) :=
  gets (fun c => images_of (guild_conf (store c) (guild_id g)) imageType).

Definition read_dates (g : Guild) (imageType : ImageType)
  : M CmdState (gmap string string) :=
  gets (fun c => dates_of (guild_conf (store c) (guild_id g)) imageType).

Definition write_images (g : Guild) (imageType : ImageType)
    (v : gmap string ImageDetails) : M CmdState unit :=
  modify (fun c =>
    mkCmdState (update_guild (guild_id g) (set_images imageType v) (store c))
               (sent c)).

Definition write_dates (g : Guild) (imageType : ImageType)
    (v : gmap string string) : M CmdState unit :=
  modify (fun c =>
    mkCmdState (update_guild (guild_id g) (set_dates imageType v) (store c))
               (sent c)).

(** [attachment.save(filepath)], called once [getFullFilepath] has made the
    directory of the guild and category ([mkdir] with [parents] and
    [exist_ok]): the attachment's bytes are written at the path.  The write
    is taken to succeed.  The file system refuses it when the name that went
    into the path is no file name of that directory (a [/] in it, a name
    too long for a file name); what is proved about a name being added for
    the first time is therefore stated for plain names, see [plain_name]. *)
Definition save (filepath : string) (data : list Byte.byte) : M CmdState unit :=
  modify (fun c =>
    mkCmdState (mkStore (config (store c)) (<[filepath := data]> (files (store c))))
               (sent c)).

(** [os.remove(filepath)] *)
Definition os_remove (filepath : string) : M CmdState unit :=
  fun c =>
    match files (store c) !! filepath with
    | Some _ =>
        (Returned tt,
         mkCmdState (mkStore (config (store c)) (delete filepath (files (store c))))
                    (sent c))
    | None => (Raised FileNotFoundError, c)
    end.

(** Python truthiness of an [Optional[int]]. *)
Definition truthy (x : option Z) : bool :=
  match x with
  | None => false
  | Some n => negb (n =? 0)
  end.

Definition validateImageAttachment (msg : Message) : Outcome unit :=
  match attachments msg with
  | [image] =>
      if negb (truthy (height image)) && negb (truthy (width image))
      then Raised InvalidFileError
      else
        let ext := PyStr.lower (snd (PyStr.splitext (att_filename image))) in
        if negb (bool_decide (ext ∈ [".png"; ".gif"]))
        then Raised InvalidImageError
        else Returned tt
  | _ => Raised InvalidAttachmentsError
  end.

(** [bot.wait_for("message", timeout=30.0, check=check)]: [incoming] are
    the messages the bot receives during the next 30 seconds, in order; the
    first one that passes [check] is returned, and none means the wait
    timed out. *)
Definition wait_for (check : Message -> bool) (incoming : list Message)
  : option Message :=
  List.find check incoming.

(** The [check] closure of [imageAdd] and [imageRemove]. *)
Definition check (ctx : Context) (msg : Message) : bool :=
  (author msg =? author (message ctx)) && (channel msg =? channel (message ctx)).

Section WithDataFolder.

(** [self.dataFolder], the cog's data path. *)
Variable dataFolder : string.

Definition getFullFilepath (g : Guild) (imageDetails : ImageDetails)
    (imageType : ImageType) : string :=
  let directory :=
    dataFolder +:+ "/" +:+ pretty (guild_id g) +:+ "/"
               +:+ imageType_str imageType +:+ "/" in
  directory +:+ filename imageDetails.

(** Lines 241-250 of [imageAdd]: save the attachment and record it. *)
Definition imageAdd_save (ctx : Context) (name : string)
    (imageType : ImageType) : M CmdState unit :=
  match attachments (message ctx) with
  | [] => raise IndexError
  | image :: _ =>
      let extension := PyStr.lower (snd (PyStr.splitext (att_filename image))) in
      let imageDict := mkImageDetails (name +:+ extension) in
      let filepath := getFullFilepath (guild ctx) imageDict imageType in
      save filepath (att_bytes image) ;;
      images <- read_images (guild ctx) imageType ;;
      write_images (guild ctx) imageType (<[name := imageDict]> images) ;;
      send ("Saved the " +:+ getSingularImageType imageType +:+ " as "
              +:+ name +:+ "!")
  end.

Definition imageAdd (ctx : Context) (incoming : list Message)
    (name : string) (imageType : ImageType) : M CmdState unit :=
  let imageSingular := getSingularImageType imageType in
  match validateImageAttachment (message ctx) with
  | Raised InvalidAttachmentsError => send "Please attach one file!"
  | Raised InvalidFileError =>
      send "The file is not an image, please upload an image!"
  | Raised InvalidImageError => send "Please upload a PNG or GIF image!"
  | Raised e => raise e
  | Returned _ =>
      images <- read_images (guild ctx) imageType ;;
      if bool_decide (is_Some (images !! name)) then
        send (":warning: This " +:+ imageSingular
                +:+ " already exists. Would you like to overwrite "
                +:+ "it? Please type `yes` to overwrite.") ;;
        match wait_for (check ctx) incoming with
        | None =>
            send ("You took too long, not overwriting the existing "
                    +:+ imageSingular +:+ ".")
        | Some response =>
            if negb (String.eqb (PyStr.lower (content response)) "yes")
            then send ("Not overwriting the " +:+ imageSingular +:+ ".")
            else imageAdd_save ctx name imageType
        end
      else imageAdd_save ctx name imageType
  end.

(** [del d[k]]: raises [KeyError] when [k] is not a key of [d]. *)
Definition pydel {V} (k : string) (d : gmap string V) : Outcome (gmap string V) :=
  match d !! k with
  | Some _ => Returned (delete k d)
  | None => Raised KeyError
  end.

(** [for date in datesToRemove: del dates[date]] *)
Fixpoint del_all (datesToRemove : list string) (dates : gmap string string)
  : Outcome (gmap string string) :=
  match datesToRemove with
  | [] => Returned dates
  | date :: rest =>
      match pydel date dates with
      | Returned dates' => del_all rest dates'
      | Raised e => Raised e
      end
  end.

(** The first loop over [dates.items()] of [imageRemove]: the dates whose
    image is [name]. *)
Definition datesToRemove (name : string) (dates : gmap string string)
  : list string :=
  (filter (fun item => name = item.2) (map_to_list dates)).*1.

(** Lift a pure step that may raise into the monad. *)
Definition lift {S A} (o : Outcome A) : M S A :=
  match o with
  | Returned a => ret a
  | Raised e => raise e
  end.

Definition imageRemove (ctx : Context) (incoming : list Message)
    (name : string) (imageType : ImageType) : M CmdState unit :=
  let imageSingular := getSingularImageType imageType in
  images <- read_images (guild ctx) imageType ;;
  if negb (bool_decide (is_Some (images !! name))) then
    send ("This " +:+ imageSingular +:+ " doesn't exist!")
  else
    send "Are you sure you want to delete? Please type `yes` to confirm." ;;
    match wait_for (check ctx) incoming with
    | None =>
        send ("You took too long, not deleting the " +:+ imageSingular +:+ ".")
    | Some response =>
        if negb (String.eqb (PyStr.lower (content response)) "yes")
        then send ("Not deleting the " +:+ imageSingular +:+ ".")
        else
          match images !! name with
          | None => raise KeyError
          | Some details =>
              let filepath := getFullFilepath (guild ctx) details imageType in
              (* a missing file is logged and the removal goes on *)
              try_except (os_remove filepath) FileNotFoundError (ret tt) ;;
              images' <- read_images (guild ctx) imageType ;;
              images'' <- lift (pydel name images') ;;
              write_images (guild ctx) imageType images'' ;;
              dates <- read_dates (guild ctx) imageType ;;
              dates' <- lift (del_all (datesToRemove name dates) dates) ;;
              write_dates (guild ctx) imageType dates' ;;
              send ("Deleted the " +:+ imageSingular +:+ " named "
                      +:+ name +:+ "!")
          end
    end.

(** Tuples [(date, name)] compare by date first, then by name. *)
Definition item_le (a b : string * string) : Prop :=
  String.ltb a.1 b.1 = true
  \/ (a.1 = b.1 /\ String.leb a.2 b.2 = true).

#[global] Instance item_le_dec : RelDecision item_le.
Proof. intros a b. unfold item_le. apply _. Defined.

(** [sorted(imageDates.items())] *)
Definition sorted_items (imageDates : gmap string string)
  : list (string * string) :=
  merge_sort item_le (map_to_list imageDates).

Definition NL : string := String (ascii_of_nat 10) EmptyString.

(** One line of the listing. *)
Definition date_line (theDate : Calendar.DateTime) (name : string) : string :=
  Calendar.strftime_Bd theDate +:+ ": " +:+ name +:+ NL.

(** The loop of [imageList] over the sorted items, extending [msg]. *)
Fixpoint list_lines (items : list (string * string)) (msg : string)
  : Outcome string :=
  match items with
  | [] => Returned msg
  | (changeDate, name) :: rest =>
      match Calendar.fromisoformat_2020 changeDate with
      | Returned theDate => list_lines rest (msg +:+ date_line theDate name)
      | Raised e => Raised e
      end
  end.

(** [", ".join(l)] *)
Fixpoint join_comma (l : list string) : string :=
  match l with
  | [] => ""
  | [x] => x
  | x :: rest => x +:+ ", " +:+ join_comma rest
  end.

(** The loop of [imageList] over [AsyncIter(pages).enumerate(start=1)]: one
    embed per page, with the title and the footer [Page n/total]. *)
Fixpoint embeds_from (title : string) (totalPages pageNumber : Z)
    (pages : list string) : list Embed :=
  match pages with
  | [] => []
  | page :: rest =>
      mkEmbed title page
              ("Page " +:+ pretty pageNumber +:+ "/" +:+ pretty totalPages)
      :: embeds_from title totalPages (pageNumber + 1) rest
  end.

(** [imageList].  The set of unassigned names is walked in the order of
    [elements] (Python leaves the order of a set open).  The text goes
    through [pagify(msg, page_length=2000)] of
    [redbot.core.utils.chat_formatting], which cuts it into pages and
    rewrites mass mentions; that function is not part of the cog and is the
    argument [pagify] here, taking the text and the page length. *)
Definition imageList (pagify : string -> Z -> list string) (ctx : Context)
    (imageType : ImageType) : M CmdState unit :=
  let imageSingular := getSingularImageType imageType in
  allImages <- read_images (guild ctx) imageType ;;
  if bool_decide (allImages = ∅) then
    send ("There are no " +:+ imageType_str imageType
            +:+ ", please add some first!")
  else
    imageDates <- read_dates (guild ctx) imageType ;;
    let items := sorted_items imageDates in
    msg <- lift (list_lines items "") ;;
    let notAssigned : gset string :=
      dom allImages ∖ list_to_set (items.*2) in
    let msg :=
      if bool_decide (notAssigned = ∅) then msg
      else msg +:+ "Unassigned: " +:+ join_comma (elements notAssigned) in
    let pages := pagify msg 2000 in
    let totalPages := Z.of_nat (length pages) in
    send_menu (embeds_from ("Server " +:+ imageSingular +:+ " changes for "
                              +:+ guild_name (guild ctx))
                           totalPages 1 pages).

Definition imageDateSet (ctx : Context) (month day : Z) (name : string)
    (imageType : ImageType) : M CmdState unit :=
  let imageSingular := getSingularImageType imageType in
  valid <- lift (validDate month day) ;;
  if negb valid then send "Please enter a valid date!"
  else
    images <- read_images (guild ctx) imageType ;;
    if negb (bool_decide (is_Some (images !! name))) then
      send ("This " +:+ imageSingular +:+ " doesn't exist!")
    else
      imageDates <- read_dates (guild ctx) imageType ;;
      theDate <- lift (Calendar.datetime 2020 month day) ;;
      let storageDate := Calendar.strftime_md theDate in
      let humanDate := Calendar.strftime_Bd theDate in
      write_dates (guild ctx) imageType (<[storageDate := name]> imageDates) ;;
      send ("On " +:+ humanDate +:+ ", the server " +:+ imageSingular
              +:+ " will change to " +:+ name).

Definition imageDateReset (ctx : Context) (month day : Z)
    (imageType : ImageType) : M CmdState unit :=
  let imageSingular := getSingularImageType imageType in
  valid <- lift (validDate month day) ;;
  if negb valid then send "Please enter a valid date!"
  else
    imageDates <- read_dates (guild ctx) imageType ;;
    theDate <- lift (Calendar.datetime 2020 month day) ;;
    let storageDate := Calendar.strftime_md theDate in
    let humanDate := Calendar.strftime_Bd theDate in
    if bool_decide (is_Some (imageDates !! storageDate)) then
      write_dates (guild ctx) imageType (delete storageDate imageDates) ;;
      send ("Removed " +:+ humanDate +:+ " from " +:+ imageSingular
              +:+ " changes.")
    else
      send ("There are no " +:+ imageSingular +:+ " changes on this date!").

End WithDataFolder.

End Cog.

(** ** The background task *)

Module Applier.

Import Calendar Cog.

Inductive Level : Type := DEBUG | INFO | ERROR.

(** A call of the logger: level, format string, arguments. *)
Record LogRecord : Type := mkLogRecord {
  level : Level; format : string; args : list string
}.

(** A successful [guild.edit(icon=...)] or [guild.edit(banner=...)]. *)
Record Edit : Type := mkEdit {
  edit_guild : Z; edit_kind : ImageType;
  edit_bytes : list Byte.byte; edit_reason : string
}.

(** What the task reads during one pass of its loop: the configuration and
    files as the commands left them, the guilds the bot is in, and the
    exception (if any) with which the platform answers an edit. *)
Record Env : Type := mkEnv {
  dataFolder : string;
  the_store : Store;
  guilds : list Guild;
  edit_raises : ImageType -> Z -> option PyExc
}.

(** The state of the task: [self.lastChecked], the number of clock
    readings taken so far, the log and the edits made. *)
Record LoopState : Type := mkLoopState {
  lastChecked : DateTime;
  ticks : nat;
  log : list LogRecord;
  applied : list Edit
}.

Section WithClock.

(** The [n]-th call of [datetime.now()] returns [clock n]. *)
Variable clock : nat -> DateTime.

Definition now : M LoopState DateTime :=
  fun s =>
    (Returned (clock (ticks s)),
     mkLoopState (lastChecked s) (S (ticks s)) (log s) (applied s)).

Definition logger (lvl : Level) (fmt : string) (a : list string)
  : M LoopState unit :=
  modify (fun s =>
    mkLoopState (lastChecked s) (ticks s)
                (log s ++ [mkLogRecord lvl fmt a]) (applied s)).

Definition set_lastChecked (t : DateTime) : M LoopState unit :=
  modify (fun s => mkLoopState t (ticks s) (log s) (applied s)).

(** [await guild.edit(...)] *)
Definition guild_edit (env : Env) (imageType : ImageType) (g : Guild)
    (data : list Byte.byte) (reason : string) : M LoopState unit :=
  match edit_raises env imageType (guild_id g) with
  | Some e => raise e
  | None =>
      modify (fun s =>
        mkLoopState (lastChecked s) (ticks s) (log s)
                    (applied s ++ [mkEdit (guild_id g) imageType data reason]))
  end.

(** The common text of [checkGuildIcons] and [checkGuildBanners], which
    differ in the table they read and in the word icon or banner. *)
Definition checkGuildImages (env : Env) (imageType : ImageType) (g : Guild)
  : M LoopState unit :=
  let singular := getSingularImageType imageType in
  logger DEBUG ("Checking guild " +:+ singular +:+ " for %s (%s)")
         [guild_name g; pretty (guild_id g)] ;;
  t <- now ;;
  let today := strftime_md t in
  let imageDates := dates_of (guild_conf (the_store env) (guild_id g)) imageType in
  match imageDates !! today with
  | None => ret tt
  | Some imageName =>
      let images := images_of (guild_conf (the_store env) (guild_id g)) imageType in
      match images !! imageName with
      | None => raise KeyError
      | Some image =>
          let filepath := getFullFilepath (dataFolder env) g image imageType in
          match files (the_store env) !! filepath with
          | None => raise FileNotFoundError
          | Some data =>
              try_except
                (guild_edit env imageType g data
                   ("ServerManage changing " +:+ singular +:+ " to " +:+ imageName) ;;
                 logger INFO ("Changed the server " +:+ singular
                                +:+ " for %s (%s) to %s")
                        [guild_name g; pretty (guild_id g); imageName])
                Forbidden
                (logger ERROR
                   ("Could not change " +:+ singular
                      +:+ ", ensure the bot has Manage Server permissions") [])
          end
      end
  end.

Definition checkGuildIcons (env : Env) (g : Guild) : M LoopState unit :=
  checkGuildImages env Icons g.

Definition checkGuildBanners (env : Env) (g : Guild) : M LoopState unit :=
  checkGuildImages env Banners g.

(** The test of [imageLoop] in state [s]: does the day of the month read
    from the clock differ from the one recorded? *)
Definition day_changed (s : LoopState) : bool :=
  negb (day (lastChecked s) =? day (clock (ticks s))).

(** One pass of the [while True] loop of [imageLoop] (the sleep that ends
    it changes nothing here). *)
Definition imageLoop_body (env : Env) : M LoopState unit :=
  last <- gets lastChecked ;;
  t <- now ;;
  if negb (day last =? day t) then
    logger INFO "Checking to see if we need to change server images" [] ;;
    t' <- now ;;
    set_lastChecked t' ;;
    for_each (guilds env)
      (fun g => checkGuildIcons env g ;; checkGuildBanners env g)
  else ret tt.

(** [imageLoop], one pass per element of [envs]; an exception ends it. *)
Fixpoint imageLoop (envs : list Env) : M LoopState unit :=
  match envs with
  | [] => ret tt
  | env :: rest => imageLoop_body env ;; imageLoop rest
  end.

(** [__init__]: the first reading, moved back by one day. *)
Definition init : LoopState :=
  mkLoopState (minus_one_day (clock 0)) 1 [] [].

(** The clock never runs backwards. *)
Definition monotone : Prop :=
  forall i j : nat, (i <= j)%nat -> dt_le (clock i) (clock j).

End WithClock.

End Applier.

(** ** The rest of the command surface: [imageShow] and the commands of the
    [servermanage icons] and [servermanage banners] groups *)

Module Surface.

Import Cog.

(** What [imageShow] sends: a text, or a file under a name. *)
Inductive Shown : Type :=
  | ShownText (s : string)
  | ShownFile (name : string) (data : list Byte.byte).

(** The state [imageShow] runs on; it reads the store and never writes it. *)
Record ShowState : Type := mkShowState { show_store : Store; shown : list Shown }.

Definition show_text (s : string) : M ShowState unit :=
  modify (fun c => mkShowState (show_store c) (shown c ++ [ShownText s])).

(** [ctx.send(file=image)] *)
Definition show_file (image : string * list Byte.byte) : M ShowState unit :=
  modify (fun c =>
    mkShowState (show_store c) (shown c ++ [ShownFile image.1 image.2])).

(** [discord.File(filepath, filename=...)]: opens the file for reading. *)
Definition discord_File (filepath name : string)
  : M ShowState (string * list Byte.byte) :=
  fun c =>
    match files (show_store c) !! filepath with
    | Some data => (Returned (name, data), c)
    | None => (Raised FileNotFoundError, c)
    end.

Definition imageShow (dataFolder : string) (ctx : Context) (name : string)
    (imageType : ImageType) : M ShowState unit :=
  let imageSingular := getSingularImageType imageType in
  images <- gets (fun c =>
              images_of (guild_conf (show_store c) (guild_id (guild ctx))) imageType) ;;
  if negb (bool_decide (is_Some (images !! name))) then
    show_text ("This " +:+ imageSingular +:+ " dosent exist!")
  else
    match images !! name with
    | None => raise KeyError
    | Some details =>
        let filepath := getFullFilepath dataFolder (guild ctx) details imageType in
        try_except
          (image <- discord_File filepath (filename details) ;; show_file image)
          FileNotFoundError
          (show_text ":warning: Error: The file does not exist")
    end.

(** The commands of the two groups; [incoming] is what a confirmation
    waits on.  The icon commands that leave [imageType] out get its default,
    ["icons"]. *)
Definition iconAdd (dataFolder : string) (ctx : Context) (incoming : list Message)
    (iconName : string) : M CmdState unit :=
  imageAdd dataFolder ctx incoming iconName Icons.

Definition iconRemove (dataFolder : string) (ctx : Context) (incoming : list Message)
    (iconName : string) : M CmdState unit :=
  imageRemove dataFolder ctx incoming iconName Icons.

Definition iconShow (dataFolder : string) (ctx : Context) (iconName : string)
  : M ShowState unit :=
  imageShow dataFolder ctx iconName Icons.

Definition iconList (pagify : string -> Z -> list string) (ctx : Context)
  : M CmdState unit :=
  imageList pagify ctx Icons.

Definition iconSet (ctx : Context) (month day : Z) (iconName : string)
  : M CmdState unit :=
  imageDateSet ctx month day iconName Icons.

Definition iconReset (ctx : Context) (month day : Z) : M CmdState unit :=
  imageDateReset ctx month day Icons.

Definition bannerAdd (dataFolder : string) (ctx : Context) (incoming : list Message)
    (bannerName : string) : M CmdState unit :=
  imageAdd dataFolder ctx incoming bannerName Banners.

Definition bannerRemove (dataFolder : string) (ctx : Context)
    (incoming : list Message) (bannerName : string) : M CmdState unit :=
  imageRemove dataFolder ctx incoming bannerName Banners.

Definition bannerShow (dataFolder : string) (ctx : Context) (bannerName : string)
  : M ShowState unit :=
  imageShow dataFolder ctx bannerName Banners.

Definition bannerList (pagify : string -> Z -> list string) (ctx : Context)
  : M CmdState unit :=
  imageList pagify ctx Banners.

Definition bannerSet (ctx : Context) (month day : Z) (bannerName : string)
  : M CmdState unit :=
  imageDateSet ctx month day bannerName Banners.

Definition bannerReset (ctx : Context) (month day : Z) : M CmdState unit :=
  imageDateReset ctx month day Banners.

End Surface.

Import Cog.

(** ** Specification-side definitions *)

(** The length of month [m] in a common year. *)
Definition common_year_length (m : Z) : Z :=
  match m with
  | 1 => 31 | 2 => 28 | 3 => 31 | 4 => 30 | 5 => 31 | 6 => 30
  | 7 => 31 | 8 => 31 | 9 => 30 | 10 => 31 | 11 => 30 | 12 => 31
  | _ => 0
  end.

(** A real month/day pair, as the specification words it: month 1-12, day
    within the month's length, 29 February allowed. *)
Definition real_calendar_date (m d : Z) : Prop :=
  1 <= m <= 12 /\ 1 <= d /\ (d <= common_year_length m \/ (m = 2 /\ d = 29)).

(** The date key ["MM-DD"], zero-padded, as the specification words it. *)
Definition date_key (m d : Z) : string :=
  PyStr.pad2 m +:+ "-" +:+ PyStr.pad2 d.

(** Between [st] and [st'], nothing but the schedule table of guild [gid]
    and category [ty] may differ. *)
Definition only_dates_differ (gid : Z) (ty : ImageType) (st st' : Store) : Prop :=
  (forall ty', images_of (guild_conf st' gid) ty' = images_of (guild_conf st gid) ty')
  /\ (forall ty', ty' <> ty ->
        dates_of (guild_conf st' gid) ty' = dates_of (guild_conf st gid) ty')
  /\ (forall gid', gid' <> gid -> guild_conf st' gid' = guild_conf st gid')
  /\ files st' = files st.

(** The schedule table without the entries whose value is [name]. *)
Definition without_asset (name : string) (dates : gmap string string)
  : gmap string string :=
  filter (fun item => item.2 <> name) dates.

(** Between [st] and [st'], nothing but the registry of guild [gid] and
    category [ty] and the files may differ. *)
Definition only_images_differ (gid : Z) (ty : ImageType) (st st' : Store) : Prop :=
  (forall ty', ty' <> ty ->
     images_of (guild_conf st' gid) ty' = images_of (guild_conf st gid) ty')
  /\ (forall ty', dates_of (guild_conf st' gid) ty' = dates_of (guild_conf st gid) ty')
  /\ (forall gid', gid' <> gid -> guild_conf st' gid' = guild_conf st gid').

(** An attachment without dimensions: height and width both absent or zero.
    (Discord sets both for an image and neither for any other file.) *)
Definition no_dimensions (a : Attachment) : Prop :=
  (height a = None \/ height a = Some 0) /\ (width a = None \/ width a = Some 0).

(** The extension of an attachment's file name, compared without case. *)
Definition extension (a : Attachment) : string :=
  PyStr.lower (snd (PyStr.splitext (att_filename a))).

(** Every key of a schedule table reads back as a day of 2020. *)
Definition keys_parse (dates : gmap string string) : Prop :=
  forall k v, dates !! k = Some v ->
    exists t, Calendar.fromisoformat_2020 k = Returned t.

(** The invariant of the schedule: every entry names a registered asset of
    the same guild and category. *)
Definition schedule_refers_to_assets (st : Store) : Prop :=
  forall gid ty k n,
    dates_of (guild_conf st gid) ty !! k = Some n ->
    is_Some (images_of (guild_conf st gid) ty !! n).

(** The operations of the command surface, with what each one reads from
    its environment (the invoking message, the messages that arrive while a
    confirmation is awaited). *)
Inductive Command : Type :=
  | Add (ctx : Context) (incoming : list Message) (name : string) (ty : ImageType)
  | Remove (ctx : Context) (incoming : list Message) (name : string) (ty : ImageType)
  | ListDates (pagify : string -> Z -> list string) (ctx : Context) (ty : ImageType)
  | SetDate (ctx : Context) (month day : Z) (name : string) (ty : ImageType)
  | ResetDate (ctx : Context) (month day : Z) (ty : ImageType).

Definition run_command (dataFolder : string) (cmd : Command) : M CmdState unit :=
  match cmd with
  | Add ctx incoming name ty => imageAdd dataFolder ctx incoming name ty
  | Remove ctx incoming name ty => imageRemove dataFolder ctx incoming name ty
  | ListDates pagify ctx ty => imageList pagify ctx ty
  | SetDate ctx month day name ty => imageDateSet ctx month day name ty
  | ResetDate ctx month day ty => imageDateReset ctx month day ty
  end.

(** The stores the commands can produce, starting from the registered
    defaults (no guild has any entry) and any content of the data folder. *)
Inductive reachable (dataFolder : string) : Store -> Prop :=
  | reachable_init (fs : gmap string (list Byte.byte)) :
      reachable dataFolder (mkStore ∅ fs)
  | reachable_step (st : Store) (cmd : Command) (snt : list Sent) :
      reachable dataFolder st ->
      reachable dataFolder (store (run_command dataFolder cmd (mkCmdState st snt)).2).

(** The store after the attachment [image] was saved as [name]: the file
    written, the registry entry set. *)
Definition store_after_add (dataFolder : string) (ctx : Context) (name : string)
    (ty : ImageType) (c : CmdState) (image : Attachment) : Store :=
  let gid := guild_id (guild ctx) in
  let images := images_of (guild_conf (store c) gid) ty in
  let imageDict := mkImageDetails (name +:+ extension image) in
  update_guild gid (set_images ty (<[name := imageDict]> images))
    (mkStore (config (store c))
             (<[getFullFilepath dataFolder (guild ctx) imageDict ty := att_bytes image]>
                (files (store c)))).

(** The store after a confirmed removal: the file is gone (if it was there),
    then the registry entry, then the schedule entries that named it. *)
Definition store_after_remove (dataFolder : string) (ctx : Context) (name : string)
    (ty : ImageType) (c : CmdState) (details : ImageDetails) : Store :=
  let gid := guild_id (guild ctx) in
  let images := images_of (guild_conf (store c) gid) ty in
  let dates := dates_of (guild_conf (store c) gid) ty in
  update_guild gid (set_dates ty (without_asset name dates))
    (update_guild gid (set_images ty (delete name images))
       (mkStore (config (store c))
                (delete (getFullFilepath dataFolder (guild ctx) details ty)
                        (files (store c))))).

(** The log record that marks the transition from idle to checking. *)
Definition checking_record : Applier.LogRecord :=
  Applier.mkLogRecord Applier.INFO
    "Checking to see if we need to change server images" [].

(** The state of the task after a pass that found the day unchanged. *)
Definition idle_pass (s : Applier.LoopState) : Applier.LoopState :=
  Applier.mkLoopState (Applier.lastChecked s) (S (Applier.ticks s))
                      (Applier.log s) (Applier.applied s).

(** The marker [lastChecked] was read from the clock after reading number
    [k0] and before the next reading to come. *)
Definition marker_after (clock : nat -> Calendar.DateTime) (k0 : nat)
    (s : Applier.LoopState) : Prop :=
  exists k, (k0 < k < Applier.ticks s)%nat /\ Applier.lastChecked s = clock k.

(** The guild and the category a command works on. *)
Definition command_guild (cmd : Command) : Z :=
  match cmd with
  | Add ctx _ _ _ | Remove ctx _ _ _ | ListDates _ ctx _
  | SetDate ctx _ _ _ _ | ResetDate ctx _ _ _ => guild_id (guild ctx)
  end.

Definition command_type (cmd : Command) : ImageType :=
  match cmd with
  | Add _ _ _ ty | Remove _ _ _ ty | ListDates _ _ ty
  | SetDate _ _ _ _ ty | ResetDate _ _ _ ty => ty
  end.

(** A command leaves the registry and the schedule of category [ty] as they
    are, in every guild. *)
Definition leaves_category_alone (ty : ImageType) (m : M CmdState unit) : Prop :=
  forall c gid,
    images_of (guild_conf (store (m c).2) gid) ty
    = images_of (guild_conf (store c) gid) ty
    /\ dates_of (guild_conf (store (m c).2) gid) ty
       = dates_of (guild_conf (store c) gid) ty.

(** A message written by someone else than the invoker of [ctx], or in
    another channel. *)
Definition from_elsewhere (ctx : Context) (m : Message) : Prop :=
  author m <> author (message ctx) \/ channel m <> channel (message ctx).

(** Whether a byte occurs in a string. *)
Fixpoint has_byte (a : ascii) (s : string) : bool :=
  match s with
  | EmptyString => false
  | String b rest => Ascii.eqb a b || has_byte a rest
  end.

(** A plain name: no [/] and no NUL in it, and at most 251 bytes, so that
    the name followed by the four bytes of [.png] or [.gif] is a file name
    (at most 255 bytes) in the directory of its guild and category. *)
Definition plain_name (name : string) : bool :=
  negb (has_byte "/" name) && negb (has_byte Ascii.zero name)
  && (Z.of_nat (String.length name) <=? 251).

(** The title of the embeds of a listing. *)
Definition list_title (ctx : Context) (ty : ImageType) : string :=
  "Server " +:+ getSingularImageType ty +:+ " changes for "
    +:+ guild_name (guild ctx).

(** The menu opened on a text: the pages the pager makes of it, each in an
    embed with the title and its page number. *)
Definition menu_of (pagify : string -> Z -> list string) (title text : string)
  : Sent :=
  Menu (embeds_from title (Z.of_nat (length (pagify text 2000))) 1
                    (pagify text 2000)).

(** A name is unassigned when it is registered and scheduled on no date. *)
Definition unassigned (images : gmap string ImageDetails)
    (dates : gmap string string) (n : string) : Prop :=
  is_Some (images !! n) /\ forall k, dates !! k <> Some n.

(** The end of a listing: nothing when every name is scheduled, otherwise
    the unassigned names, each once, in some order. *)
Definition unassigned_tail (images : gmap string ImageDetails)
    (dates : gmap string string) (tail : string) : Prop :=
  (tail = "" /\ forall n, ~ unassigned images dates n)
  \/ (exists l, l <> [] /\ NoDup l
                /\ (forall n, n ∈ l <-> unassigned images dates n)
                /\ tail = "Unassigned: " +:+ join_comma l).

(** A pager that leaves a text on one page, as [pagify] does with a short
    text that has no mass mention. *)
Definition one_page (text : string) (page_length : Z) : list string := [text].

(** Month [m1], day [d1] comes before month [m2], day [d2] in the year. *)
Definition calendar_before (m1 d1 m2 d2 : Z) : Prop :=
  m1 < m2 \/ (m1 = m2 /\ d1 < d2).

(** ** Sample data *)

Definition sample_guild : Guild := mkGuild 42 "Guild".

Definition sample_attachment : Attachment :=
  mkAttachment "Winter.PNG" (Some 200) (Some 200) [Byte.x89; Byte.x50].

Definition sample_ctx : Context :=
  mkContext sample_guild (mkMessage 7 9 "[p]sm icons add winter" [sample_attachment]).

(** One icon, [winter], registered and stored; nothing scheduled. *)
Definition sample_store : Store :=
  mkStore {[ 42 := mkGuildConfig {[ "winter" := mkImageDetails "winter.png" ]} ∅ ∅ ∅ ]}
          {[ "/data/42/icons/winter.png" := [Byte.x01] ]}.

Definition sample_state : CmdState := mkCmdState sample_store [].

(** Two icons, [winter] scheduled twice and [summer] once. *)
Definition scheduled_store : Store :=
  mkStore
    {[ 42 := mkGuildConfig
               {[ "winter" := mkImageDetails "winter.png";
                  "summer" := mkImageDetails "summer.gif" ]}
               {[ "12-25" := "winter"; "07-01" := "summer"; "01-01" := "winter" ]}
               ∅ ∅ ]}
    {[ "/data/42/icons/winter.png" := [Byte.x01];
       "/data/42/icons/summer.gif" := [Byte.x02] ]}.

Definition scheduled_state : CmdState := mkCmdState scheduled_store [].

(** Replies of the author of [sample_ctx] in its channel, and of a stranger. *)
Definition reply_YES : Message := mkMessage 7 9 "YES" [].
Definition reply_no : Message := mkMessage 7 9 "no" [].
Definition reply_stranger : Message := mkMessage 8 9 "yes" [].

(** Messages with no attachment, with a file that is not an image, and with
    an image of another format. *)
Definition ctx_no_attachment : Context :=
  mkContext sample_guild (mkMessage 7 9 "[p]sm icons add winter" []).

Definition ctx_not_image : Context :=
  mkContext sample_guild
    (mkMessage 7 9 "[p]sm icons add winter"
       [mkAttachment "notes.png" None None [Byte.x41]]).

Definition ctx_jpeg : Context :=
  mkContext sample_guild
    (mkMessage 7 9 "[p]sm icons add winter"
       [mkAttachment "winter.jpg" (Some 200) (Some 200) [Byte.xff]]).

(** A store reached by two commands: add [winter], schedule it. *)
Definition store_after_two_commands : Store :=
  store (run_command "/data" (SetDate sample_ctx 12 25 "winter" Icons)
           (mkCmdState
              (store (run_command "/data" (Add sample_ctx [] "winter" Icons)
                        (mkCmdState (mkStore ∅ ∅) [])).2) [])).2.

(** A clock that stays within 25 December 2020, one microsecond a reading. *)
Definition christmas_clock (n : nat) : Calendar.DateTime :=
  Calendar.mkDateTime 2020 12 25 0 0 0 (Z.of_nat n).

(** An environment with no guild, and one with two guilds that both have an
    icon scheduled for 25 December: the file of the first is missing, the
    second is in order. *)
Definition env_no_guild : Applier.Env :=
  Applier.mkEnv "/data" (mkStore ∅ ∅) [] (fun _ _ => None).

Definition env_missing_file : Applier.Env :=
  Applier.mkEnv "/data"
    (mkStore
       {[ 42 := mkGuildConfig {[ "winter" := mkImageDetails "winter.png" ]}
                              {[ "12-25" := "winter" ]} ∅ ∅;
          43 := mkGuildConfig {[ "snow" := mkImageDetails "snow.png" ]}
                              {[ "12-25" := "snow" ]} ∅ ∅ ]}
       {[ "/data/43/icons/snow.png" := [Byte.x02] ]})
    [mkGuild 42 "First"; mkGuild 43 "Second"]
    (fun _ _ => None).

(** The same two guilds with both files present; the platform refuses the
    edits of guild 42. *)
Definition env_forbidden : Applier.Env :=
  Applier.mkEnv "/data"
    (mkStore
       {[ 42 := mkGuildConfig {[ "winter" := mkImageDetails "winter.png" ]}
                              {[ "12-25" := "winter" ]} ∅ ∅;
          43 := mkGuildConfig {[ "snow" := mkImageDetails "snow.png" ]}
                              {[ "12-25" := "snow" ]} ∅ ∅ ]}
       {[ "/data/42/icons/winter.png" := [Byte.x01];
          "/data/43/icons/snow.png" := [Byte.x02] ]})
    [mkGuild 42 "First"; mkGuild 43 "Second"]
    (fun _ gid => if gid =? 42 then Some Forbidden else None).

(** One guild with an icon scheduled for 25 December, its file in place and
    a platform that accepts the edit. *)
Definition env_scheduled : Applier.Env :=
  Applier.mkEnv "/data"
    (mkStore
       {[ 42 := mkGuildConfig {[ "winter" := mkImageDetails "winter.png" ]}
                              {[ "12-25" := "winter" ]} ∅ ∅ ]}
       {[ "/data/42/icons/winter.png" := [Byte.x01] ]})
    [mkGuild 42 "First"]
    (fun _ _ => None).

(** A clock that never runs backwards, first read on 26 November 2020 and
    then not before 25 December 2020: the task was held up for a month. *)
Definition month_later_clock (n : nat) : Calendar.DateTime :=
  match n with
  | O => Calendar.mkDateTime 2020 11 26 0 0 0 0
  | _ => Calendar.mkDateTime 2020 12 25 0 0 0 (Z.of_nat n)
  end.

(** A local clock that is set back by an hour just after midnight: readings
    0 to 4 fall on 25 December 2020 after 00:00, readings 5 to 8 on
    24 December after 23:00, the later ones on 25 December again. *)
Definition set_back_clock (n : nat) : Calendar.DateTime :=
  if (n <? 5)%nat then Calendar.mkDateTime 2020 12 25 0 0 (Z.of_nat n) 0
  else if (n <? 9)%nat then Calendar.mkDateTime 2020 12 24 23 0 (Z.of_nat n) 0
  else Calendar.mkDateTime 2020 12 25 0 0 (Z.of_nat n) 0.

(** The state after [winter] was added to an empty configuration. *)
Definition added_state : CmdState :=
  mkCmdState
    (store (run_command "/data" (Add sample_ctx [] "winter" Icons)
              (mkCmdState (mkStore ∅ ∅) [])).2) [].

(** A message whose attachment is a GIF, and one whose attachment has a
    height but no width. *)
Definition ctx_gif : Context :=
  mkContext sample_guild
    (mkMessage 7 9 "[p]sm icons add winter"
       [mkAttachment "Winter.GIF" (Some 64) (Some 64) [Byte.x47; Byte.x49]]).

Definition ctx_one_dimension : Context :=
  mkContext sample_guild
    (mkMessage 7 9 "[p]sm icons add tall"
       [mkAttachment "tall.png" (Some 10) None [Byte.x01]]).

(** Stores reached by one to four commands: two icons added, each
    scheduled. *)
Definition listed_store_1 : Store :=
  store (run_command "/data" (Add sample_ctx [] "winter" Icons)
           (mkCmdState (mkStore ∅ ∅) [])).2.

Definition listed_store_2 : Store :=
  store (run_command "/data" (Add ctx_gif [] "summer" Icons)
           (mkCmdState listed_store_1 [])).2.

Definition listed_store_3 : Store :=
  store (run_command "/data" (SetDate sample_ctx 12 25 "winter" Icons)
           (mkCmdState listed_store_2 [])).2.

Definition listed_store_4 : Store :=
  store (run_command "/data" (SetDate sample_ctx 7 1 "summer" Icons)
           (mkCmdState listed_store_3 [])).2.

Definition listed_state : CmdState := mkCmdState listed_store_4 [].

(** ** Facts about dates *)

Lemma month_cases (m : Z) :
  1 <= m <= 12 ->
  m = 1 \/ m = 2 \/ m = 3 \/ m = 4 \/ m = 5 \/ m = 6 \/
  m = 7 \/ m = 8 \/ m = 9 \/ m = 10 \/ m = 11 \/ m = 12.
Proof. lia. Qed.

Ltac each_month H :=
  apply month_cases in H;
  repeat (destruct H as [H | H]); subst.

Lemma days_in_2020 (m : Z) :
  1 <= m <= 12 ->
  Calendar.days_in_month 2020 m = if m =? 2 then 29 else common_year_length m.
Proof. intros H. each_month H; reflexivity. Qed.

Lemma days_in_month_le_31 (y m : Z) : Calendar.days_in_month y m <= 31.
Proof.
  unfold Calendar.days_in_month, Calendar.DAYS_IN_MONTH.
  destruct ((m =? 2) && Calendar.is_leap y); [lia|].
  generalize (Z.to_nat m). intros n.
  do 13 (destruct n as [|n]; [simpl; lia|]).
  destruct n; simpl; lia.
Qed.

Lemma fits_c_int_spec (n : Z) :
  Calendar.fits_c_int n = true <-> -2147483648 <= n <= 2147483647.
Proof.
  unfold Calendar.fits_c_int, Calendar.C_INT_MIN, Calendar.C_INT_MAX.
  rewrite andb_true_iff, !Z.leb_le. done.
Qed.

Lemma datetime_2020_overflow (m d : Z) :
  Calendar.fits_c_int m && Calendar.fits_c_int d = false ->
  Calendar.datetime 2020 m d = Raised OverflowError.
Proof.
  intros H. unfold Calendar.datetime.
  change (Calendar.fits_c_int 2020) with true. cbn [andb].
  by rewrite H.
Qed.

Lemma datetime_2020_ok (m d : Z) :
  1 <= m <= 12 -> 1 <= d <= Calendar.days_in_month 2020 m ->
  Calendar.datetime 2020 m d = Returned (Calendar.mkDateTime 2020 m d 0 0 0 0).
Proof.
  intros Hm Hd. unfold Calendar.datetime.
  pose proof (days_in_month_le_31 2020 m) as H31.
  assert (Calendar.fits_c_int m = true) as -> by (apply fits_c_int_spec; lia).
  assert (Calendar.fits_c_int d = true) as -> by (apply fits_c_int_spec; lia).
  change (Calendar.fits_c_int 2020) with true. cbn [andb negb].
  replace (negb ((Calendar.MINYEAR <=? 2020) && (2020 <=? Calendar.MAXYEAR)))
    with false by reflexivity.
  destruct (Z.leb_spec 1 m); [|lia].
  destruct (Z.leb_spec m 12); [|lia].
  destruct (Z.leb_spec 1 d); [|lia].
  destruct (Z.leb_spec d (Calendar.days_in_month 2020 m)); [|lia].
  reflexivity.
Qed.

Lemma datetime_2020_invalid (m d : Z) :
  Calendar.fits_c_int m = true -> Calendar.fits_c_int d = true ->
  ~ (1 <= m <= 12 /\ 1 <= d <= Calendar.days_in_month 2020 m) ->
  Calendar.datetime 2020 m d = Raised ValueError.
Proof.
  intros Hm Hd Hn. unfold Calendar.datetime. rewrite Hm, Hd.
  change (Calendar.fits_c_int 2020) with true. cbn [andb negb].
  replace (negb ((Calendar.MINYEAR <=? 2020) && (2020 <=? Calendar.MAXYEAR)))
    with false by reflexivity.
  destruct (Z.leb_spec 1 m); destruct (Z.leb_spec m 12); simpl; try done.
  destruct (Z.leb_spec 1 d);
    destruct (Z.leb_spec d (Calendar.days_in_month 2020 m)); simpl; try done.
  exfalso. apply Hn. lia.
Qed.

Lemma validDate_true (m d : Z) :
  validDate m d = Returned true <->
  1 <= m <= 12 /\ 1 <= d <= Calendar.days_in_month 2020 m.
Proof.
  split.
  - intros H.
    destruct (Calendar.fits_c_int m && Calendar.fits_c_int d) eqn:Hfit.
    + apply andb_true_iff in Hfit as [Hm Hd].
      destruct (decide (1 <= m <= 12 /\ 1 <= d <= Calendar.days_in_month 2020 m))
        as [Hok | Hbad]; [done|].
      unfold validDate in H.
      by rewrite (datetime_2020_invalid m d Hm Hd Hbad) in H.
    + unfold validDate in H. by rewrite (datetime_2020_overflow m d Hfit) in H.
  - intros [Hm Hd]. unfold validDate. by rewrite datetime_2020_ok.
Qed.

Lemma validDate_datetime (m d : Z) :
  validDate m d = Returned true ->
  Calendar.datetime 2020 m d = Returned (Calendar.mkDateTime 2020 m d 0 0 0 0).
Proof. intros H. apply validDate_true in H as [Hm Hd]. by apply datetime_2020_ok. Qed.

Lemma real_calendar_date_2020 (m d : Z) :
  real_calendar_date m d <->
  1 <= m <= 12 /\ 1 <= d <= Calendar.days_in_month 2020 m.
Proof.
  unfold real_calendar_date. split.
  - intros (Hm & Hd1 & Hd2). split; [done|].
    rewrite days_in_2020 by done.
    each_month Hm; simpl in *; lia.
  - intros [Hm Hd]. rewrite days_in_2020 in Hd by done.
    split; [done|]. split; [lia|].
    each_month Hm; simpl in *; lia.
Qed.

Lemma validDate_iff_real (m d : Z) :
  validDate m d = Returned true <-> real_calendar_date m d.
Proof. by rewrite validDate_true, real_calendar_date_2020. Qed.

Lemma validDate_false (m d : Z) :
  Calendar.fits_c_int m = true -> Calendar.fits_c_int d = true ->
  ~ real_calendar_date m d -> validDate m d = Returned false.
Proof.
  intros Hm Hd Hn. unfold validDate.
  rewrite datetime_2020_invalid; try done.
  by rewrite <- real_calendar_date_2020.
Qed.

Lemma validDate_overflow (m d : Z) :
  Calendar.fits_c_int m && Calendar.fits_c_int d = false ->
  validDate m d = Raised OverflowError.
Proof. intros H. unfold validDate. by rewrite datetime_2020_overflow. Qed.

Lemma overflow_not_real (m d : Z) :
  Calendar.fits_c_int m && Calendar.fits_c_int d = false ->
  ~ real_calendar_date m d.
Proof.
  intros H Hreal. apply real_calendar_date_2020 in Hreal as [Hm Hd].
  pose proof (days_in_month_le_31 2020 m) as H31.
  assert (Calendar.fits_c_int m = true) as Hfm by (apply fits_c_int_spec; lia).
  assert (Calendar.fits_c_int d = true) as Hfd by (apply fits_c_int_spec; lia).
  by rewrite Hfm, Hfd in H.
Qed.

(** C3. [validDate month day] returns [True] exactly for the month/day pairs
    that form a real calendar date (month 1-12, day within the month's
    length, 29 February included because the reference year 2020 is a leap
    year).  For a pair that is no real date it returns [False] only while
    both numbers fit a C [int]; for a month or a day beyond that range the
    [datetime] constructor raises [OverflowError], which the [except
    ValueError] clause does not catch, so [validDate] raises instead of
    returning [False]: month 2147483648 with day 1 is such a pair. *)
Theorem validDate_raises_beyond_c_int (m d : Z) :
  (real_calendar_date m d -> validDate m d = Returned true)
  /\ (~ real_calendar_date m d ->
      Calendar.fits_c_int m = true -> Calendar.fits_c_int d = true ->
      validDate m d = Returned false)
  /\ (Calendar.fits_c_int m && Calendar.fits_c_int d = false ->
      ~ real_calendar_date m d /\ validDate m d = Raised OverflowError)
  /\ ~ real_calendar_date 2147483648 1
  /\ validDate 2147483648 1 = Raised OverflowError.
Proof.
  split; [apply validDate_iff_real|].
  split; [intros; by apply validDate_false|].
  split; [intros H; split; [by apply overflow_not_real | by apply validDate_overflow]|].
  split; [by apply overflow_not_real | reflexivity].
Qed.

Lemma validDate_raises_beyond_c_int_witness :
  validDate 2 29 = Returned true
  /\ validDate 2 30 = Returned false
  /\ validDate 13 1 = Returned false
  /\ validDate 1 2147483648 = Raised OverflowError.
Proof.
  split; [|split; [|split]].
  - apply (proj1 (validDate_raises_beyond_c_int 2 29)).
    unfold real_calendar_date. simpl. lia.
  - apply (proj1 (proj2 (validDate_raises_beyond_c_int 2 30)));
      [unfold real_calendar_date; simpl; lia | reflexivity | reflexivity].
  - apply (proj1 (proj2 (validDate_raises_beyond_c_int 13 1)));
      [unfold real_calendar_date; simpl; lia | reflexivity | reflexivity].
  - apply (proj1 (proj2 (proj2 (validDate_raises_beyond_c_int 1 2147483648)))).
    reflexivity.
Defined.

(** ** Facts about the store *)

Lemma guild_conf_update_eq (gid : Z) (f : GuildConfig -> GuildConfig) (st : Store) :
  guild_conf (update_guild gid f st) gid = f (guild_conf st gid).
Proof. unfold guild_conf, update_guild. simpl. by rewrite lookup_insert_eq. Qed.

Lemma guild_conf_update_ne (gid gid' : Z) (f : GuildConfig -> GuildConfig) (st : Store) :
  gid <> gid' -> guild_conf (update_guild gid f st) gid' = guild_conf st gid'.
Proof.
  intros Hne. unfold guild_conf, update_guild. simpl.
  by rewrite lookup_insert_ne.
Qed.

Lemma files_update_guild (gid : Z) (f : GuildConfig -> GuildConfig) (st : Store) :
  files (update_guild gid f st) = files st.
Proof. reflexivity. Qed.

Lemma dates_of_set_dates_eq ty v c : dates_of (set_dates ty v c) ty = v.
Proof. by destruct ty. Qed.

Lemma dates_of_set_dates_ne ty ty' v c :
  ty' <> ty -> dates_of (set_dates ty v c) ty' = dates_of c ty'.
Proof. by destruct ty, ty'. Qed.

Lemma images_of_set_dates ty ty' v c : images_of (set_dates ty v c) ty' = images_of c ty'.
Proof. by destruct ty, ty'. Qed.

Lemma images_of_set_images_eq ty v c : images_of (set_images ty v c) ty = v.
Proof. by destruct ty. Qed.

Lemma images_of_set_images_ne ty ty' v c :
  ty' <> ty -> images_of (set_images ty v c) ty' = images_of c ty'.
Proof. by destruct ty, ty'. Qed.

Lemma dates_of_set_images ty ty' v c : dates_of (set_images ty v c) ty' = dates_of c ty'.
Proof. by destruct ty, ty'. Qed.

Create Rewrite HintDb store.
#[local] Hint Rewrite guild_conf_update_eq files_update_guild dates_of_set_dates_eq
  images_of_set_dates images_of_set_images_eq dates_of_set_images : store.
#[local] Hint Rewrite guild_conf_update_ne dates_of_set_dates_ne
  images_of_set_images_ne using congruence : store.

Lemma bind_Returned {S A B} (m : M S A) (k : A -> M S B) (s : S) (a : A) (s' : S) :
  m s = (Returned a, s') -> bind m k s = k a s'.
Proof. intros H. unfold bind. by rewrite H. Qed.

Lemma bind_Raised {S A B} (m : M S A) (k : A -> M S B) (s : S) (e : PyExc) (s' : S) :
  m s = (Raised e, s') -> bind m k s = (Raised e, s').
Proof. intros H. unfold bind. by rewrite H. Qed.

Lemma for_each_cons {S A} (x : A) (l : list A) (body : A -> M S unit) (s : S) :
  for_each (x :: l) body s
  = match body x s with
    | (Returned _, s') => for_each l body s'
    | (Raised e, s') => (Raised e, s')
    end.
Proof. reflexivity. Qed.

(** Unfold the monadic plumbing of a command applied to a state. *)
Lemma bind_lift_Returned {S A B} (a : A) (k : A -> M S B) (s : S) :
  bind (lift (Returned a)) k s = k a s.
Proof. reflexivity. Qed.

Lemma bind_lift_Raised {S A B} (e : PyExc) (k : A -> M S B) (s : S) :
  bind (lift (Raised e)) k s = (Raised e, s).
Proof. reflexivity. Qed.

Ltac run_cmd :=
  unfold bind, read_images, read_dates, write_images, write_dates, send,
         send_menu, save, gets, lift, ret, raise, modify; simpl.

(** ** [imageDateSet] and [imageDateReset], path by path *)

Section DateCommands.

Variables (ctx : Context) (month day : Z) (ty : ImageType) (c : CmdState).

Let gid := guild_id (guild ctx).
Let images := images_of (guild_conf (store c) gid) ty.
Let dates := dates_of (guild_conf (store c) gid) ty.
Let theDate := Calendar.mkDateTime 2020 month day 0 0 0 0.

Lemma strftime_md_key : Calendar.strftime_md theDate = date_key month day.
Proof. reflexivity. Qed.

Lemma imageDateSet_invalid name :
  validDate month day = Returned false ->
  imageDateSet ctx month day name ty c
  = (Returned tt,
     mkCmdState (store c) (sent c ++ [Text "Please enter a valid date!"])).
Proof. intros Hv. unfold imageDateSet. by rewrite Hv, bind_lift_Returned. Qed.

Lemma imageDateSet_unknown name :
  validDate month day = Returned true -> images !! name = None ->
  imageDateSet ctx month day name ty c
  = (Returned tt,
     mkCmdState (store c)
       (sent c ++ [Text ("This " +:+ getSingularImageType ty +:+ " doesn't exist!")])).
Proof.
  intros Hv Hn. unfold imageDateSet. rewrite Hv, bind_lift_Returned. cbn [negb].
  unfold bind at 1, read_images at 1, gets at 1.
  fold gid. fold images. rewrite Hn.
  rewrite bool_decide_eq_false_2 by (intros [? ?]; discriminate).
  reflexivity.
Qed.

Lemma imageDateSet_ok name :
  validDate month day = Returned true -> is_Some (images !! name) ->
  imageDateSet ctx month day name ty c
  = (Returned tt,
     mkCmdState
       (update_guild gid (set_dates ty (<[date_key month day := name]> dates))
                     (store c))
       (sent c ++ [Text ("On " +:+ Calendar.strftime_Bd theDate +:+ ", the server "
                           +:+ getSingularImageType ty +:+ " will change to "
                           +:+ name)])).
Proof.
  intros Hv Hn. unfold imageDateSet. rewrite Hv, bind_lift_Returned. cbn [negb].
  unfold bind at 1, read_images at 1, gets at 1.
  rewrite bool_decide_eq_true_2 by done. cbn [negb].
  rewrite (validDate_datetime _ _ Hv). by run_cmd.
Qed.

Lemma imageDateReset_invalid :
  validDate month day = Returned false ->
  imageDateReset ctx month day ty c
  = (Returned tt,
     mkCmdState (store c) (sent c ++ [Text "Please enter a valid date!"])).
Proof. intros Hv. unfold imageDateReset. by rewrite Hv, bind_lift_Returned. Qed.

Lemma imageDateReset_present :
  validDate month day = Returned true -> is_Some (dates !! date_key month day) ->
  imageDateReset ctx month day ty c
  = (Returned tt,
     mkCmdState
       (update_guild gid (set_dates ty (delete (date_key month day) dates))
                     (store c))
       (sent c ++ [Text ("Removed " +:+ Calendar.strftime_Bd theDate +:+ " from "
                           +:+ getSingularImageType ty +:+ " changes.")])).
Proof.
  intros Hv Hn. unfold imageDateReset. rewrite Hv, bind_lift_Returned. cbn [negb].
  rewrite (validDate_datetime _ _ Hv). run_cmd.
  fold gid. fold dates. change (Calendar.strftime_md _) with (date_key month day).
  by rewrite bool_decide_eq_true_2 by done.
Qed.

Lemma imageDateReset_absent :
  validDate month day = Returned true -> dates !! date_key month day = None ->
  imageDateReset ctx month day ty c
  = (Returned tt,
     mkCmdState (store c)
       (sent c ++ [Text ("There are no " +:+ getSingularImageType ty
                           +:+ " changes on this date!")])).
Proof.
  intros Hv Hn. unfold imageDateReset. rewrite Hv, bind_lift_Returned. cbn [negb].
  rewrite (validDate_datetime _ _ Hv). run_cmd.
  fold gid. fold dates. change (Calendar.strftime_md _) with (date_key month day).
  rewrite Hn. by rewrite bool_decide_eq_false_2 by (intros [? ?]; discriminate).
Qed.

Lemma imageDateSet_raised name e :
  validDate month day = Raised e ->
  imageDateSet ctx month day name ty c = (Raised e, c).
Proof. intros Hv. unfold imageDateSet. by rewrite Hv, bind_lift_Raised. Qed.

Lemma imageDateReset_raised e :
  validDate month day = Raised e ->
  imageDateReset ctx month day ty c = (Raised e, c).
Proof. intros Hv. unfold imageDateReset. by rewrite Hv, bind_lift_Raised. Qed.

End DateCommands.

Lemma only_dates_differ_update gid ty v st :
  only_dates_differ gid ty st (update_guild gid (set_dates ty v) st).
Proof.
  repeat split; intros; autorewrite with store; reflexivity.
Qed.

(** C4. [imageDateSet category month day name]: when the month/day is not a
    valid calendar date or [name] is not in the registry of that guild and
    category, no schedule entry is created or changed (the store is left as
    it was); otherwise the command returns, the entry for the zero-padded key
    ["MM-DD"] is created or overwritten to map to [name], and nothing else
    changes. *)
Theorem imageDateSet_spec (ctx : Context) (month day : Z) (name : string)
    (ty : ImageType) (c : CmdState) :
  let gid := guild_id (guild ctx) in
  let r := imageDateSet ctx month day name ty c in
  (~ real_calendar_date month day
   \/ images_of (guild_conf (store c) gid) ty !! name = None ->
   store r.2 = store c)
  /\ (real_calendar_date month day ->
      is_Some (images_of (guild_conf (store c) gid) ty !! name) ->
      r.1 = Returned tt
      /\ dates_of (guild_conf (store r.2) gid) ty
         = <[date_key month day := name]> (dates_of (guild_conf (store c) gid) ty)
      /\ only_dates_differ gid ty (store c) (store r.2)).
Proof.
  intros gid r. subst r. split.
  - intros H. destruct (validDate month day) as [[|]|e] eqn:Hv.
    + destruct H as [H | H]; [by apply validDate_iff_real in Hv|].
      by rewrite imageDateSet_unknown.
    + by rewrite imageDateSet_invalid.
    + by rewrite (imageDateSet_raised _ _ _ _ _ _ e).
  - intros Hv%validDate_iff_real Hn. rewrite imageDateSet_ok by done. simpl.
    split; [done|]. split.
    + by autorewrite with store.
    + apply only_dates_differ_update.
Qed.

Lemma imageDateSet_spec_witness :
  store (imageDateSet sample_ctx 2 30 "winter" Icons sample_state).2 = sample_store
  /\ store (imageDateSet sample_ctx 2147483648 1 "winter" Icons sample_state).2
     = sample_store
  /\ store (imageDateSet sample_ctx 12 25 "summer" Icons sample_state).2 = sample_store
  /\ (imageDateSet sample_ctx 3 7 "winter" Icons sample_state).1 = Returned tt
  /\ dates_of (guild_conf
       (store (imageDateSet sample_ctx 3 7 "winter" Icons sample_state).2) 42) Icons
     = <[ "03-07" := "winter" ]> ∅.
Proof.
  split; [|split; [|split; [|split]]].
  - apply (proj1 (imageDateSet_spec sample_ctx 2 30 "winter" Icons sample_state)).
    left. unfold real_calendar_date. simpl. lia.
  - apply (proj1 (imageDateSet_spec sample_ctx 2147483648 1 "winter" Icons
                    sample_state)).
    left. unfold real_calendar_date. simpl. lia.
  - apply (proj1 (imageDateSet_spec sample_ctx 12 25 "summer" Icons sample_state)).
    right. reflexivity.
  - apply (proj2 (imageDateSet_spec sample_ctx 3 7 "winter" Icons sample_state)).
    + unfold real_calendar_date. simpl. lia.
    + by eexists.
  - apply (proj2 (imageDateSet_spec sample_ctx 3 7 "winter" Icons sample_state)).
    + unfold real_calendar_date. simpl. lia.
    + by eexists.
Defined.

(** ** The cascade of [imageRemove] *)

Lemma elem_of_datesToRemove (name : string) (dates : gmap string string) (k : string) :
  k ∈ datesToRemove name dates <-> dates !! k = Some name.
Proof.
  unfold datesToRemove. rewrite list_elem_of_fmap. split.
  - intros [[k' v] [-> [Hv Hin]%list_elem_of_filter]]. simpl in *.
    apply elem_of_map_to_list in Hin. by subst.
  - intros Hk. exists (k, name). split; [done|].
    apply list_elem_of_filter. split; [done|]. by apply elem_of_map_to_list.
Qed.

Lemma NoDup_datesToRemove (name : string) (dates : gmap string string) :
  NoDup (datesToRemove name dates).
Proof.
  unfold datesToRemove.
  eapply sublist_NoDup; [apply (NoDup_fst_map_to_list dates)|].
  apply fmap_sublist, sublist_filter.
Qed.

(** Deleting distinct keys that are all present never raises, and removes
    these keys and no other. *)
Lemma del_all_lookup (ks : list string) (m : gmap string string) :
  NoDup ks -> (forall k, k ∈ ks -> is_Some (m !! k)) ->
  exists m', del_all ks m = Returned m'
    /\ forall k, m' !! k = if decide (k ∈ ks) then None else m !! k.
Proof.
  revert m. induction ks as [|k ks IH]; intros m Hnd Hin.
  - exists m. split; [done|]. intros k. by rewrite decide_False by set_solver.
  - apply NoDup_cons in Hnd as [Hk Hnd].
    destruct (Hin k) as [v Hv]; [set_solver|].
    simpl. unfold pydel. rewrite Hv.
    destruct (IH (delete k m) Hnd) as (m' & Hm' & Hl).
    { intros k' Hk'. rewrite lookup_delete_ne by set_solver.
      apply Hin. set_solver. }
    exists m'. split; [done|]. intros j. rewrite Hl.
    destruct (decide (j ∈ ks)) as [Hj | Hj].
    + by rewrite decide_True by set_solver.
    + destruct (decide (j = k)) as [-> | Hne].
      * rewrite decide_True by apply list_elem_of_here. apply lookup_delete_eq.
      * rewrite decide_False; [by apply lookup_delete_ne|].
        rewrite elem_of_cons. by intros [?|?].
Qed.

Lemma del_all_datesToRemove (name : string) (dates : gmap string string) :
  del_all (datesToRemove name dates) dates = Returned (without_asset name dates).
Proof.
  destruct (del_all_lookup (datesToRemove name dates) dates) as (m' & -> & Hl).
  - apply NoDup_datesToRemove.
  - intros k Hk. apply elem_of_datesToRemove in Hk. eauto.
  - f_equal. apply map_eq. intros k. rewrite Hl. unfold without_asset.
    destruct (decide (k ∈ datesToRemove name dates)) as [Hk | Hk].
    + apply elem_of_datesToRemove in Hk. symmetry.
      apply map_lookup_filter_None. right. intros v Hv. simpl.
      rewrite Hk in Hv. intros Hne. congruence.
    + rewrite elem_of_datesToRemove in Hk.
      destruct (dates !! k) as [v|] eqn:Hv.
      * symmetry. apply map_lookup_filter_Some. split; [done|].
        simpl. congruence.
      * symmetry. apply map_lookup_filter_None. by left.
Qed.

Lemma lookup_without_asset_eq (name k : string) (dates : gmap string string) :
  dates !! k = Some name -> without_asset name dates !! k = None.
Proof.
  intros Hk. apply map_lookup_filter_None. right. intros v Hv. simpl.
  rewrite Hk in Hv. congruence.
Qed.

Lemma lookup_without_asset_ne (name k v : string) (dates : gmap string string) :
  dates !! k = Some v -> v <> name -> without_asset name dates !! k = Some v.
Proof. intros Hk Hne. by apply map_lookup_filter_Some. Qed.

Lemma lookup_without_asset_Some (name k v : string) (dates : gmap string string) :
  without_asset name dates !! k = Some v -> dates !! k = Some v /\ v <> name.
Proof. intros H. apply map_lookup_filter_Some in H. exact H. Qed.

(** ** [imageRemove], path by path *)

Section RemoveCommand.

Variables (dataFolder : string) (ctx : Context) (incoming : list Message).
Variables (name : string) (ty : ImageType) (c : CmdState).

Let gid := guild_id (guild ctx).
Let images := images_of (guild_conf (store c) gid) ty.
Let dates := dates_of (guild_conf (store c) gid) ty.

Lemma imageRemove_unknown :
  images !! name = None ->
  imageRemove dataFolder ctx incoming name ty c
  = (Returned tt,
     mkCmdState (store c)
       (sent c ++ [Text ("This " +:+ getSingularImageType ty +:+ " doesn't exist!")])).
Proof.
  intros Hn. unfold imageRemove.
  unfold bind at 1, read_images at 1, gets at 1. fold gid. fold images.
  rewrite Hn. by rewrite bool_decide_eq_false_2 by (intros [? ?]; discriminate).
Qed.

Lemma imageRemove_timeout :
  is_Some (images !! name) -> wait_for (check ctx) incoming = None ->
  store (imageRemove dataFolder ctx incoming name ty c).2 = store c.
Proof.
  intros Hn Hw. unfold imageRemove.
  unfold bind at 1, read_images at 1, gets at 1.
  rewrite bool_decide_eq_true_2 by done. rewrite Hw. by run_cmd.
Qed.

Lemma imageRemove_declined response :
  is_Some (images !! name) -> wait_for (check ctx) incoming = Some response ->
  PyStr.lower (content response) <> "yes" ->
  store (imageRemove dataFolder ctx incoming name ty c).2 = store c.
Proof.
  intros Hn Hw Hno. unfold imageRemove.
  unfold bind at 1, read_images at 1, gets at 1.
  rewrite bool_decide_eq_true_2 by done. rewrite Hw.
  apply String.eqb_neq in Hno. rewrite Hno. by run_cmd.
Qed.

Lemma imageRemove_confirmed details response :
  images !! name = Some details ->
  wait_for (check ctx) incoming = Some response ->
  PyStr.lower (content response) = "yes" ->
  imageRemove dataFolder ctx incoming name ty c
  = (Returned tt,
     mkCmdState (store_after_remove dataFolder ctx name ty c details)
       (sent c ++ [Text "Are you sure you want to delete? Please type `yes` to confirm.";
                   Text ("Deleted the " +:+ getSingularImageType ty +:+ " named "
                           +:+ name +:+ "!")])).
Proof.
  intros Hn Hw Hyes. unfold imageRemove.
  rewrite (bind_Returned _ _ c images c) by reflexivity.
  rewrite bool_decide_eq_true_2 by (rewrite Hn; eauto). cbn [negb].
  set (c1 := mkCmdState (store c)
    (sent c ++ [Text "Are you sure you want to delete? Please type `yes` to confirm."])).
  rewrite (bind_Returned _ _ c tt c1) by reflexivity.
  rewrite Hw. apply String.eqb_eq in Hyes. rewrite Hyes. cbn [negb]. rewrite Hn.
  set (filepath := getFullFilepath dataFolder (guild ctx) details ty).
  set (c2 := mkCmdState
    (mkStore (config (store c)) (delete filepath (files (store c)))) (sent c1)).
  assert (Hrm : try_except (os_remove filepath) FileNotFoundError (ret tt) c1
                = (Returned tt, c2)).
  { unfold try_except, os_remove, c2. simpl.
    destruct (files (store c) !! filepath) as [data|] eqn:Hf; [done|].
    rewrite decide_True by done. rewrite (delete_id _ _ Hf).
    unfold ret, c1. by destruct c as [[? ?] ?]. }
  rewrite (bind_Returned _ _ c1 tt c2 Hrm).
  rewrite (bind_Returned _ _ c2 images c2) by reflexivity.
  unfold pydel. rewrite Hn. simpl lift.
  rewrite (bind_Returned _ _ c2 (delete name images) c2) by reflexivity.
  set (c3 := mkCmdState
    (update_guild gid (set_images ty (delete name images)) (store c2)) (sent c2)).
  rewrite (bind_Returned _ _ c2 tt c3) by reflexivity.
  rewrite (bind_Returned _ _ c3 dates c3).
  2: { unfold read_dates, gets, c3. simpl. fold gid. by autorewrite with store. }
  rewrite del_all_datesToRemove. simpl lift.
  rewrite (bind_Returned _ _ c3 (without_asset name dates) c3) by reflexivity.
  run_cmd. by rewrite <- app_assoc.
Qed.

End RemoveCommand.

(** C1. For every guild and category, removing an asset [name] that is
    registered, once the reply lower-cases to [yes], deletes the registry
    mapping for [name] (and the stored file), deletes every schedule entry
    whose value is [name], and leaves every schedule entry whose value is
    another name as it was; no entry is created. *)
Theorem imageRemove_cascade (dataFolder : string) (ctx : Context)
    (incoming : list Message) (name : string) (ty : ImageType) (c : CmdState)
    (details : ImageDetails) (response : Message) :
  let gid := guild_id (guild ctx) in
  let images := images_of (guild_conf (store c) gid) ty in
  let dates := dates_of (guild_conf (store c) gid) ty in
  let r := imageRemove dataFolder ctx incoming name ty c in
  let images' := images_of (guild_conf (store r.2) gid) ty in
  let dates' := dates_of (guild_conf (store r.2) gid) ty in
  images !! name = Some details ->
  wait_for (check ctx) incoming = Some response ->
  PyStr.lower (content response) = "yes" ->
  r.1 = Returned tt
  /\ images' = delete name images
  /\ files (store r.2) !! getFullFilepath dataFolder (guild ctx) details ty = None
  /\ (forall k, dates !! k = Some name -> dates' !! k = None)
  /\ (forall k v, dates !! k = Some v -> v <> name -> dates' !! k = Some v)
  /\ (forall k, dates !! k = None -> dates' !! k = None).
Proof.
  intros gid images dates r images' dates' Hn Hw Hyes.
  subst r images' dates'.
  rewrite (imageRemove_confirmed _ _ _ _ _ _ details response) by done.
  cbn [fst snd store]. unfold store_after_remove. fold gid.
  autorewrite with store. fold images dates.
  split; [done|]. split; [done|]. split; [apply lookup_delete_eq|].
  split; [|split].
  - intros k Hk. by apply lookup_without_asset_eq.
  - intros k v Hk Hv. by apply lookup_without_asset_ne.
  - intros k Hk. apply map_lookup_filter_None. by left.
Qed.

Lemma imageRemove_cascade_witness :
  let r := imageRemove "/data" sample_ctx [reply_stranger; reply_YES]
                       "winter" Icons scheduled_state in
  r.1 = Returned tt
  /\ images_of (guild_conf (store r.2) 42) Icons
     = {[ "summer" := mkImageDetails "summer.gif" ]}
  /\ dates_of (guild_conf (store r.2) 42) Icons !! "12-25" = None
  /\ dates_of (guild_conf (store r.2) 42) Icons !! "01-01" = None
  /\ dates_of (guild_conf (store r.2) 42) Icons !! "07-01" = Some "summer".
Proof.
  intros r.
  destruct (imageRemove_cascade "/data" sample_ctx [reply_stranger; reply_YES]
              "winter" Icons scheduled_state
              (mkImageDetails "winter.png") reply_YES)
    as (Hret & Himg & _ & Hgone & Hkept & _); try reflexivity.
  split; [exact Hret|]. split; [etrans; [exact Himg | by vm_compute]|].
  split; [apply Hgone; reflexivity|].
  split; [apply Hgone; reflexivity|].
  apply Hkept; [reflexivity | discriminate].
Defined.

(** ** [validateImageAttachment] *)

Lemma truthy_false (x : option Z) : truthy x = false <-> x = None \/ x = Some 0.
Proof.
  destruct x as [n|]; simpl.
  - rewrite negb_false_iff, Z.eqb_eq. split; [intros ->; by right|].
    intros [?|[= ->]]; done.
  - split; [by left|done].
Qed.

Lemma validate_count (msg : Message) :
  length (attachments msg) <> 1%nat ->
  validateImageAttachment msg = Raised InvalidAttachmentsError.
Proof.
  unfold validateImageAttachment.
  destruct (attachments msg) as [|a [|b l]]; simpl; done.
Qed.

Lemma validate_no_dimensions (msg : Message) (a : Attachment) :
  attachments msg = [a] -> no_dimensions a ->
  validateImageAttachment msg = Raised InvalidFileError.
Proof.
  intros Ha [Hh Hw]. unfold validateImageAttachment. rewrite Ha.
  apply truthy_false in Hh, Hw. by rewrite Hh, Hw.
Qed.

Lemma validate_extension (msg : Message) (a : Attachment) :
  attachments msg = [a] -> extension a ∉ [".png"; ".gif"] ->
  validateImageAttachment msg = Raised InvalidFileError
  \/ validateImageAttachment msg = Raised InvalidImageError.
Proof.
  intros Ha He. unfold validateImageAttachment. rewrite Ha.
  destruct (negb (truthy (height a)) && negb (truthy (width a))); [by left|].
  right. fold (extension a). by rewrite bool_decide_eq_false_2.
Qed.

Lemma validate_Returned (msg : Message) :
  validateImageAttachment msg = Returned tt <->
  exists a, attachments msg = [a]
    /\ (truthy (height a) = true \/ truthy (width a) = true)
    /\ extension a ∈ [".png"; ".gif"].
Proof.
  unfold validateImageAttachment. split.
  - destruct (attachments msg) as [|a [|b l]]; try discriminate.
    destruct (truthy (height a)) eqn:Hh, (truthy (width a)) eqn:Hw; simpl;
      try discriminate; fold (extension a);
      (destruct (bool_decide (extension a ∈ [".png"; ".gif"])) eqn:He;
       [apply bool_decide_eq_true in He | discriminate]);
      intros _; exists a; auto.
  - intros (a & -> & Hd & He). fold (extension a).
    rewrite bool_decide_eq_true_2 by done. simpl.
    destruct Hd as [-> | ->]; simpl; [done|].
    by rewrite andb_false_r.
Qed.

(** ** [imageAdd], path by path *)

Section AddCommand.

Variables (dataFolder : string) (ctx : Context) (incoming : list Message).
Variables (name : string) (ty : ImageType) (c : CmdState).

Let gid := guild_id (guild ctx).
Let images := images_of (guild_conf (store c) gid) ty.

Lemma imageAdd_rejected (e : PyExc) :
  validateImageAttachment (message ctx) = Raised e ->
  (imageAdd dataFolder ctx incoming name ty c).1 = Returned tt
  /\ store (imageAdd dataFolder ctx incoming name ty c).2 = store c
  /\ exists why, sent (imageAdd dataFolder ctx incoming name ty c).2
                 = (sent c ++ [Text why])%list.
Proof.
  intros He. unfold imageAdd. rewrite He.
  pose proof (validate_Returned (message ctx)) as _.
  unfold validateImageAttachment in He.
  destruct (attachments (message ctx)) as [|a [|b l]];
    [injection He as <- | | injection He as <-]; try (by eauto).
  destruct (negb (truthy (height a)) && negb (truthy (width a)));
    [injection He as <-; by eauto|].
  destruct (negb (bool_decide _)); [injection He as <-; by eauto | discriminate].
Qed.

Lemma imageAdd_save_run (image : Attachment) (rest : list Attachment) (snt : list Sent) :
  attachments (message ctx) = image :: rest ->
  imageAdd_save dataFolder ctx name ty (mkCmdState (store c) snt)
  = (Returned tt,
     mkCmdState (store_after_add dataFolder ctx name ty c image)
       (snt ++ [Text ("Saved the " +:+ getSingularImageType ty +:+ " as "
                        +:+ name +:+ "!")])).
Proof. intros Ha. unfold imageAdd_save. rewrite Ha. by run_cmd. Qed.

Lemma imageAdd_fresh (image : Attachment) :
  validateImageAttachment (message ctx) = Returned tt ->
  attachments (message ctx) = [image] ->
  images !! name = None ->
  (imageAdd dataFolder ctx incoming name ty c).1 = Returned tt
  /\ store (imageAdd dataFolder ctx incoming name ty c).2 = store_after_add dataFolder ctx name ty c image.
Proof.
  intros Hv Ha Hn.
  assert (Hrun :
    imageAdd dataFolder ctx incoming name ty c
    = imageAdd_save dataFolder ctx name ty (mkCmdState (store c) (sent c))).
  { unfold imageAdd. rewrite Hv.
    unfold bind at 1, read_images at 1, gets at 1. fold gid. fold images.
    rewrite Hn. rewrite bool_decide_eq_false_2 by (intros [? ?]; discriminate).
    by destruct c. }
  rewrite Hrun. by rewrite (imageAdd_save_run image [] _ Ha).
Qed.

Lemma imageAdd_timeout :
  is_Some (images !! name) -> wait_for (check ctx) incoming = None ->
  store (imageAdd dataFolder ctx incoming name ty c).2 = store c.
Proof.
  intros Hn Hw.
  destruct (validateImageAttachment (message ctx)) as [[]|e] eqn:Hv.
  - unfold imageAdd. rewrite Hv.
    unfold bind at 1, read_images at 1, gets at 1.
    rewrite bool_decide_eq_true_2 by done. rewrite Hw. by run_cmd.
  - by destruct (imageAdd_rejected e Hv) as (_ & Hs & _).
Qed.

Lemma imageAdd_declined (response : Message) :
  is_Some (images !! name) -> wait_for (check ctx) incoming = Some response ->
  PyStr.lower (content response) <> "yes" ->
  store (imageAdd dataFolder ctx incoming name ty c).2 = store c.
Proof.
  intros Hn Hw Hno.
  destruct (validateImageAttachment (message ctx)) as [[]|e] eqn:Hv.
  - unfold imageAdd. rewrite Hv.
    unfold bind at 1, read_images at 1, gets at 1.
    rewrite bool_decide_eq_true_2 by done. rewrite Hw.
    apply String.eqb_neq in Hno. rewrite Hno. by run_cmd.
  - by destruct (imageAdd_rejected e Hv) as (_ & Hs & _).
Qed.

Lemma imageAdd_overwrite (image : Attachment) (response : Message) :
  validateImageAttachment (message ctx) = Returned tt ->
  attachments (message ctx) = [image] ->
  is_Some (images !! name) -> wait_for (check ctx) incoming = Some response ->
  PyStr.lower (content response) = "yes" ->
  (imageAdd dataFolder ctx incoming name ty c).1 = Returned tt
  /\ store (imageAdd dataFolder ctx incoming name ty c).2 = store_after_add dataFolder ctx name ty c image.
Proof.
  intros Hv Ha Hn Hw Hyes.
  assert (Hrun : exists snt,
    imageAdd dataFolder ctx incoming name ty c
    = imageAdd_save dataFolder ctx name ty (mkCmdState (store c) snt)).
  { eexists. unfold imageAdd. rewrite Hv.
    unfold bind at 1, read_images at 1, gets at 1.
    rewrite bool_decide_eq_true_2 by done. rewrite Hw.
    apply String.eqb_eq in Hyes. rewrite Hyes. cbn [negb].
    unfold bind at 1, send at 1, modify at 1. reflexivity. }
  destruct Hrun as [snt ->].
  by rewrite (imageAdd_save_run image [] _ Ha).
Qed.

End AddCommand.

Lemma store_after_add_lookup dataFolder ctx name ty c image :
  let st' := store_after_add dataFolder ctx name ty c image in
  let imageDict := mkImageDetails (name +:+ extension image) in
  images_of (guild_conf st' (guild_id (guild ctx))) ty !! name = Some imageDict
  /\ files st' !! getFullFilepath dataFolder (guild ctx) imageDict ty
     = Some (att_bytes image).
Proof.
  intros st' imageDict. subst st'. unfold store_after_add.
  autorewrite with store. simpl. by rewrite !lookup_insert_eq.
Qed.

(** C7. [imageAdd] rejects a message that does not carry exactly one
    attachment, an attachment without width and height, and an attachment
    whose extension is neither [.png] nor [.gif]; in each case the command
    answers with the reason and writes no file and no registry entry. *)
Theorem imageAdd_rejects (dataFolder : string) (ctx : Context)
    (incoming : list Message) (name : string) (ty : ImageType) (c : CmdState) :
  let r := imageAdd dataFolder ctx incoming name ty c in
  (length (attachments (message ctx)) <> 1%nat ->
   r = (Returned tt,
        mkCmdState (store c) (sent c ++ [Text "Please attach one file!"])))
  /\ (forall a, attachments (message ctx) = [a] -> no_dimensions a ->
      r = (Returned tt,
           mkCmdState (store c)
             (sent c ++ [Text "The file is not an image, please upload an image!"])))
  /\ (forall a, attachments (message ctx) = [a] ->
      extension a ∉ [".png"; ".gif"] ->
      r.1 = Returned tt /\ store r.2 = store c
      /\ (sent r.2 = (sent c ++ [Text "The file is not an image, please upload an image!"])%list
          \/ sent r.2 = (sent c ++ [Text "Please upload a PNG or GIF image!"])%list)).
Proof.
  intros r. subst r. unfold imageAdd. split; [|split].
  - intros Hlen. by rewrite validate_count.
  - intros a Ha Hd. by rewrite (validate_no_dimensions _ a).
  - intros a Ha He.
    destruct (validate_extension _ a Ha He) as [-> | ->]; simpl; auto.
Qed.

Lemma imageAdd_rejects_witness :
  store (imageAdd "/data" ctx_no_attachment [] "winter" Icons sample_state).2
  = sample_store
  /\ store (imageAdd "/data" ctx_not_image [] "winter" Icons sample_state).2
     = sample_store
  /\ store (imageAdd "/data" ctx_jpeg [reply_YES] "winter" Icons sample_state).2
     = sample_store.
Proof.
  split; [|split].
  - rewrite (proj1 (imageAdd_rejects "/data" ctx_no_attachment [] "winter"
                      Icons sample_state)); [reflexivity | simpl; lia].
  - rewrite (proj1 (proj2 (imageAdd_rejects "/data" ctx_not_image [] "winter"
                             Icons sample_state))
               (mkAttachment "notes.png" None None [Byte.x41]));
      [reflexivity | reflexivity | split; left; reflexivity].
  - apply (proj2 (proj2 (imageAdd_rejects "/data" ctx_jpeg [reply_YES] "winter"
                           Icons sample_state))
             (mkAttachment "winter.jpg" (Some 200) (Some 200) [Byte.xff]));
      [reflexivity|].
    apply (bool_decide_eq_false_1
             (extension (mkAttachment "winter.jpg" (Some 200) (Some 200) [Byte.xff])
              ∈ [".png"; ".gif"])).
    by vm_compute.
Defined.

(** C2. Adding an asset whose name is already registered: when the wait for
    the reply times out, or the reply is anything but the affirmative one
    (the text that lower-cases to [yes]), the stored files and the registry
    are left as they were; so they are replaced only if the affirmative reply
    arrived in time. *)
Theorem imageAdd_overwrite_needs_yes (dataFolder : string) (ctx : Context)
    (incoming : list Message) (name : string) (ty : ImageType) (c : CmdState) :
  let r := imageAdd dataFolder ctx incoming name ty c in
  is_Some (images_of (guild_conf (store c) (guild_id (guild ctx))) ty !! name) ->
  (wait_for (check ctx) incoming = None -> store r.2 = store c)
  /\ (forall response, wait_for (check ctx) incoming = Some response ->
      PyStr.lower (content response) <> "yes" -> store r.2 = store c)
  /\ (store r.2 <> store c ->
      exists response, wait_for (check ctx) incoming = Some response
        /\ PyStr.lower (content response) = "yes").
Proof.
  intros r Hn. subst r. split; [|split].
  - intros Hw. by apply imageAdd_timeout.
  - intros response Hw Hno. by apply (imageAdd_declined _ _ _ _ _ _ response).
  - intros Hch. destruct (wait_for (check ctx) incoming) as [response|] eqn:Hw.
    + exists response. split; [done|].
      destruct (decide (PyStr.lower (content response) = "yes")) as [|Hno]; [done|].
      exfalso. apply Hch. by apply (imageAdd_declined _ _ _ _ _ _ response).
    + exfalso. apply Hch. by apply imageAdd_timeout.
Qed.

Lemma imageAdd_overwrite_needs_yes_witness :
  store (imageAdd "/data" sample_ctx [reply_stranger] "winter" Icons sample_state).2
  = sample_store
  /\ store (imageAdd "/data" sample_ctx [reply_no; reply_YES] "winter" Icons
              sample_state).2 = sample_store
  /\ exists response,
       wait_for (check sample_ctx) [reply_stranger; reply_YES] = Some response
       /\ PyStr.lower (content response) = "yes".
Proof.
  split; [|split].
  - apply (proj1 (imageAdd_overwrite_needs_yes "/data" sample_ctx [reply_stranger]
                    "winter" Icons sample_state ltac:(by eexists))).
    reflexivity.
  - apply (proj1 (proj2 (imageAdd_overwrite_needs_yes "/data" sample_ctx
                           [reply_no; reply_YES] "winter" Icons sample_state
                           ltac:(by eexists))) reply_no).
    + reflexivity.
    + discriminate.
  - apply (proj2 (proj2 (imageAdd_overwrite_needs_yes "/data" sample_ctx
                           [reply_stranger; reply_YES] "winter" Icons sample_state
                           ltac:(by eexists)))).
    intros H.
    apply (f_equal (fun st => files st !! "/data/42/icons/winter.png")) in H.
    vm_compute in H. discriminate.
Defined.



Example lower_Yes : PyStr.lower "Yes" = "yes".
Proof. reflexivity. Qed.

Example lower_yes_space : PyStr.lower "yes " <> "yes".
Proof. discriminate. Qed.

(** ** Date keys read back *)

Lemma digit_char_val (x : Z) :
  0 <= x <= 9 ->
  PyStr.is_digit (PyStr.digit_char x) = true
  /\ PyStr.digit_val (PyStr.digit_char x) = x.
Proof.
  intros H.
  assert (Hx : x = 0 \/ x = 1 \/ x = 2 \/ x = 3 \/ x = 4 \/ x = 5 \/
               x = 6 \/ x = 7 \/ x = 8 \/ x = 9) by lia.
  repeat (destruct Hx as [Hx | Hx]); subst; split; reflexivity.
Qed.

Lemma two_digits_pad2 (n : Z) :
  0 <= n < 100 ->
  Calendar.two_digits (PyStr.digit_char (n / 10)) (PyStr.digit_char (n mod 10))
  = Some n.
Proof.
  intros H. unfold Calendar.two_digits.
  destruct (digit_char_val (n / 10)) as [-> ->].
  { split; [apply Z.div_pos; lia | apply Z.lt_succ_r, Z.div_lt_upper_bound; lia]. }
  destruct (digit_char_val (n mod 10)) as [-> ->].
  { pose proof (Z.mod_pos_bound n 10). lia. }
  simpl. f_equal. pose proof (Z.div_mod n 10). lia.
Qed.

Lemma fromisoformat_date_key (m d : Z) :
  validDate m d = Returned true ->
  Calendar.fromisoformat_2020 (date_key m d)
  = Returned (Calendar.mkDateTime 2020 m d 0 0 0 0).
Proof.
  intros Hv. pose proof Hv as [Hm Hd]%validDate_true.
  assert (Hd' : 1 <= d <= 31).
  { rewrite days_in_2020 in Hd by done. each_month Hm; simpl in Hd; lia. }
  unfold date_key, PyStr.pad2. simpl.
  rewrite !two_digits_pad2 by lia. by apply validDate_datetime.
Qed.

(** ** [imageList] *)

Lemma append_assoc (a b c : string) : (a +:+ b) +:+ c = a +:+ b +:+ c.
Proof.
  induction a as [|x a IH]; [done|].
  change (String x ((a +:+ b) +:+ c) = String x (a +:+ b +:+ c)). by f_equal.
Qed.

Lemma append_nil_r (a : string) : a +:+ "" = a.
Proof.
  induction a as [|x a IH]; [done|].
  change (String x (a +:+ "") = String x a). by f_equal.
Qed.

Lemma list_lines_cons k v items msg :
  list_lines ((k, v) :: items) msg
  = match Calendar.fromisoformat_2020 k with
    | Returned theDate => list_lines items (msg +:+ date_line theDate v)
    | Raised e => Raised e
    end.
Proof. reflexivity. Qed.

Lemma list_lines_extends items msg out :
  list_lines items msg = Returned out -> exists post, out = msg +:+ post.
Proof.
  revert msg. induction items as [|[k v] items IH]; intros msg H.
  - injection H as <-. exists "". by rewrite append_nil_r.
  - rewrite list_lines_cons in H. destruct (Calendar.fromisoformat_2020 k) as [t|e]; [|discriminate].
    destruct (IH _ H) as [post ->]. exists (date_line t v +:+ post).
    by rewrite append_assoc.
Qed.

(** Every item is shown: its line is part of the text. *)
Lemma list_lines_shows items msg out k v t :
  list_lines items msg = Returned out ->
  (k, v) ∈ items -> Calendar.fromisoformat_2020 k = Returned t ->
  exists pre post, out = pre +:+ date_line t v +:+ post.
Proof.
  revert msg. induction items as [|[k' v'] items IH]; intros msg H Hin Ht.
  - by apply not_elem_of_nil in Hin.
  - rewrite list_lines_cons in H.
    destruct (Calendar.fromisoformat_2020 k') as [t'|e] eqn:Ht'; [|discriminate].
    apply elem_of_cons in Hin as [[= <- <-] | Hin].
    + rewrite Ht in Ht'. injection Ht' as <-.
      destruct (list_lines_extends _ _ _ H) as [post ->].
      exists msg, post. by rewrite append_assoc.
    + by apply (IH _ H).
Qed.

Lemma list_lines_total items msg :
  (forall k v, (k, v) ∈ items -> exists t, Calendar.fromisoformat_2020 k = Returned t) ->
  exists out, list_lines items msg = Returned out.
Proof.
  revert msg. induction items as [|[k v] items IH]; intros msg Hp.
  - by eexists.
  - rewrite list_lines_cons. destruct (Hp k v) as [t ->]; [apply list_elem_of_here|].
    apply IH. intros k' v' Hin. apply (Hp k' v'). by apply list_elem_of_further.
Qed.

Lemma elem_of_sorted_items (dates : gmap string string) (k v : string) :
  (k, v) ∈ sorted_items dates <-> dates !! k = Some v.
Proof.
  unfold sorted_items. rewrite merge_sort_Permutation.
  apply elem_of_map_to_list.
Qed.

Lemma ltb_leb_ne (x y : string) :
  String.ltb x y = true <-> String.leb x y = true /\ x <> y.
Proof.
  unfold String.ltb, String.leb.
  destruct (String.compare x y) eqn:Hc.
  - apply String.compare_eq_iff in Hc. split; [discriminate | by intros [_ ?]].
  - split; [|done]. intros _. split; [done|]. intros ->.
    pose proof (String.compare_antisym y y) as H. rewrite Hc in H.
    discriminate.
  - split; [discriminate | by intros [? _]].
Qed.

Lemma leb_trans (x y z : string) :
  String.leb x y = true -> String.leb y z = true -> String.leb x z = true.
Proof.
  intros H1 H2.
  assert (H : String.le x z).
  { transitivity y; unfold String.le; by apply Is_true_true. }
  by apply Is_true_true in H.
Qed.

Lemma leb_antisym_eq (x y : string) :
  String.leb x y = true -> String.leb y x = true -> x = y.
Proof. apply String.leb_antisym. Qed.

#[local] Instance item_le_trans : Transitive item_le.
Proof.
  intros [k1 v1] [k2 v2] [k3 v3]. unfold item_le. simpl.
  rewrite !ltb_leb_ne.
  intros [[H12 N12] | [-> H12]] [[H23 N23] | [-> H23]].
  - left. split; [by apply (leb_trans _ k2)|]. intros ->.
    apply N12. by apply leb_antisym_eq.
  - left. by split.
  - left. by split.
  - right. split; [done|]. by apply (leb_trans _ v2).
Qed.

#[local] Instance item_le_total : Total item_le.
Proof.
  intros [k1 v1] [k2 v2]. unfold item_le. simpl. rewrite !ltb_leb_ne.
  destruct (decide (k1 = k2)) as [-> | Hne].
  - destruct (String.leb_total v1 v2); [left | right]; right; by split.
  - destruct (String.leb_total k1 k2); [left | right]; left; split; congruence.
Qed.

Lemma sorted_items_StronglySorted (dates : gmap string string) :
  StronglySorted item_le (sorted_items dates).
Proof. apply StronglySorted_merge_sort; apply _. Qed.

#[local] Instance item_le_antisym : AntiSymm (=) item_le.
Proof.
  intros [k1 v1] [k2 v2]. unfold item_le. simpl. rewrite !ltb_leb_ne.
  intros [[H12 N12] | [-> H12]] [[H21 N21] | [E H21]].
  - exfalso. apply N12. by apply leb_antisym_eq.
  - by subst.
  - done.
  - f_equal. by apply leb_antisym_eq.
Qed.

Lemma list_lines_app (l1 l2 : list (string * string)) (msg : string) :
  list_lines (l1 ++ l2)%list msg
  = match list_lines l1 msg with
    | Returned msg' => list_lines l2 msg'
    | Raised e => Raised e
    end.
Proof.
  revert msg. induction l1 as [|[k v] l1 IH]; intros msg; [done|].
  rewrite <- app_comm_cons, !list_lines_cons.
  destruct (Calendar.fromisoformat_2020 k); [apply IH | done].
Qed.




Lemma elem_of_not_assigned (images : gmap string ImageDetails)
    (dates : gmap string string) (n : string) :
  n ∈ (dom images ∖ list_to_set ((sorted_items dates).*2) : gset string)
  <-> unassigned images dates n.
Proof.
  rewrite elem_of_difference, elem_of_dom, elem_of_list_to_set, list_elem_of_fmap.
  unfold unassigned. split.
  - intros [Hi Hd]. split; [done|]. intros k Hk. apply Hd.
    exists (k, n). split; [done|]. by apply elem_of_sorted_items.
  - intros [Hi Hd]. split; [done|]. intros ([k v] & -> & Hin).
    apply elem_of_sorted_items in Hin. by apply (Hd k).
Qed.

Lemma unassigned_tail_elements (images : gmap string ImageDetails)
    (dates : gmap string string) :
  let notAssigned : gset string :=
    dom images ∖ list_to_set ((sorted_items dates).*2) in
  unassigned_tail images dates
    (if bool_decide (notAssigned = ∅) then ""
     else "Unassigned: " +:+ join_comma (elements notAssigned)).
Proof.
  intros notAssigned. case_bool_decide as He.
  - left. split; [done|]. intros n Hn.
    apply elem_of_not_assigned in Hn. fold notAssigned in Hn.
    rewrite He in Hn. by apply not_elem_of_empty in Hn.
  - right. exists (elements notAssigned). split; [|split; [|split]].
    + intros Hnil. apply He. by apply elements_empty_inv in Hnil as ->%leibniz_equiv.
    + apply NoDup_elements.
    + intros n. rewrite elem_of_elements. apply elem_of_not_assigned.
    + done.
Qed.

Lemma imageList_run (pagify : string -> Z -> list string) (ctx : Context)
    (ty : ImageType) (c : CmdState) (out : string) :
  let images := images_of (guild_conf (store c) (guild_id (guild ctx))) ty in
  let dates := dates_of (guild_conf (store c) (guild_id (guild ctx))) ty in
  images <> ∅ ->
  list_lines (sorted_items dates) "" = Returned out ->
  exists tail,
    unassigned_tail images dates tail
    /\ imageList pagify ctx ty c
       = (Returned tt,
          mkCmdState (store c)
            (sent c ++ [menu_of pagify (list_title ctx ty) (out +:+ tail)])).
Proof.
  intros images dates Hne Hout. unfold imageList.
  rewrite (bind_Returned _ _ c images c) by reflexivity.
  rewrite bool_decide_eq_false_2 by done.
  rewrite (bind_Returned _ _ c dates c) by reflexivity.
  rewrite Hout. simpl lift.
  rewrite (bind_Returned _ _ c out c) by reflexivity.
  unfold send_menu, modify, menu_of, list_title.
  pose proof (unassigned_tail_elements images dates) as Htail.
  cbv zeta in Htail.
  destruct (bool_decide _); eexists; (split; [exact Htail|]).
  - by rewrite (append_nil_r out).
  - reflexivity.
Qed.

Lemma list_lines_sorted_total (dates : gmap string string) :
  keys_parse dates -> exists out, list_lines (sorted_items dates) "" = Returned out.
Proof.
  intros Hp. apply list_lines_total. intros k v Hin.
  apply elem_of_sorted_items in Hin. by apply (Hp k v).
Qed.

Lemma imageList_returns (pagify : string -> Z -> list string) (ctx : Context)
    (ty : ImageType) (c : CmdState) :
  images_of (guild_conf (store c) (guild_id (guild ctx))) ty <> ∅ ->
  keys_parse (dates_of (guild_conf (store c) (guild_id (guild ctx))) ty) ->
  exists text,
    imageList pagify ctx ty c
    = (Returned tt,
       mkCmdState (store c) (sent c ++ [menu_of pagify (list_title ctx ty) text])).
Proof.
  intros Hne Hp. destruct (list_lines_sorted_total _ Hp) as [out Hout].
  destruct (imageList_run pagify ctx ty c out Hne Hout) as (tail & _ & ->).
  by eexists.
Qed.

Lemma keys_parse_insert (dates : gmap string string) (m d : Z) (name : string) :
  validDate m d = Returned true -> keys_parse dates ->
  keys_parse (<[date_key m d := name]> dates).
Proof.
  intros Hv Hp k v. rewrite lookup_insert. case_decide as Hk.
  - intros _. subst k. eexists. by apply fromisoformat_date_key.
  - apply Hp.
Qed.

Lemma keys_parse_delete (dates : gmap string string) (k : string) :
  keys_parse dates -> keys_parse (delete k dates).
Proof.
  intros Hp k' v. rewrite lookup_delete. case_decide; [done|]. apply Hp.
Qed.


(** ** What a command can do to the store *)

Lemma imageAdd_store_cases dataFolder ctx incoming name ty c :
  store (imageAdd dataFolder ctx incoming name ty c).2 = store c
  \/ exists image,
       store (imageAdd dataFolder ctx incoming name ty c).2
       = store_after_add dataFolder ctx name ty c image.
Proof.
  destruct (validateImageAttachment (message ctx)) as [[]|e] eqn:Hv.
  - pose proof Hv as (image & Ha & _)%validate_Returned.
    destruct (images_of (guild_conf (store c) (guild_id (guild ctx))) ty !! name)
      as [details|] eqn:Hn.
    + destruct (wait_for (check ctx) incoming) as [response|] eqn:Hw.
      * destruct (decide (PyStr.lower (content response) = "yes")) as [Hyes|Hno].
        -- right. exists image.
           apply (imageAdd_overwrite _ _ _ _ _ _ image response); eauto.
        -- left. apply (imageAdd_declined _ _ _ _ _ _ response); eauto.
      * left. apply imageAdd_timeout; eauto.
    + right. exists image. by apply imageAdd_fresh.
  - left. by destruct (imageAdd_rejected dataFolder ctx incoming name ty c e Hv)
      as (_ & Hs & _).
Qed.

Lemma imageRemove_store_cases dataFolder ctx incoming name ty c :
  store (imageRemove dataFolder ctx incoming name ty c).2 = store c
  \/ exists details,
       images_of (guild_conf (store c) (guild_id (guild ctx))) ty !! name = Some details
       /\ store (imageRemove dataFolder ctx incoming name ty c).2
          = store_after_remove dataFolder ctx name ty c details.
Proof.
  destruct (images_of (guild_conf (store c) (guild_id (guild ctx))) ty !! name)
    as [details|] eqn:Hn.
  - destruct (wait_for (check ctx) incoming) as [response|] eqn:Hw.
    + destruct (decide (PyStr.lower (content response) = "yes")) as [Hyes|Hno].
      * right. exists details. split; [done|].
        by rewrite (imageRemove_confirmed _ _ _ _ _ _ details response).
      * left. apply (imageRemove_declined _ _ _ _ _ _ response); eauto.
    + left. apply imageRemove_timeout; eauto.
  - left. by rewrite imageRemove_unknown.
Qed.

Lemma imageList_store pagify ctx ty c :
  store (imageList pagify ctx ty c).2 = store c.
Proof.
  unfold imageList.
  rewrite (bind_Returned _ _ c _ c) by reflexivity.
  destruct (bool_decide _); [done|].
  rewrite (bind_Returned _ _ c _ c) by reflexivity.
  destruct (list_lines _ _) as [out|e]; simpl lift.
  - rewrite (bind_Returned _ _ c out c) by reflexivity. done.
  - by rewrite (bind_Raised _ _ c e c) by reflexivity.
Qed.

Lemma imageDateSet_store_cases ctx month day name ty c :
  let gid := guild_id (guild ctx) in
  store (imageDateSet ctx month day name ty c).2 = store c
  \/ (is_Some (images_of (guild_conf (store c) gid) ty !! name)
      /\ store (imageDateSet ctx month day name ty c).2
         = update_guild gid
             (set_dates ty (<[date_key month day := name]>
                              (dates_of (guild_conf (store c) gid) ty)))
             (store c)).
Proof.
  intros gid. destruct (validDate month day) as [[|]|e] eqn:Hv.
  - destruct (images_of (guild_conf (store c) gid) ty !! name) as [details|] eqn:Hn.
    + right. split; [eauto|]. rewrite imageDateSet_ok; [done|done|].
      fold gid. rewrite Hn. eauto.
    + left. by rewrite imageDateSet_unknown.
  - left. by rewrite imageDateSet_invalid.
  - left. by rewrite (imageDateSet_raised _ _ _ _ _ _ e).
Qed.

Lemma imageDateReset_store_cases ctx month day ty c :
  let gid := guild_id (guild ctx) in
  store (imageDateReset ctx month day ty c).2 = store c
  \/ store (imageDateReset ctx month day ty c).2
     = update_guild gid
         (set_dates ty (delete (date_key month day)
                          (dates_of (guild_conf (store c) gid) ty)))
         (store c).
Proof.
  intros gid. destruct (validDate month day) as [[|]|e] eqn:Hv.
  - destruct (dates_of (guild_conf (store c) gid) ty !! date_key month day)
      as [n|] eqn:Hk.
    + right. rewrite imageDateReset_present; [done|done|].
      fold gid. rewrite Hk. eauto.
    + left. by rewrite imageDateReset_absent.
  - left. by rewrite imageDateReset_invalid.
  - left. by rewrite (imageDateReset_raised _ _ _ _ _ e).
Qed.

(** ** The invariant *)

Lemma invariant_update_guild (st : Store) (gid : Z) (f : GuildConfig -> GuildConfig) :
  schedule_refers_to_assets st ->
  (forall ty k n,
     dates_of (f (guild_conf st gid)) ty !! k = Some n ->
     is_Some (images_of (f (guild_conf st gid)) ty !! n)) ->
  schedule_refers_to_assets (update_guild gid f st).
Proof.
  intros Hinv Hf gid' ty k n. destruct (decide (gid = gid')) as [<- | Hne].
  - rewrite guild_conf_update_eq. apply Hf.
  - rewrite guild_conf_update_ne by done. apply Hinv.
Qed.

Lemma invariant_files (cfg : gmap Z GuildConfig) (fs fs' : gmap string (list Byte.byte)) :
  schedule_refers_to_assets (mkStore cfg fs) ->
  schedule_refers_to_assets (mkStore cfg fs').
Proof. intros H. exact H. Qed.

Lemma invariant_after_add dataFolder ctx name ty c image :
  schedule_refers_to_assets (store c) ->
  schedule_refers_to_assets (store_after_add dataFolder ctx name ty c image).
Proof.
  intros Hinv. unfold store_after_add.
  apply invariant_update_guild.
  { apply (invariant_files _ (files (store c))). by destruct (store c). }
  intros ty' k n. rewrite dates_of_set_images.
  change (guild_conf {| config := config (store c); files := _ |} ?g)
    with (guild_conf (store c) g).
  intros Hk. apply Hinv in Hk. destruct (decide (ty' = ty)) as [-> | Hne].
  - rewrite images_of_set_images_eq. rewrite lookup_insert. by case_decide.
  - by rewrite images_of_set_images_ne.
Qed.

Lemma invariant_after_remove dataFolder ctx name ty c details :
  schedule_refers_to_assets (store c) ->
  schedule_refers_to_assets (store_after_remove dataFolder ctx name ty c details).
Proof.
  intros Hinv. unfold store_after_remove.
  set (gid := guild_id (guild ctx)).
  set (st1 := mkStore (config (store c)) _).
  assert (Hg : forall g, guild_conf st1 g = guild_conf (store c) g) by done.
  intros gid' ty' k n. destruct (decide (gid = gid')) as [<- | Hne].
  - rewrite !guild_conf_update_eq, Hg. rewrite images_of_set_dates.
    destruct (decide (ty' = ty)) as [-> | Hty].
    + rewrite dates_of_set_dates_eq, images_of_set_images_eq.
      intros [Hk Hn]%lookup_without_asset_Some.
      rewrite lookup_delete_ne by done. by apply (Hinv gid ty k n).
    + rewrite dates_of_set_dates_ne, dates_of_set_images by done.
      rewrite images_of_set_images_ne by done. apply Hinv.
  - rewrite !guild_conf_update_ne, Hg by done. apply Hinv.
Qed.

Lemma invariant_set_date (st : Store) (gid : Z) (ty : ImageType) (k name : string) :
  schedule_refers_to_assets st ->
  is_Some (images_of (guild_conf st gid) ty !! name) ->
  schedule_refers_to_assets
    (update_guild gid (set_dates ty (<[k := name]> (dates_of (guild_conf st gid) ty))) st).
Proof.
  intros Hinv Hn. apply invariant_update_guild; [done|].
  intros ty' k' n. rewrite images_of_set_dates.
  destruct (decide (ty' = ty)) as [-> | Hty].
  - rewrite dates_of_set_dates_eq, lookup_insert. case_decide.
    + by intros [= <-].
    + apply Hinv.
  - rewrite dates_of_set_dates_ne by done. apply Hinv.
Qed.

Lemma invariant_reset_date (st : Store) (gid : Z) (ty : ImageType) (k : string) :
  schedule_refers_to_assets st ->
  schedule_refers_to_assets
    (update_guild gid (set_dates ty (delete k (dates_of (guild_conf st gid) ty))) st).
Proof.
  intros Hinv. apply invariant_update_guild; [done|].
  intros ty' k' n. rewrite images_of_set_dates.
  destruct (decide (ty' = ty)) as [-> | Hty].
  - rewrite dates_of_set_dates_eq, lookup_delete. case_decide; [done|]. apply Hinv.
  - rewrite dates_of_set_dates_ne by done. apply Hinv.
Qed.

Lemma run_command_preserves dataFolder cmd c :
  schedule_refers_to_assets (store c) ->
  schedule_refers_to_assets (store (run_command dataFolder cmd c).2).
Proof.
  intros Hinv. destruct cmd as [ctx incoming name ty | ctx incoming name ty
    | ctx ty | ctx month day name ty | ctx month day ty]; simpl.
  - destruct (imageAdd_store_cases dataFolder ctx incoming name ty c)
      as [-> | [image ->]]; [done | by apply invariant_after_add].
  - destruct (imageRemove_store_cases dataFolder ctx incoming name ty c)
      as [-> | (details & _ & ->)]; [done | by apply invariant_after_remove].
  - by rewrite imageList_store.
  - destruct (imageDateSet_store_cases ctx month day name ty c)
      as [-> | [Hn ->]]; [done | by apply invariant_set_date].
  - destruct (imageDateReset_store_cases ctx month day ty c)
      as [-> | ->]; [done | by apply invariant_reset_date].
Qed.

(** C8. Every operation of the command surface (add, remove, list, set a
    date, reset a date), run to completion, preserves the invariant that
    each schedule entry names a registered asset of the same guild and
    category; so the invariant holds in every store the commands can reach
    from the registered defaults. *)
Theorem schedule_invariant (dataFolder : string) :
  (forall cmd c,
     schedule_refers_to_assets (store c) ->
     schedule_refers_to_assets (store (run_command dataFolder cmd c).2))
  /\ (forall st, reachable dataFolder st -> schedule_refers_to_assets st).
Proof.
  split; [apply run_command_preserves|].
  intros st Hr. induction Hr as [fs | st cmd snt Hr IH].
  - intros gid ty k n. unfold guild_conf. simpl. rewrite lookup_empty. simpl.
    destruct ty; simpl; by rewrite lookup_empty.
  - by apply run_command_preserves.
Qed.

Lemma schedule_invariant_witness :
  dates_of (guild_conf store_after_two_commands 42) Icons !! "12-25" = Some "winter"
  /\ is_Some (images_of (guild_conf store_after_two_commands 42) Icons !! "winter").
Proof.
  split; [reflexivity|].
  apply (proj2 (schedule_invariant "/data") store_after_two_commands) with "12-25".
  - unfold store_after_two_commands.
    apply reachable_step, reachable_step, reachable_init.
  - reflexivity.
Defined.

(** The keys of every reachable schedule table are date keys, which is what
    [imageList] needs to print them. *)
Lemma reachable_keys_parse (dataFolder : string) (st : Store) :
  reachable dataFolder st ->
  forall gid ty, keys_parse (dates_of (guild_conf st gid) ty).
Proof.
  intros Hr. induction Hr as [fs | st cmd snt Hr IH].
  - intros gid ty k v. unfold guild_conf. simpl. rewrite lookup_empty. simpl.
    destruct ty; simpl; by rewrite lookup_empty.
  - set (c := mkCmdState st snt). change st with (store c) in IH.
    destruct cmd as [ctx incoming name ty | ctx incoming name ty
      | ctx ty | ctx month day name ty | ctx month day ty]; simpl.
    + destruct (imageAdd_store_cases dataFolder ctx incoming name ty c)
        as [-> | [image ->]]; [done|].
      intros gid ty'. unfold store_after_add.
      destruct (decide (guild_id (guild ctx) = gid)) as [<- | Hne].
      * rewrite guild_conf_update_eq, dates_of_set_images. apply IH.
      * rewrite guild_conf_update_ne by done. apply IH.
    + destruct (imageRemove_store_cases dataFolder ctx incoming name ty c)
        as [-> | (details & _ & ->)]; [done|].
      intros gid ty'. unfold store_after_remove.
      destruct (decide (guild_id (guild ctx) = gid)) as [<- | Hne].
      * rewrite !guild_conf_update_eq.
        destruct (decide (ty' = ty)) as [-> | Hty].
        -- rewrite dates_of_set_dates_eq.
           intros k v [Hk _]%lookup_without_asset_Some.
           by apply (IH (guild_id (guild ctx)) ty k v).
        -- rewrite dates_of_set_dates_ne, dates_of_set_images by done. apply IH.
      * rewrite !guild_conf_update_ne by done. apply IH.
    + by rewrite imageList_store.
    + destruct (validDate month day) as [[|]|e] eqn:Hv;
        [| rewrite imageDateSet_invalid by done; apply IH
         | rewrite (imageDateSet_raised _ _ _ _ _ _ e) by done; apply IH].
      * destruct (imageDateSet_store_cases ctx month day name ty c)
          as [-> | [Hn ->]]; [done|].
        intros gid ty'.
        destruct (decide (guild_id (guild ctx) = gid)) as [<- | Hne].
        -- rewrite guild_conf_update_eq.
           destruct (decide (ty' = ty)) as [-> | Hty].
           ++ rewrite dates_of_set_dates_eq. by apply keys_parse_insert.
           ++ rewrite dates_of_set_dates_ne by done. apply IH.
        -- rewrite guild_conf_update_ne by done. apply IH.
    + destruct (imageDateReset_store_cases ctx month day ty c) as [-> | ->]; [done|].
      intros gid ty'.
      destruct (decide (guild_id (guild ctx) = gid)) as [<- | Hne].
      * rewrite guild_conf_update_eq.
        destruct (decide (ty' = ty)) as [-> | Hty].
        -- rewrite dates_of_set_dates_eq. by apply keys_parse_delete.
        -- rewrite dates_of_set_dates_ne by done. apply IH.
      * rewrite guild_conf_update_ne by done. apply IH.
Qed.



(** The round trip on the sample guild, computed: the menu after the set
    has the one page with the line of 25 December, the menu after the reset
    the one page that reports [winter] as unassigned. *)
Example round_trip_computed :
  let c1 := (imageDateSet sample_ctx 12 25 "winter" Icons added_state).2 in
  let c2 := (imageDateReset sample_ctx 12 25 Icons c1).2 in
  sent (imageList one_page sample_ctx Icons c1).2
  = (sent c1 ++ [Menu [mkEmbed "Server icon changes for Guild"
                         ("December 25: winter" +:+ NL) "Page 1/1"]])%list
  /\ sent (imageList one_page sample_ctx Icons c2).2
     = (sent c2 ++ [Menu [mkEmbed "Server icon changes for Guild"
                            "Unassigned: winter" "Page 1/1"]])%list.
Proof. by vm_compute. Qed.

(** ** The background task: one guild, one category *)

Import Applier.

Section CheckGuild.

Variables (clock : nat -> Calendar.DateTime) (env : Env).
Variables (ty : ImageType) (g : Guild) (s : LoopState).

Let today := Calendar.strftime_md (clock (ticks s)).
Let imageDates := dates_of (guild_conf (the_store env) (guild_id g)) ty.
Let images := images_of (guild_conf (the_store env) (guild_id g)) ty.
Let debug_record :=
  mkLogRecord DEBUG ("Checking guild " +:+ getSingularImageType ty +:+ " for %s (%s)")
              [guild_name g; pretty (guild_id g)].

(** The state once the check has logged its first line and read the clock. *)
Let started := mkLoopState (lastChecked s) (S (ticks s)) (log s ++ [debug_record])
                           (applied s).

(** No entry for today: the guild is skipped. *)
Lemma checkGuildImages_no_entry :
  imageDates !! today = None ->
  checkGuildImages clock env ty g s = (Returned tt, started).
Proof.
  intros Hd. unfold checkGuildImages, bind, logger, modify, now. simpl.
  fold today. fold imageDates. by rewrite Hd.
Qed.

(** An entry for today whose file is not on disk: [open] raises. *)
Lemma checkGuildImages_missing_file imageName image :
  imageDates !! today = Some imageName ->
  images !! imageName = Some image ->
  files (the_store env) !! getFullFilepath (dataFolder env) g image ty = None ->
  checkGuildImages clock env ty g s = (Raised FileNotFoundError, started).
Proof.
  intros Hd Hi Hf. unfold checkGuildImages, bind, logger, modify, now. simpl.
  fold today. fold imageDates. rewrite Hd. fold images. rewrite Hi. by rewrite Hf.
Qed.

(** The platform refuses the edit: the refusal is logged, the check returns. *)
Lemma checkGuildImages_forbidden imageName image data :
  imageDates !! today = Some imageName ->
  images !! imageName = Some image ->
  files (the_store env) !! getFullFilepath (dataFolder env) g image ty = Some data ->
  edit_raises env ty (guild_id g) = Some Forbidden ->
  checkGuildImages clock env ty g s
  = (Returned tt,
     mkLoopState (lastChecked s) (S (ticks s))
       (log s ++ [debug_record;
                  mkLogRecord ERROR
                    ("Could not change " +:+ getSingularImageType ty
                       +:+ ", ensure the bot has Manage Server permissions") []])
       (applied s)).
Proof.
  intros Hd Hi Hf He.
  unfold checkGuildImages, bind, logger, modify, now. simpl.
  fold today. fold imageDates. rewrite Hd. fold images. rewrite Hi, Hf.
  unfold try_except, guild_edit. rewrite He. unfold raise. simpl.
  by rewrite <- app_assoc.
Qed.

(** The edit goes through. *)
Lemma checkGuildImages_applied imageName image data :
  imageDates !! today = Some imageName ->
  images !! imageName = Some image ->
  files (the_store env) !! getFullFilepath (dataFolder env) g image ty = Some data ->
  edit_raises env ty (guild_id g) = None ->
  exists log',
    checkGuildImages clock env ty g s
    = (Returned tt,
       mkLoopState (lastChecked s) (S (ticks s)) log'
         (applied s ++ [mkEdit (guild_id g) ty data
                          ("ServerManage changing " +:+ getSingularImageType ty
                             +:+ " to " +:+ imageName)])).
Proof.
  intros Hd Hi Hf He. eexists.
  unfold checkGuildImages, bind, logger, modify, now. simpl.
  fold today. fold imageDates. rewrite Hd. fold images. rewrite Hi, Hf.
  unfold try_except, guild_edit. rewrite He. unfold modify. simpl. reflexivity.
Qed.

(** Whatever happens, the check reads the clock once and leaves
    [lastChecked] alone. *)
Lemma checkGuildImages_frame :
  lastChecked (checkGuildImages clock env ty g s).2 = lastChecked s
  /\ ticks (checkGuildImages clock env ty g s).2 = S (ticks s)
  /\ exists more, log (checkGuildImages clock env ty g s).2 = (log s ++ more)%list.
Proof.
  unfold checkGuildImages, bind, logger, modify, now. simpl.
  destruct (_ !! _) as [imageName|]; [|by eauto].
  destruct (_ !! _) as [image|]; [|by eauto].
  destruct (_ !! _) as [data|]; [|by eauto].
  unfold try_except, guild_edit.
  destruct (edit_raises env ty (guild_id g)) as [e|]; unfold raise, modify; simpl.
  - destruct (decide (e = Forbidden)); simpl; [|by eauto].
    rewrite <- app_assoc. by eauto.
  - rewrite <- app_assoc. by eauto.
Qed.

End CheckGuild.

(** ** The background task: the loop *)

Section Loop.

Variable clock : nat -> Calendar.DateTime.

Let check_guild (env : Env) (g : Guild) : M LoopState unit :=
  checkGuildIcons clock env g ;; checkGuildBanners clock env g.

Lemma check_guild_frame env g s :
  lastChecked (check_guild env g s).2 = lastChecked s
  /\ (ticks s < ticks (check_guild env g s).2)%nat
  /\ exists more, log (check_guild env g s).2 = (log s ++ more)%list.
Proof.
  unfold check_guild, bind, checkGuildIcons, checkGuildBanners.
  destruct (checkGuildImages_frame clock env Icons g s) as (Hl & Ht & more & Hlog).
  destruct (checkGuildImages clock env Icons g s) as [[[]|e] s1]; simpl in *.
  - destruct (checkGuildImages_frame clock env Banners g s1)
      as (Hl' & Ht' & more' & Hlog').
    split; [congruence|]. split; [lia|].
    exists (more ++ more')%list. by rewrite Hlog', Hlog, app_assoc.
  - split; [done|]. split; [lia|]. by eauto.
Qed.

Lemma for_each_guilds_frame env gs s :
  lastChecked (for_each gs (check_guild env) s).2 = lastChecked s
  /\ (ticks s <= ticks (for_each gs (check_guild env) s).2)%nat
  /\ exists more, log (for_each gs (check_guild env) s).2 = (log s ++ more)%list.
Proof.
  revert s. induction gs as [|g gs IH]; intros s.
  - simpl. split; [done|]. split; [done|]. exists []. by rewrite app_nil_r.
  - rewrite for_each_cons.
    destruct (check_guild_frame env g s) as (Hl & Ht & more & Hlog).
    destruct (check_guild env g s) as [[[]|e] s1]; simpl in *.
    + destruct (IH s1) as (Hl' & Ht' & more' & Hlog').
      split; [congruence|]. split; [lia|].
      exists (more ++ more')%list. by rewrite Hlog', Hlog, app_assoc.
    + split; [done|]. split; [lia|]. by eauto.
Qed.

Lemma imageLoop_body_idle env s :
  day_changed clock s = false ->
  imageLoop_body clock env s = (Returned tt, idle_pass s).
Proof.
  intros Hd. unfold imageLoop_body, bind, gets, now. simpl.
  unfold day_changed in Hd. by rewrite Hd.
Qed.

(** An exception in one pass ends the loop: no later pass runs. *)
Lemma imageLoop_raises env envs s e s' :
  imageLoop_body clock env s = (Raised e, s') ->
  imageLoop clock (env :: envs) s = (Raised e, s').
Proof. intros H. simpl. by rewrite (bind_Raised _ _ s e s'). Qed.

(** A pass that finds the day changed: the record is logged, the marker
    set to the next reading, and the guilds are gone through. *)
Lemma imageLoop_body_checking_eq env s :
  day_changed clock s = true ->
  imageLoop_body clock env s
  = for_each (guilds env) (check_guild env)
      (mkLoopState (clock (S (ticks s))) (S (S (ticks s)))
                   (log s ++ [checking_record]) (applied s)).
Proof.
  intros Hd. unfold imageLoop_body.
  unfold bind at 1, gets at 1. unfold bind at 1, now at 1.
  unfold day_changed in Hd. cbn [lastChecked ticks]. rewrite Hd.
  reflexivity.
Qed.

Lemma imageLoop_body_checking env s :
  day_changed clock s = true ->
  lastChecked (imageLoop_body clock env s).2 = clock (S (ticks s))
  /\ (S (ticks s) < ticks (imageLoop_body clock env s).2)%nat
  /\ exists more,
       log (imageLoop_body clock env s).2 = (log s ++ checking_record :: more)%list.
Proof.
  intros Hd. rewrite imageLoop_body_checking_eq by done.
  set (s1 := mkLoopState _ _ _ _).
  destruct (for_each_guilds_frame env (guilds env) s1) as (Hl & Ht & more & Hlog).
  assert (Hs1 : ticks s1 = S (S (ticks s))) by done.
  split; [by rewrite Hl|]. split; [lia|].
  exists more. rewrite Hlog. simpl. by rewrite <- app_assoc.
Qed.

(** The first guild has an icon scheduled for today whose file is missing:
    the pass raises, and the loop with it. *)
Lemma imageLoop_missing_file env envs g gs s imageName image :
  day_changed clock s = true ->
  guilds env = g :: gs ->
  dates_of (guild_conf (the_store env) (guild_id g)) Icons
    !! Calendar.strftime_md (clock (S (S (ticks s)))) = Some imageName ->
  images_of (guild_conf (the_store env) (guild_id g)) Icons !! imageName = Some image ->
  files (the_store env) !! getFullFilepath (dataFolder env) g image Icons = None ->
  exists s', imageLoop clock (env :: envs) s = (Raised FileNotFoundError, s').
Proof.
  intros Hd Hg Hk Hi Hf. eexists. apply imageLoop_raises.
  rewrite imageLoop_body_checking_eq by done. rewrite Hg, for_each_cons.
  unfold check_guild, checkGuildIcons.
  erewrite bind_Raised; [reflexivity|].
  by apply (checkGuildImages_missing_file _ _ _ _ _ imageName image).
Qed.

Lemma imageLoop_body_marker env k0 s :
  marker_after clock k0 s -> marker_after clock k0 (imageLoop_body clock env s).2.
Proof.
  intros (k & Hk & Hm). destruct (day_changed clock s) eqn:Hd.
  - destruct (imageLoop_body_checking env s Hd) as (Hl & Ht & _).
    exists (S (ticks s)). split; [lia | done].
  - rewrite imageLoop_body_idle by done. exists k. simpl. split; [lia | done].
Qed.

Lemma imageLoop_marker envs k0 s :
  marker_after clock k0 s -> marker_after clock k0 (imageLoop clock envs s).2.
Proof.
  revert s. induction envs as [|env envs IH]; intros s Hm; [done|].
  simpl. unfold bind.
  pose proof (imageLoop_body_marker env k0 s Hm) as Hb.
  destruct (imageLoop_body clock env s) as [[[]|e] s1]; simpl in *; [|done].
  by apply IH.
Qed.

Lemma imageLoop_marker_from_checking env envs s :
  day_changed clock s = true ->
  marker_after clock (ticks s) (imageLoop clock (env :: envs) s).2.
Proof.
  intros Hd. simpl. unfold bind.
  destruct (imageLoop_body_checking env s Hd) as (Hl & Ht & _).
  assert (Hb : marker_after clock (ticks s) (imageLoop_body clock env s).2).
  { exists (S (ticks s)). split; [lia | done]. }
  destruct (imageLoop_body clock env s) as [[[]|e] s1]; simpl in *; [|done].
  by apply imageLoop_marker.
Qed.

End Loop.

(** ** Days of the month across a day boundary *)

Lemma days_in_month_ge_28 (y m : Z) :
  1 <= m <= 12 -> 28 <= Calendar.days_in_month y m.
Proof.
  intros Hm. unfold Calendar.days_in_month.
  destruct ((m =? 2) && Calendar.is_leap y); [lia|].
  each_month Hm; simpl; lia.
Qed.

(** The day after has another day of the month. *)
Lemma day_of_next_date (y m d : Z) :
  1 <= m <= 12 -> 1 <= d <= Calendar.days_in_month y m ->
  (Calendar.next_date (y, m, d)).2 <> d.
Proof.
  intros Hm Hd. pose proof (days_in_month_ge_28 y m Hm). unfold Calendar.next_date.
  destruct (Z.ltb_spec d (Calendar.days_in_month y m)); simpl; [lia|].
  destruct (m <? 12); simpl; lia.
Qed.

(** So has the day before. *)
Lemma day_of_minus_one_day (t : Calendar.DateTime) :
  Calendar.well_formed t ->
  Calendar.day (Calendar.minus_one_day t) <> Calendar.day t.
Proof.
  intros (Hy & Hm & Hd). unfold Calendar.minus_one_day.
  destruct (Z.ltb_spec 1 (Calendar.day t)); simpl; [lia|].
  destruct (Z.ltb_spec 1 (Calendar.month t)); simpl; [|lia].
  pose proof (days_in_month_ge_28 (Calendar.year t) (Calendar.month t - 1)). lia.
Qed.

(** A reading between two readings of one calendar date has that date. *)
Lemma date_between (a b c : Calendar.DateTime) :
  Calendar.dt_le a b -> Calendar.dt_le b c ->
  Calendar.date_of c = Calendar.date_of a ->
  Calendar.date_of b = Calendar.date_of a.
Proof.
  unfold Calendar.dt_le, Calendar.date_of, Calendar.date_lt.
  intros Hab Hbc [= Hy Hm Hd].
  destruct Hab as [Hab | [[= Hab1 Hab2 Hab3] _]];
    [|by rewrite Hab1, Hab2, Hab3].
  destruct Hbc as [Hbc | [[= Hbc1 Hbc2 Hbc3] _]]; exfalso; lia.
Qed.

(** ** The transition from idle to checking *)

Lemma rollover_is_noticed (clock : nat -> Calendar.DateTime) (s : LoopState) :
  Calendar.well_formed (lastChecked s) ->
  Calendar.date_of (clock (ticks s))
  = Calendar.next_date (Calendar.date_of (lastChecked s)) ->
  day_changed clock s = true.
Proof.
  intros (Hy & Hm & Hd) Hnext. unfold day_changed.
  apply negb_true_iff, Z.eqb_neq. intros Heq.
  apply (day_of_next_date (Calendar.year (lastChecked s))
           (Calendar.month (lastChecked s)) (Calendar.day (lastChecked s)) Hm Hd).
  unfold Calendar.date_of in Hnext. rewrite <- Hnext. simpl. congruence.
Qed.

(** On load, the first pass checks (the marker starts a day back). *)
Lemma first_pass_checks (clock : nat -> Calendar.DateTime) :
  Calendar.well_formed (clock 0%nat) ->
  Calendar.day (clock 1%nat) = Calendar.day (clock 0%nat) ->
  day_changed clock (init clock) = true.
Proof.
  intros Hwf Hsame. unfold day_changed, init. simpl.
  apply negb_true_iff, Z.eqb_neq. rewrite Hsame.
  by apply day_of_minus_one_day.
Qed.

Lemma no_second_check_that_day (clock : nat -> Calendar.DateTime)
    (env : Env) (envs : list Env) (s1 s2 : LoopState) :
  monotone clock ->
  day_changed clock s1 = true ->
  imageLoop clock (env :: envs) s1 = (Returned tt, s2) ->
  Calendar.date_of (clock (ticks s2)) = Calendar.date_of (clock (ticks s1)) ->
  day_changed clock s2 = false.
Proof.
  intros Hmono Hd Hrun Hsame.
  pose proof (imageLoop_marker_from_checking clock env envs s1 Hd) as Hm.
  rewrite Hrun in Hm. destruct Hm as (k & Hk & Hlast). simpl in Hk, Hlast.
  unfold day_changed. rewrite Hlast.
  apply negb_false_iff, Z.eqb_eq.
  assert (Hdate : Calendar.date_of (clock k) = Calendar.date_of (clock (ticks s1))).
  { apply (date_between _ _ (clock (ticks s2))); [| |done]; apply Hmono; lia. }
  rewrite <- Hsame in Hdate. unfold Calendar.date_of in Hdate. congruence.
Qed.

Lemma christmas_clock_monotone : monotone christmas_clock.
Proof.
  intros i j Hij. right. split; [reflexivity|].
  unfold Calendar.time_le, Calendar.time_of, christmas_clock. simpl.
  right. split; [done|]. right. split; [done|]. right. split; [done|]. lia.
Qed.

Lemma month_later_clock_monotone : monotone month_later_clock.
Proof.
  intros [|i] [|j] Hij; try lia.
  - right. split; [reflexivity|]. unfold Calendar.time_le. simpl. lia.
  - left. unfold Calendar.date_lt. simpl. lia.
  - right. split; [reflexivity|].
    unfold Calendar.time_le, Calendar.time_of, month_later_clock. simpl.
    right. split; [done|]. right. split; [done|]. right. split; [done|]. lia.
Qed.

(** The transition is not taken once on every calendar day, and can be taken
    twice on one.  On a clock that never runs backwards, a marker of
    25 November and a reading on 25 December have the same day of the month:
    the pass stays idle although the calendar day has changed.  On a local
    clock set back over midnight, the pass after the step finds another day
    of the month and the pass after the next midnight again: the transition
    is taken twice on 25 December, and the icon of that day is applied
    twice. *)
Lemma once_per_day_counterexample :
  (let s := init month_later_clock in
   monotone month_later_clock
   /\ Calendar.date_of (lastChecked s) = (2020, 11, 25)
   /\ Calendar.date_of (month_later_clock (ticks s)) = (2020, 12, 25)
   /\ day_changed month_later_clock s = false
   /\ imageLoop_body month_later_clock env_scheduled s = (Returned tt, idle_pass s))
  /\ (let s0 := init set_back_clock in
      let s1 := (imageLoop_body set_back_clock env_scheduled s0).2 in
      let s2 := (imageLoop_body set_back_clock env_scheduled s1).2 in
      let s3 := (imageLoop_body set_back_clock env_scheduled s2).2 in
      day_changed set_back_clock s0 = true
      /\ Calendar.date_of (set_back_clock (ticks s0)) = (2020, 12, 25)
      /\ day_changed set_back_clock s2 = true
      /\ Calendar.date_of (set_back_clock (ticks s2)) = (2020, 12, 25)
      /\ applied s3
         = [mkEdit 42 Icons [Byte.x01] "ServerManage changing icon to winter";
            mkEdit 42 Icons [Byte.x01] "ServerManage changing icon to winter"]).
Proof.
  split; [|by vm_compute].
  split; [apply month_later_clock_monotone | by vm_compute].
Qed.

(** C9. The transition from idle to checking of [imageLoop]: a pass takes
    it exactly when the day of the month read from the clock differs from
    the day recorded at the last check (otherwise the pass changes nothing
    but the count of readings), and on taking it records the marker; a first
    reading on the day after the recorded one always takes it; and on a clock
    that never runs backwards it is never taken twice on one calendar day:
    once a pass has taken it, no later pass whose reading falls on the same
    calendar date takes it. *)
Theorem idle_to_checking_once_per_day (clock : nat -> Calendar.DateTime) :
  (forall env s,
     day_changed clock s = false ->
     imageLoop_body clock env s = (Returned tt, idle_pass s))
  /\ (forall env s,
      day_changed clock s = true ->
      lastChecked (imageLoop_body clock env s).2 = clock (S (ticks s))
      /\ exists more,
           log (imageLoop_body clock env s).2
           = (log s ++ checking_record :: more)%list)
  /\ (forall s,
      Calendar.well_formed (lastChecked s) ->
      Calendar.date_of (clock (ticks s))
      = Calendar.next_date (Calendar.date_of (lastChecked s)) ->
      day_changed clock s = true)
  /\ (monotone clock ->
      forall env envs s1 s2,
        day_changed clock s1 = true ->
        imageLoop clock (env :: envs) s1 = (Returned tt, s2) ->
        Calendar.date_of (clock (ticks s2)) = Calendar.date_of (clock (ticks s1)) ->
        day_changed clock s2 = false).
Proof.
  split; [|split; [|split]].
  - intros env s Hd. by apply imageLoop_body_idle.
  - intros env s Hd.
    destruct (imageLoop_body_checking clock env s Hd) as (Hl & _ & Hlog). done.
  - intros s. apply rollover_is_noticed.
  - intros Hmono env envs s1 s2. by apply no_second_check_that_day.
Qed.

Lemma idle_to_checking_once_per_day_witness :
  let s1 := init christmas_clock in
  let s2 := (imageLoop christmas_clock [env_no_guild; env_no_guild] s1).2 in
  day_changed christmas_clock s1 = true
  /\ lastChecked (imageLoop_body christmas_clock env_no_guild s1).2
     = christmas_clock 2
  /\ day_changed christmas_clock s2 = false
  /\ imageLoop_body christmas_clock env_no_guild s2 = (Returned tt, idle_pass s2).
Proof.
  intros s1 s2.
  destruct (idle_to_checking_once_per_day christmas_clock)
    as (Hidle & Hcheck & Hroll & Honce).
  assert (H1 : day_changed christmas_clock s1 = true).
  { apply Hroll; [vm_compute; intuition discriminate | reflexivity]. }
  assert (H2 : day_changed christmas_clock s2 = false).
  { apply (Honce christmas_clock_monotone env_no_guild [env_no_guild] s1 s2);
      [exact H1 | reflexivity | reflexivity]. }
  split; [exact H1|].
  split; [exact (proj1 (Hcheck env_no_guild s1 H1))|].
  split; [exact H2|].
  exact (Hidle env_no_guild s2 H2).
Defined.

(** C6, the part the code does not keep.  Two guilds have an icon scheduled
    for today; the file of the first is missing.  [open] raises
    [FileNotFoundError], which nothing catches: the pass ends with the
    exception before the second guild is looked at, and the loop ends with
    it (the second environment is never used). *)
Theorem missing_file_ends_the_loop :
  let r := imageLoop christmas_clock [env_missing_file; env_missing_file]
                     (init christmas_clock) in
  r.1 = Raised FileNotFoundError
  /\ applied r.2 = []
  /\ ticks r.2 = 4%nat.
Proof. by vm_compute. Qed.

(** The parts of C6 the code keeps: a refused edit is logged and the pass
    goes on to the next category and guild; a guild with nothing scheduled
    today is skipped. *)
Lemma forbidden_is_logged_and_passed :
  let r := imageLoop christmas_clock [env_forbidden] (init christmas_clock) in
  r.1 = Returned tt
  /\ applied r.2 = [mkEdit 43 Icons [Byte.x02] "ServerManage changing icon to snow"]
  /\ mkLogRecord ERROR
       "Could not change icon, ensure the bot has Manage Server permissions" []
     ∈ log r.2.
Proof.
  split; [by vm_compute|]. split; [by vm_compute|].
  apply list_elem_of_In. vm_compute. tauto.
Qed.

(** * Further properties of the code *)

(** ** Attachments *)

Lemma no_dimensions_truthy (a : Attachment) :
  no_dimensions a <-> truthy (height a) = false /\ truthy (width a) = false.
Proof. unfold no_dimensions. by rewrite !truthy_false. Qed.

Lemma elem_of_formats (x : string) :
  x ∈ [".png"; ".gif"] <-> x = ".png" \/ x = ".gif".
Proof.
  rewrite !elem_of_cons. split; [|tauto].
  intros [?|[?|H]]; [tauto | tauto | by apply not_elem_of_nil in H].
Qed.

(** X1. [validateImageAttachment] tells four cases apart, in this order: not
    exactly one attachment; one attachment without dimensions (whatever its
    extension); one attachment with a dimension whose extension, lower-cased,
    is neither [.png] nor [.gif]; and otherwise it accepts.  One of height
    and width is enough to pass the dimension test. *)
Theorem validateImageAttachment_cases (msg : Message) :
  (validateImageAttachment msg = Raised InvalidAttachmentsError
   <-> length (attachments msg) <> 1%nat)
  /\ (validateImageAttachment msg = Raised InvalidFileError
      <-> exists a, attachments msg = [a] /\ no_dimensions a)
  /\ (validateImageAttachment msg = Raised InvalidImageError
      <-> exists a, attachments msg = [a] /\ ~ no_dimensions a
                    /\ extension a <> ".png" /\ extension a <> ".gif")
  /\ (validateImageAttachment msg = Returned tt
      <-> exists a, attachments msg = [a] /\ ~ no_dimensions a
                    /\ (extension a = ".png" \/ extension a = ".gif")).
Proof.
  unfold validateImageAttachment.
  destruct (attachments msg) as [|a [|b l]] eqn:Ha; simpl.
  - split; [split; [intros _; lia | done]|].
    repeat split; try done; intros (a' & Ha' & _); discriminate.
  - fold (extension a).
    destruct (negb (truthy (height a)) && negb (truthy (width a))) eqn:Hd.
    + assert (Hnd : no_dimensions a).
      { apply no_dimensions_truthy. apply andb_true_iff in Hd as [H1 H2].
        by rewrite negb_true_iff in H1, H2. }
      split; [split; [done | lia]|].
      split; [split; [intros _; by exists a | done]|].
      split; (split; [done | intros (a' & [= <-] & Hn & _); done]).
    + assert (Hnd : ~ no_dimensions a).
      { rewrite no_dimensions_truthy. intros [H1 H2]. by rewrite H1, H2 in Hd. }
      destruct (bool_decide (extension a ∈ [".png"; ".gif"])) eqn:He; simpl.
      * apply bool_decide_eq_true, elem_of_formats in He.
        split; [split; [done | lia]|].
        split; [split; [done | intros (a' & [= <-] & Hn); done]|].
        split; [split; [done | intros (a' & [= <-] & _ & H1 & H2); by destruct He]|].
        split; [intros _; by exists a | done].
      * apply bool_decide_eq_false in He. rewrite elem_of_formats in He.
        split; [split; [done | lia]|].
        split; [split; [done | intros (a' & [= <-] & Hn); done]|].
        split; [split; [intros _; exists a; tauto | done]|].
        split; [done | intros (a' & [= <-] & _ & H); by destruct He].
  - split; [split; [intros _; simpl; lia | done]|].
    repeat split; try done; intros (a' & Ha' & _); discriminate.
Qed.

Lemma validateImageAttachment_cases_witness :
  validateImageAttachment (message ctx_one_dimension) = Returned tt
  /\ validateImageAttachment (message ctx_not_image) = Raised InvalidFileError
  /\ validateImageAttachment (message ctx_jpeg) = Raised InvalidImageError
  /\ validateImageAttachment (message ctx_no_attachment) = Raised InvalidAttachmentsError.
Proof.
  split; [|split; [|split]].
  - apply (proj2 (proj2 (proj2 (validateImageAttachment_cases (message ctx_one_dimension))))).
    eexists. split; [reflexivity|]. split; [|left; reflexivity].
    intros [[H|H] _]; discriminate.
  - apply (proj1 (proj2 (validateImageAttachment_cases (message ctx_not_image)))).
    eexists. split; [reflexivity|]. split; left; reflexivity.
  - apply (proj1 (proj2 (proj2 (validateImageAttachment_cases (message ctx_jpeg))))).
    eexists. split; [reflexivity|]. split; [|split; discriminate].
    intros [[H|H] _]; discriminate.
  - apply (proj1 (validateImageAttachment_cases (message ctx_no_attachment))).
    simpl. lia.
Defined.

(** ** Adding and removing *)

Import Surface.

Lemma append_inj_l (a b c : string) : a +:+ b = a +:+ c -> b = c.
Proof.
  induction a as [|x a IH]; [done|].
  change (String x (a +:+ b) = String x (a +:+ c) -> b = c).
  intros [= H]. by apply IH.
Qed.

(** Two images of one guild and category are stored under the same path
    only if they have the same file name. *)
Lemma getFullFilepath_inj dataFolder g ty (d1 d2 : ImageDetails) :
  getFullFilepath dataFolder g d1 ty = getFullFilepath dataFolder g d2 ty ->
  filename d1 = filename d2.
Proof. unfold getFullFilepath. apply append_inj_l. Qed.

Lemma only_images_differ_after_add dataFolder ctx name ty c image :
  only_images_differ (guild_id (guild ctx)) ty (store c)
    (store_after_add dataFolder ctx name ty c image).
Proof.
  unfold store_after_add. repeat split; intros; autorewrite with store; reflexivity.
Qed.

Lemma imageAdd_fresh_run dataFolder ctx incoming name ty c image :
  validateImageAttachment (message ctx) = Returned tt ->
  attachments (message ctx) = [image] ->
  images_of (guild_conf (store c) (guild_id (guild ctx))) ty !! name = None ->
  imageAdd dataFolder ctx incoming name ty c
  = (Returned tt,
     mkCmdState (store_after_add dataFolder ctx name ty c image)
       (sent c ++ [Text ("Saved the " +:+ getSingularImageType ty +:+ " as "
                           +:+ name +:+ "!")])).
Proof.
  intros Hv Ha Hn.
  assert (Hrun :
    imageAdd dataFolder ctx incoming name ty c
    = imageAdd_save dataFolder ctx name ty (mkCmdState (store c) (sent c))).
  { unfold imageAdd. rewrite Hv.
    unfold bind at 1, read_images at 1, gets at 1.
    rewrite Hn. rewrite bool_decide_eq_false_2 by (intros [? ?]; discriminate).
    by destruct c. }
  rewrite Hrun. by rewrite (imageAdd_save_run _ _ _ _ _ image [] _ Ha).
Qed.

(** X2. An accepted attachment under a plain name that is not registered
    yet is saved at once, without a prompt and whatever arrives afterwards: the
    registry maps the name to the name followed by the lower-cased extension
    (which is [.png] or [.gif]), the file holds the attachment's bytes, the
    command answers that it saved the image, and the schedule tables, the
    other category and the other guilds are as before. *)
Theorem imageAdd_new_name_saved (dataFolder : string) (ctx : Context)
    (incoming : list Message) (name : string) (ty : ImageType) (c : CmdState)
    (image : Attachment) :
  let gid := guild_id (guild ctx) in
  let images := images_of (guild_conf (store c) gid) ty in
  let imageDict := mkImageDetails (name +:+ extension image) in
  let r := imageAdd dataFolder ctx incoming name ty c in
  plain_name name = true ->
  validateImageAttachment (message ctx) = Returned tt ->
  attachments (message ctx) = [image] ->
  images !! name = None ->
  r.1 = Returned tt
  /\ sent r.2 = (sent c ++ [Text ("Saved the " +:+ getSingularImageType ty +:+ " as "
                                    +:+ name +:+ "!")])%list
  /\ images_of (guild_conf (store r.2) gid) ty = <[name := imageDict]> images
  /\ files (store r.2)
     = <[getFullFilepath dataFolder (guild ctx) imageDict ty := att_bytes image]>
         (files (store c))
  /\ (extension image = ".png" \/ extension image = ".gif")
  /\ only_images_differ gid ty (store c) (store r.2).
Proof.
  intros gid images imageDict r _ Hv Ha Hn. subst r.
  rewrite (imageAdd_fresh_run _ _ _ _ _ _ image) by done. simpl.
  split; [done|]. split; [done|]. split.
  { unfold store_after_add. by autorewrite with store. }
  split; [done|]. split.
  - apply validate_Returned in Hv as (a & Ha' & _ & He).
    rewrite Ha in Ha'. injection Ha' as <-. by apply elem_of_formats.
  - apply only_images_differ_after_add.
Qed.

Lemma imageAdd_new_name_saved_witness :
  let r := imageAdd "/data" ctx_gif [reply_no] "spring" Icons sample_state in
  images_of (guild_conf (store r.2) 42) Icons !! "spring"
  = Some (mkImageDetails "spring.gif")
  /\ files (store r.2) !! "/data/42/icons/spring.gif" = Some [Byte.x47; Byte.x49]
  /\ sent r.2 = [Text "Saved the icon as spring!"].
Proof.
  intros r.
  destruct (imageAdd_new_name_saved "/data" ctx_gif [reply_no] "spring" Icons
              sample_state (mkAttachment "Winter.GIF" (Some 64) (Some 64)
                                         [Byte.x47; Byte.x49]))
    as (_ & Hsent & Himg & Hfiles & _); try reflexivity.
  split; [|split].
  - etrans; [exact (f_equal (fun m => m !! "spring") Himg)|]. by vm_compute.
  - etrans; [exact (f_equal (fun m => m !! "/data/42/icons/spring.gif") Hfiles)|].
    by vm_compute.
  - exact Hsent.
Defined.

(** X3. A confirmed overwrite writes the new file and repoints the registry
    entry but never deletes the file the entry pointed to before: when the
    new attachment has another file name (another extension), the old file
    is left on disk as it was, and a later confirmed removal of the name
    deletes the new file only. *)
Theorem overwrite_keeps_old_file (dataFolder : string) (ctx : Context)
    (incoming incoming' : list Message) (name : string) (ty : ImageType)
    (c : CmdState) (image : Attachment) (old : ImageDetails)
    (response response' : Message) :
  let gid := guild_id (guild ctx) in
  let oldpath := getFullFilepath dataFolder (guild ctx) old ty in
  let c1 := (imageAdd dataFolder ctx incoming name ty c).2 in
  let c2 := (imageRemove dataFolder ctx incoming' name ty c1).2 in
  validateImageAttachment (message ctx) = Returned tt ->
  attachments (message ctx) = [image] ->
  images_of (guild_conf (store c) gid) ty !! name = Some old ->
  wait_for (check ctx) incoming = Some response ->
  PyStr.lower (content response) = "yes" ->
  filename old <> name +:+ extension image ->
  wait_for (check ctx) incoming' = Some response' ->
  PyStr.lower (content response') = "yes" ->
  images_of (guild_conf (store c1) gid) ty !! name
  = Some (mkImageDetails (name +:+ extension image))
  /\ files (store c1) !! oldpath = files (store c) !! oldpath
  /\ images_of (guild_conf (store c2) gid) ty !! name = None
  /\ files (store c2) !! oldpath = files (store c) !! oldpath.
Proof.
  intros gid oldpath c1 c2 Hv Ha Hold Hw Hyes Hne Hw' Hyes'.
  assert (Hc1 : store c1 = store_after_add dataFolder ctx name ty c image).
  { apply (imageAdd_overwrite _ _ _ _ _ _ image response); eauto. }
  destruct (store_after_add_lookup dataFolder ctx name ty c image) as [Hi1 Hf1].
  cbv zeta in Hi1, Hf1. rewrite <- Hc1 in Hi1, Hf1.
  assert (Hpath : getFullFilepath dataFolder (guild ctx)
                    (mkImageDetails (name +:+ extension image)) ty <> oldpath).
  { intros Heq. apply getFullFilepath_inj in Heq. simpl in Heq. congruence. }
  assert (Hold1 : files (store c1) !! oldpath = files (store c) !! oldpath).
  { rewrite Hc1. unfold store_after_add. rewrite files_update_guild. simpl.
    by rewrite lookup_insert_ne. }
  split; [done|]. split; [done|].
  assert (Hc2 : store c2 = store_after_remove dataFolder ctx name ty c1
                             (mkImageDetails (name +:+ extension image))).
  { subst c2.
    by rewrite (imageRemove_confirmed _ _ _ _ _ _
                  (mkImageDetails (name +:+ extension image)) response'). }
  rewrite Hc2. unfold store_after_remove. autorewrite with store. simpl.
  split; [apply lookup_delete_eq|].
  by rewrite lookup_delete_ne.
Qed.

Lemma overwrite_keeps_old_file_witness :
  let c1 := (imageAdd "/data" ctx_gif [reply_YES] "winter" Icons sample_state).2 in
  let c2 := (imageRemove "/data" ctx_gif [reply_YES] "winter" Icons c1).2 in
  images_of (guild_conf (store c1) 42) Icons !! "winter"
  = Some (mkImageDetails "winter.gif")
  /\ files (store c1) !! "/data/42/icons/winter.png" = Some [Byte.x01]
  /\ images_of (guild_conf (store c2) 42) Icons !! "winter" = None
  /\ files (store c2) !! "/data/42/icons/winter.png" = Some [Byte.x01].
Proof.
  intros c1 c2.
  exact (overwrite_keeps_old_file "/data" ctx_gif [reply_YES] [reply_YES] "winter"
           Icons sample_state
           (mkAttachment "Winter.GIF" (Some 64) (Some 64) [Byte.x47; Byte.x49])
           (mkImageDetails "winter.png") reply_YES reply_YES
           eq_refl eq_refl eq_refl eq_refl eq_refl
           ltac:(discriminate) eq_refl eq_refl).
Defined.

(** ** [imageShow], path by path *)

Section ShowCommand.

Variables (dataFolder : string) (ctx : Context) (name : string) (ty : ImageType).
Variables (st : Store) (sh : list Shown).

Let images := images_of (guild_conf st (guild_id (guild ctx))) ty.

Lemma imageShow_unknown :
  images !! name = None ->
  imageShow dataFolder ctx name ty (mkShowState st sh)
  = (Returned tt,
     mkShowState st
       (sh ++ [ShownText ("This " +:+ getSingularImageType ty +:+ " dosent exist!")])).
Proof.
  intros Hn. unfold imageShow, bind, gets. simpl. fold images. rewrite Hn.
  by rewrite bool_decide_eq_false_2 by (intros [? ?]; discriminate).
Qed.

Lemma imageShow_file details data :
  images !! name = Some details ->
  files st !! getFullFilepath dataFolder (guild ctx) details ty = Some data ->
  imageShow dataFolder ctx name ty (mkShowState st sh)
  = (Returned tt, mkShowState st (sh ++ [ShownFile (filename details) data])).
Proof.
  intros Hn Hf. unfold imageShow, bind, gets. simpl. fold images. rewrite Hn.
  rewrite bool_decide_eq_true_2 by eauto. simpl.
  unfold try_except, discord_File. simpl. by rewrite Hf.
Qed.

Lemma imageShow_missing details :
  images !! name = Some details ->
  files st !! getFullFilepath dataFolder (guild ctx) details ty = None ->
  imageShow dataFolder ctx name ty (mkShowState st sh)
  = (Returned tt,
     mkShowState st (sh ++ [ShownText ":warning: Error: The file does not exist"])).
Proof.
  intros Hn Hf. unfold imageShow, bind, gets. simpl. fold images. rewrite Hn.
  rewrite bool_decide_eq_true_2 by eauto. simpl.
  unfold try_except, discord_File. simpl. by rewrite Hf.
Qed.

End ShowCommand.

(** X4. A name that is not registered: [imageRemove] answers that it does
    not exist without asking for a confirmation, and [imageShow] answers the
    same way; neither changes the store, whatever else arrives. *)
Theorem unknown_name_is_reported (dataFolder : string) (ctx : Context)
    (incoming : list Message) (name : string) (ty : ImageType) (c : CmdState)
    (sh : list Shown) :
  images_of (guild_conf (store c) (guild_id (guild ctx))) ty !! name = None ->
  imageRemove dataFolder ctx incoming name ty c
  = (Returned tt,
     mkCmdState (store c)
       (sent c ++ [Text ("This " +:+ getSingularImageType ty +:+ " doesn't exist!")]))
  /\ imageShow dataFolder ctx name ty (mkShowState (store c) sh)
     = (Returned tt,
        mkShowState (store c)
          (sh ++ [ShownText ("This " +:+ getSingularImageType ty
                               +:+ " dosent exist!")])).
Proof.
  intros Hn. split; [by apply imageRemove_unknown | by apply imageShow_unknown].
Qed.

Lemma unknown_name_is_reported_witness :
  imageRemove "/data" sample_ctx [reply_YES] "summer" Banners sample_state
  = (Returned tt, mkCmdState sample_store [Text "This banner doesn't exist!"])
  /\ imageShow "/data" sample_ctx "winter" Banners (mkShowState sample_store [])
     = (Returned tt, mkShowState sample_store [ShownText "This banner dosent exist!"]).
Proof.
  split.
  - apply (proj1 (unknown_name_is_reported "/data" sample_ctx [reply_YES] "summer"
                    Banners sample_state [] eq_refl)).
  - apply (proj2 (unknown_name_is_reported "/data" sample_ctx [] "winter"
                    Banners sample_state [] eq_refl)).
Defined.

(** X5. What was added can be shown: after an accepted attachment was saved
    under a new plain name, [imageShow] of that name sends a file called by
    the name and the lower-cased extension, with the bytes of the
    attachment. *)
Theorem show_after_add (dataFolder : string) (ctx : Context)
    (incoming : list Message) (name : string) (ty : ImageType) (c : CmdState)
    (image : Attachment) (sh : list Shown) :
  let c1 := (imageAdd dataFolder ctx incoming name ty c).2 in
  plain_name name = true ->
  validateImageAttachment (message ctx) = Returned tt ->
  attachments (message ctx) = [image] ->
  images_of (guild_conf (store c) (guild_id (guild ctx))) ty !! name = None ->
  imageShow dataFolder ctx name ty (mkShowState (store c1) sh)
  = (Returned tt,
     mkShowState (store c1)
       (sh ++ [ShownFile (name +:+ extension image) (att_bytes image)])).
Proof.
  intros c1 _ Hv Ha Hn.
  assert (Hc1 : store c1 = store_after_add dataFolder ctx name ty c image).
  { subst c1. by rewrite (imageAdd_fresh_run _ _ _ _ _ _ image). }
  destruct (store_after_add_lookup dataFolder ctx name ty c image) as [Hi Hf].
  cbv zeta in Hi, Hf. rewrite <- Hc1 in Hi, Hf.
  by rewrite (imageShow_file _ _ _ _ _ _ _ _ Hi Hf).
Qed.

Lemma show_after_add_witness :
  let c1 := (imageAdd "/data" ctx_gif [] "spring" Icons sample_state).2 in
  imageShow "/data" ctx_gif "spring" Icons (mkShowState (store c1) [])
  = (Returned tt,
     mkShowState (store c1) [ShownFile "spring.gif" [Byte.x47; Byte.x49]]).
Proof.
  intros c1.
  exact (show_after_add "/data" ctx_gif [] "spring" Icons sample_state
           (mkAttachment "Winter.GIF" (Some 64) (Some 64) [Byte.x47; Byte.x49]) []
           eq_refl eq_refl eq_refl eq_refl).
Defined.

(** X6. [imageShow] always answers and never fails: on every store and name
    it returns, leaves the store alone and sends exactly one thing.  For an
    unregistered name that is the text that it does not exist; for a
    registered image whose file is not on disk, the [FileNotFoundError] is
    caught and a warning is sent; otherwise the file is sent under its stored
    name. *)
Theorem imageShow_always_answers (dataFolder : string) (ctx : Context)
    (name : string) (ty : ImageType) (st : Store) (sh : list Shown) :
  let images := images_of (guild_conf st (guild_id (guild ctx))) ty in
  exists out,
    imageShow dataFolder ctx name ty (mkShowState st sh)
    = (Returned tt, mkShowState st (sh ++ [out]))
    /\ (images !! name = None ->
        out = ShownText ("This " +:+ getSingularImageType ty +:+ " dosent exist!"))
    /\ (forall details,
          images !! name = Some details ->
          files st !! getFullFilepath dataFolder (guild ctx) details ty = None ->
          out = ShownText ":warning: Error: The file does not exist")
    /\ (forall details data,
          images !! name = Some details ->
          files st !! getFullFilepath dataFolder (guild ctx) details ty = Some data ->
          out = ShownFile (filename details) data).
Proof.
  intros images.
  destruct (images !! name) as [details|] eqn:Hn.
  - destruct (files st !! getFullFilepath dataFolder (guild ctx) details ty)
      as [data|] eqn:Hf.
    + eexists. split; [by apply (imageShow_file _ _ _ _ _ _ details data)|].
      split; [done|]. split.
      * intros d [= <-] Hf'. rewrite Hf in Hf'. discriminate.
      * intros d data' [= <-] Hf'. rewrite Hf in Hf'. by injection Hf' as <-.
    + eexists. split; [by apply (imageShow_missing _ _ _ _ _ _ details)|].
      split; [done|]. split; [done|].
      intros d data' [= <-] Hf'. rewrite Hf in Hf'. discriminate.
  - eexists. split; [by apply imageShow_unknown|]. by repeat split.
Qed.

Lemma imageShow_always_answers_witness :
  imageShow "/data" sample_ctx "winter" Icons
    (mkShowState (the_store env_missing_file) [])
  = (Returned tt,
     mkShowState (the_store env_missing_file)
       [ShownText ":warning: Error: The file does not exist"]).
Proof.
  destruct (imageShow_always_answers "/data" sample_ctx "winter" Icons
              (the_store env_missing_file) [])
    as (out & Hrun & _ & Hmissing & _).
  rewrite Hrun.
  by rewrite (Hmissing (mkImageDetails "winter.png") eq_refl eq_refl).
Defined.

(** ** Adding, then removing *)




Lemma guild_conf_config (st : Store) (fs : gmap string (list Byte.byte)) (gid : Z) :
  guild_conf (mkStore (config st) fs) gid = guild_conf st gid.
Proof. reflexivity. Qed.



(** ** Dates *)

Lemma date_key_inj (m d m' d' : Z) :
  validDate m d = Returned true -> validDate m' d' = Returned true ->
  date_key m d = date_key m' d' -> m = m' /\ d = d'.
Proof.
  intros Hv Hv' Heq.
  pose proof (fromisoformat_date_key m d Hv) as H.
  rewrite Heq, (fromisoformat_date_key m' d' Hv') in H.
  by injection H as -> ->.
Qed.

(** X8. Two different valid dates have different keys, so scheduling or
    clearing one date never touches the entry of another date. *)
Theorem other_dates_untouched (ctx : Context) (m d m' d' : Z) (name : string)
    (ty : ImageType) (c : CmdState) :
  let gid := guild_id (guild ctx) in
  let dates := dates_of (guild_conf (store c) gid) ty in
  validDate m d = Returned true -> validDate m' d' = Returned true -> (m, d) <> (m', d') ->
  date_key m d <> date_key m' d'
  /\ dates_of (guild_conf (store (imageDateSet ctx m d name ty c).2) gid) ty
       !! date_key m' d' = dates !! date_key m' d'
  /\ dates_of (guild_conf (store (imageDateReset ctx m d ty c).2) gid) ty
       !! date_key m' d' = dates !! date_key m' d'.
Proof.
  intros gid dates Hv Hv' Hne.
  assert (Hk : date_key m d <> date_key m' d').
  { intros Heq. destruct (date_key_inj m d m' d' Hv Hv' Heq). congruence. }
  split; [done|]. split.
  - destruct (imageDateSet_store_cases ctx m d name ty c) as [-> | [_ ->]]; [done|].
    fold gid. autorewrite with store. by rewrite lookup_insert_ne.
  - destruct (imageDateReset_store_cases ctx m d ty c) as [-> | ->]; [done|].
    fold gid. autorewrite with store. by rewrite lookup_delete_ne.
Qed.

Lemma other_dates_untouched_witness :
  dates_of (guild_conf
    (store (imageDateSet sample_ctx 1 2 "summer" Icons scheduled_state).2) 42) Icons
    !! "12-25" = Some "winter"
  /\ dates_of (guild_conf
       (store (imageDateReset sample_ctx 1 2 Icons scheduled_state).2) 42) Icons
       !! "01-01" = Some "winter".
Proof.
  split.
  - etrans; [exact (proj1 (proj2 (other_dates_untouched sample_ctx 1 2 12 25
                       "summer" Icons scheduled_state eq_refl eq_refl
                       ltac:(discriminate))))|].
    reflexivity.
  - etrans; [exact (proj2 (proj2 (other_dates_untouched sample_ctx 1 2 1 1
                       "summer" Icons scheduled_state eq_refl eq_refl
                       ltac:(discriminate))))|].
    reflexivity.
Defined.

(** X9. A date holds one asset per category, the last one set: scheduling
    [n2] on a date already given to [n1] leaves the table exactly as if only
    [n2] had been scheduled. *)
Theorem second_set_replaces_first (ctx : Context) (m d : Z) (n1 n2 : string)
    (ty : ImageType) (c : CmdState) :
  let gid := guild_id (guild ctx) in
  let images := images_of (guild_conf (store c) gid) ty in
  let c1 := (imageDateSet ctx m d n1 ty c).2 in
  let c2 := (imageDateSet ctx m d n2 ty c1).2 in
  validDate m d = Returned true -> is_Some (images !! n1) -> is_Some (images !! n2) ->
  dates_of (guild_conf (store c2) gid) ty !! date_key m d = Some n2
  /\ dates_of (guild_conf (store c2) gid) ty
     = dates_of (guild_conf (store (imageDateSet ctx m d n2 ty c).2) gid) ty.
Proof.
  intros gid images c1 c2 Hv H1 H2.
  assert (Hd1 : dates_of (guild_conf (store c1) gid) ty
                = <[date_key m d := n1]> (dates_of (guild_conf (store c) gid) ty)).
  { subst c1. rewrite imageDateSet_ok by done. simpl. fold gid.
    by autorewrite with store. }
  assert (Hi1 : images_of (guild_conf (store c1) gid) ty = images).
  { subst c1. rewrite imageDateSet_ok by done. simpl. fold gid.
    by autorewrite with store. }
  assert (Hd2 : dates_of (guild_conf (store c2) gid) ty
                = <[date_key m d := n2]> (dates_of (guild_conf (store c) gid) ty)).
  { subst c2. rewrite imageDateSet_ok; [|done|by fold gid; rewrite Hi1].
    simpl. fold gid. autorewrite with store. rewrite Hd1.
    apply insert_insert_eq. }
  split; [rewrite Hd2; apply lookup_insert_eq|].
  rewrite Hd2. rewrite imageDateSet_ok by done. simpl. fold gid.
  by autorewrite with store.
Qed.

Lemma second_set_replaces_first_witness :
  let c1 := (imageDateSet sample_ctx 7 1 "winter" Icons scheduled_state).2 in
  dates_of (guild_conf (store c1) 42) Icons !! "07-01" = Some "winter"
  /\ dates_of (guild_conf
       (store (imageDateSet sample_ctx 7 1 "summer" Icons c1).2) 42) Icons
     !! "07-01" = Some "summer".
Proof.
  intros c1. split; [reflexivity|].
  exact (proj1 (second_set_replaces_first sample_ctx 7 1 "winter" "summer" Icons
                  scheduled_state eq_refl ltac:(by eexists) ltac:(by eexists))).
Defined.

(** X10. Clearing a date undoes scheduling it: after [imageDateSet] and
    [imageDateReset] on the same valid date the table is the one before,
    without that date; when the date was free before, it is the table
    before. *)
Theorem reset_undoes_set (ctx : Context) (m d : Z) (name : string)
    (ty : ImageType) (c : CmdState) :
  let gid := guild_id (guild ctx) in
  let images := images_of (guild_conf (store c) gid) ty in
  let dates := dates_of (guild_conf (store c) gid) ty in
  let c1 := (imageDateSet ctx m d name ty c).2 in
  let c2 := (imageDateReset ctx m d ty c1).2 in
  validDate m d = Returned true -> is_Some (images !! name) ->
  dates_of (guild_conf (store c2) gid) ty = delete (date_key m d) dates
  /\ (dates !! date_key m d = None -> dates_of (guild_conf (store c2) gid) ty = dates).
Proof.
  intros gid images dates c1 c2 Hv Hn.
  assert (Hd1 : dates_of (guild_conf (store c1) gid) ty
                = <[date_key m d := name]> dates).
  { subst c1. rewrite imageDateSet_ok by done. simpl. fold gid.
    by autorewrite with store. }
  assert (Hd2 : dates_of (guild_conf (store c2) gid) ty = delete (date_key m d) dates).
  { subst c2. rewrite imageDateReset_present; [|done|].
    - simpl. fold gid. autorewrite with store. rewrite Hd1.
      apply delete_insert_eq.
    - fold gid. rewrite Hd1, lookup_insert_eq. eauto. }
  split; [done|]. intros Hfree. rewrite Hd2. by apply delete_id.
Qed.

Lemma reset_undoes_set_witness :
  let c1 := (imageDateSet sample_ctx 3 7 "winter" Icons scheduled_state).2 in
  let c2 := (imageDateReset sample_ctx 3 7 Icons c1).2 in
  dates_of (guild_conf (store c1) 42) Icons !! "03-07" = Some "winter"
  /\ dates_of (guild_conf (store c2) 42) Icons
     = dates_of (guild_conf scheduled_store 42) Icons.
Proof.
  intros c1 c2. split; [reflexivity|].
  exact (proj2 (reset_undoes_set sample_ctx 3 7 "winter" Icons scheduled_state
                  eq_refl ltac:(by eexists)) eq_refl).
Defined.

(** X11. [imageDateReset] only ever removes.  It returns whenever the month
    and the day fit a C [int]; beyond that range the [OverflowError] of the
    [datetime] constructor leaves [validDate] uncaught and the command raises
    it, with nothing sent and nothing changed.  In every case each entry of
    the table afterwards was there before with the same asset, the only key
    that can go is the one of the date given, the registries, the other
    category, the other guilds and the files are as before, and a month/day
    that is no calendar date changes nothing at all. *)
Theorem imageDateReset_only_removes (ctx : Context) (m d : Z) (ty : ImageType)
    (c : CmdState) :
  let gid := guild_id (guild ctx) in
  let dates := dates_of (guild_conf (store c) gid) ty in
  let r := imageDateReset ctx m d ty c in
  let dates' := dates_of (guild_conf (store r.2) gid) ty in
  r.1 = (if Calendar.fits_c_int m && Calendar.fits_c_int d
         then Returned tt else Raised OverflowError)
  /\ (Calendar.fits_c_int m && Calendar.fits_c_int d = false -> r.2 = c)
  /\ (forall k v, dates' !! k = Some v -> dates !! k = Some v)
  /\ (forall k, k <> date_key m d -> dates' !! k = dates !! k)
  /\ only_dates_differ gid ty (store c) (store r.2)
  /\ (~ real_calendar_date m d -> store r.2 = store c).
Proof.
  intros gid dates r dates'. subst r dates'.
  destruct (Calendar.fits_c_int m && Calendar.fits_c_int d) eqn:Hfit.
  - destruct (decide (real_calendar_date m d)) as [Hreal | Hbad].
    + pose proof (proj2 (validDate_iff_real m d) Hreal) as Hv.
      destruct (dates !! date_key m d) as [n|] eqn:Hk.
      * rewrite imageDateReset_present; [|done|by fold gid; fold dates; rewrite Hk].
        simpl. fold gid. fold dates. split; [done|].
        split; [done|]. split; [|split; [|split]].
        -- intros k v. autorewrite with store. rewrite lookup_delete.
           by case_decide.
        -- intros k Hne. autorewrite with store. by rewrite lookup_delete_ne.
        -- apply only_dates_differ_update.
        -- done.
      * rewrite imageDateReset_absent by done. simpl.
        repeat split; try done.
    + apply andb_true_iff in Hfit as [Hfm Hfd].
      rewrite imageDateReset_invalid by (by apply validDate_false).
      simpl. repeat split; done.
  - rewrite (imageDateReset_raised _ _ _ _ _ OverflowError)
      by (by apply validDate_overflow).
    simpl. repeat split; done.
Qed.

Lemma imageDateReset_only_removes_witness :
  dates_of (guild_conf
    (store (imageDateReset sample_ctx 12 25 Icons scheduled_state).2) 42) Icons
    !! "07-01" = Some "summer"
  /\ store (imageDateReset sample_ctx 2 30 Icons scheduled_state).2 = scheduled_store
  /\ imageDateReset sample_ctx 2147483648 1 Icons scheduled_state
     = (Raised OverflowError, scheduled_state).
Proof.
  destruct (imageDateReset_only_removes sample_ctx 12 25 Icons scheduled_state)
    as (_ & _ & _ & Hother & _).
  destruct (imageDateReset_only_removes sample_ctx 2 30 Icons scheduled_state)
    as (_ & _ & _ & _ & _ & Hinvalid).
  destruct (imageDateReset_only_removes sample_ctx 2147483648 1 Icons scheduled_state)
    as (Hout & Hsame & _).
  split; [|split].
  - etrans; [apply Hother; discriminate | reflexivity].
  - apply Hinvalid. unfold real_calendar_date. simpl. lia.
  - apply injective_projections; [exact Hout | apply Hsame; reflexivity].
Defined.

(** ** What a command leaves alone *)

Lemma store_after_add_elsewhere dataFolder ctx name ty c image :
  let st' := store_after_add dataFolder ctx name ty c image in
  (forall gid, gid <> guild_id (guild ctx) ->
     guild_conf st' gid = guild_conf (store c) gid)
  /\ (forall gid ty', ty' <> ty ->
        images_of (guild_conf st' gid) ty' = images_of (guild_conf (store c) gid) ty'
        /\ dates_of (guild_conf st' gid) ty' = dates_of (guild_conf (store c) gid) ty').
Proof.
  intros st'. subst st'. unfold store_after_add. split.
  - intros gid Hne. by rewrite guild_conf_update_ne, guild_conf_config by done.
  - intros gid ty' Hty. destruct (decide (guild_id (guild ctx) = gid)) as [<- | Hne].
    + rewrite guild_conf_update_eq, guild_conf_config.
      by rewrite images_of_set_images_ne, dates_of_set_images by done.
    + by rewrite guild_conf_update_ne, guild_conf_config by done.
Qed.

Lemma store_after_remove_elsewhere dataFolder ctx name ty c details :
  let st' := store_after_remove dataFolder ctx name ty c details in
  (forall gid, gid <> guild_id (guild ctx) ->
     guild_conf st' gid = guild_conf (store c) gid)
  /\ (forall gid ty', ty' <> ty ->
        images_of (guild_conf st' gid) ty' = images_of (guild_conf (store c) gid) ty'
        /\ dates_of (guild_conf st' gid) ty' = dates_of (guild_conf (store c) gid) ty').
Proof.
  intros st'. subst st'. unfold store_after_remove. split.
  - intros gid Hne. by rewrite !guild_conf_update_ne, guild_conf_config by done.
  - intros gid ty' Hty. destruct (decide (guild_id (guild ctx) = gid)) as [<- | Hne].
    + rewrite !guild_conf_update_eq, guild_conf_config.
      rewrite images_of_set_dates, dates_of_set_dates_ne by done.
      by rewrite images_of_set_images_ne, dates_of_set_images by done.
    + by rewrite !guild_conf_update_ne, guild_conf_config by done.
Qed.

Lemma set_dates_elsewhere (st : Store) (g : Z) (ty : ImageType) (v : gmap string string) :
  let st' := update_guild g (set_dates ty v) st in
  (forall gid, gid <> g -> guild_conf st' gid = guild_conf st gid)
  /\ (forall gid ty', ty' <> ty ->
        images_of (guild_conf st' gid) ty' = images_of (guild_conf st gid) ty'
        /\ dates_of (guild_conf st' gid) ty' = dates_of (guild_conf st gid) ty').
Proof.
  intros st'. subst st'. split.
  - intros gid Hne. by rewrite guild_conf_update_ne by done.
  - intros gid ty' Hty. destruct (decide (g = gid)) as [<- | Hne].
    + rewrite guild_conf_update_eq.
      by rewrite images_of_set_dates, dates_of_set_dates_ne by done.
    + by rewrite guild_conf_update_ne by done.
Qed.

Lemma run_command_elsewhere dataFolder cmd c :
  let st' := store (run_command dataFolder cmd c).2 in
  (forall gid, gid <> command_guild cmd ->
     guild_conf st' gid = guild_conf (store c) gid)
  /\ (forall gid ty', ty' <> command_type cmd ->
        images_of (guild_conf st' gid) ty' = images_of (guild_conf (store c) gid) ty'
        /\ dates_of (guild_conf st' gid) ty' = dates_of (guild_conf (store c) gid) ty').
Proof.
  destruct cmd as [ctx incoming name ty | ctx incoming name ty
    | ctx ty | ctx month day name ty | ctx month day ty]; simpl.
  - destruct (imageAdd_store_cases dataFolder ctx incoming name ty c)
      as [-> | [image ->]]; [done | apply store_after_add_elsewhere].
  - destruct (imageRemove_store_cases dataFolder ctx incoming name ty c)
      as [-> | (details & _ & ->)]; [done | apply store_after_remove_elsewhere].
  - by rewrite imageList_store.
  - destruct (imageDateSet_store_cases ctx month day name ty c)
      as [-> | [_ ->]]; [done | apply set_dates_elsewhere].
  - destruct (imageDateReset_store_cases ctx month day ty c)
      as [-> | ->]; [done | apply set_dates_elsewhere].
Qed.

(** X12. Guilds are isolated: whatever a command does, on whatever input,
    the configuration of every guild other than the one it was invoked in
    is as before. *)
Theorem other_guilds_untouched (dataFolder : string) (cmd : Command)
    (c : CmdState) (gid : Z) :
  gid <> command_guild cmd ->
  guild_conf (store (run_command dataFolder cmd c).2) gid = guild_conf (store c) gid.
Proof. intros Hne. by apply (proj1 (run_command_elsewhere dataFolder cmd c)). Qed.

Lemma other_guilds_untouched_witness :
  guild_conf
    (store (run_command "/data" (Remove sample_ctx [reply_YES] "winter" Icons)
              (mkCmdState (the_store env_forbidden) [])).2) 43
  = mkGuildConfig {[ "snow" := mkImageDetails "snow.png" ]}
                  {[ "12-25" := "snow" ]} ∅ ∅.
Proof.
  etrans; [apply (other_guilds_untouched "/data"
                    (Remove sample_ctx [reply_YES] "winter" Icons)
                    (mkCmdState (the_store env_forbidden) []) 43);
           simpl; lia|].
  reflexivity.
Defined.

(** X13. The two categories are isolated: the commands of the icons group
    ([iconAdd], [iconRemove], [iconList], [iconSet], [iconReset], the last
    four relying on the default of [imageType]) never change a banner
    registry or banner schedule, and the commands of the banners group never
    change an icon registry or icon schedule. *)
Theorem categories_are_isolated (dataFolder : string)
    (pagify : string -> Z -> list string) (ctx : Context)
    (incoming : list Message) (name : string) (month day : Z) :
  (leaves_category_alone Banners (iconAdd dataFolder ctx incoming name)
   /\ leaves_category_alone Banners (iconRemove dataFolder ctx incoming name)
   /\ leaves_category_alone Banners (iconList pagify ctx)
   /\ leaves_category_alone Banners (iconSet ctx month day name)
   /\ leaves_category_alone Banners (iconReset ctx month day))
  /\ (leaves_category_alone Icons (bannerAdd dataFolder ctx incoming name)
      /\ leaves_category_alone Icons (bannerRemove dataFolder ctx incoming name)
      /\ leaves_category_alone Icons (bannerList pagify ctx)
      /\ leaves_category_alone Icons (bannerSet ctx month day name)
      /\ leaves_category_alone Icons (bannerReset ctx month day)).
Proof.
  assert (H : forall cmd ty, ty <> command_type cmd ->
                leaves_category_alone ty (run_command dataFolder cmd)).
  { intros cmd ty Hty c gid.
    by apply (proj2 (run_command_elsewhere dataFolder cmd c)). }
  split; (split; [|split; [|split; [|split]]]).
  - by apply (H (Add ctx incoming name Icons)).
  - by apply (H (Remove ctx incoming name Icons)).
  - by apply (H (ListDates pagify ctx Icons)).
  - by apply (H (SetDate ctx month day name Icons)).
  - by apply (H (ResetDate ctx month day Icons)).
  - by apply (H (Add ctx incoming name Banners)).
  - by apply (H (Remove ctx incoming name Banners)).
  - by apply (H (ListDates pagify ctx Banners)).
  - by apply (H (SetDate ctx month day name Banners)).
  - by apply (H (ResetDate ctx month day Banners)).
Qed.

(** ** Who confirms *)

Lemma check_false (ctx : Context) (m : Message) :
  from_elsewhere ctx m -> check ctx m = false.
Proof.
  unfold from_elsewhere, check. intros [H | H].
  - apply Z.eqb_neq in H. by rewrite H.
  - apply Z.eqb_neq in H. rewrite H. apply andb_false_r.
Qed.

Lemma check_true (ctx : Context) (m : Message) :
  author m = author (message ctx) -> channel m = channel (message ctx) ->
  check ctx m = true.
Proof. unfold check. intros -> ->. by rewrite !Z.eqb_refl. Qed.

Lemma wait_for_first (ctx : Context) (others rest : list Message) (m : Message) :
  (forall x, x ∈ others -> from_elsewhere ctx x) ->
  check ctx m = true ->
  wait_for (check ctx) (others ++ m :: rest) = Some m.
Proof.
  intros Ho Hm. unfold wait_for. induction others as [|x others IH]; simpl.
  - by rewrite Hm.
  - rewrite check_false by (apply Ho; apply list_elem_of_here).
    apply IH. intros y Hy. apply Ho. by apply list_elem_of_further.
Qed.

Lemma wait_for_nobody (ctx : Context) (others : list Message) :
  (forall x, x ∈ others -> from_elsewhere ctx x) ->
  wait_for (check ctx) others = None.
Proof.
  intros Ho. unfold wait_for. induction others as [|x others IH]; simpl; [done|].
  rewrite check_false by (apply Ho; apply list_elem_of_here).
  apply IH. intros y Hy. apply Ho. by apply list_elem_of_further.
Qed.

(** X14. Only the invoker's first message in the channel of the command
    counts as the reply.  Messages of other users or in other channels are
    passed over, so when nothing else arrives the wait times out and the
    store is unchanged even if they say [yes]; and once the invoker has
    answered something that does not lower-case to [yes], the operation is
    off, whatever the invoker writes afterwards. *)
Theorem only_the_invoker_confirms (dataFolder : string) (ctx : Context)
    (others rest : list Message) (name : string) (ty : ImageType) (c : CmdState) :
  (forall x, x ∈ others -> from_elsewhere ctx x) ->
  is_Some (images_of (guild_conf (store c) (guild_id (guild ctx))) ty !! name) ->
  (store (imageAdd dataFolder ctx others name ty c).2 = store c
   /\ store (imageRemove dataFolder ctx others name ty c).2 = store c)
  /\ (forall m,
        author m = author (message ctx) -> channel m = channel (message ctx) ->
        PyStr.lower (content m) <> "yes" ->
        store (imageAdd dataFolder ctx (others ++ m :: rest) name ty c).2 = store c
        /\ store (imageRemove dataFolder ctx (others ++ m :: rest) name ty c).2
           = store c).
Proof.
  intros Ho Hn. split.
  - pose proof (wait_for_nobody ctx others Ho) as Hw.
    split; [by apply imageAdd_timeout | by apply imageRemove_timeout].
  - intros m Ha Hc Hno.
    pose proof (wait_for_first ctx others rest m Ho (check_true ctx m Ha Hc)) as Hw.
    split.
    + by apply (imageAdd_declined _ _ _ _ _ _ m).
    + by apply (imageRemove_declined _ _ _ _ _ _ m).
Qed.

Lemma only_the_invoker_confirms_witness :
  store (imageRemove "/data" sample_ctx [reply_stranger] "winter" Icons
           sample_state).2 = sample_store
  /\ store (imageRemove "/data" sample_ctx [reply_stranger; reply_no; reply_YES]
              "winter" Icons sample_state).2 = sample_store.
Proof.
  assert (Ho : forall x, x ∈ [reply_stranger] -> from_elsewhere sample_ctx x).
  { intros x Hx. apply list_elem_of_singleton in Hx as ->. left. discriminate. }
  destruct (only_the_invoker_confirms "/data" sample_ctx [reply_stranger]
              [reply_YES] "winter" Icons sample_state Ho ltac:(by eexists))
    as [[_ Htimeout] Hfirst].
  split; [exact Htimeout|].
  apply (Hfirst reply_no); [reflexivity | reflexivity | discriminate].
Defined.

(** ** Listing *)

Lemma imageList_empty (pagify : string -> Z -> list string) (ctx : Context)
    (ty : ImageType) (c : CmdState) :
  images_of (guild_conf (store c) (guild_id (guild ctx))) ty = ∅ ->
  imageList pagify ctx ty c
  = (Returned tt,
     mkCmdState (store c)
       (sent c ++ [Text ("There are no " +:+ imageType_str ty
                           +:+ ", please add some first!")])).
Proof.
  intros He. unfold imageList.
  rewrite (bind_Returned _ _ c _ c) by reflexivity.
  by rewrite bool_decide_eq_true_2 by done.
Qed.

(** X15. In every store the commands can reach, [imageList] returns and
    changes nothing: with an empty registry it answers that there are none
    (no menu), otherwise it opens one menu, on the pages that [pagify] makes
    of one text, each in an embed with the title of the category and guild;
    it never fails on a key of the schedule table, since every key was
    written by [imageDateSet]. *)
Theorem imageList_on_reachable (dataFolder : string)
    (pagify : string -> Z -> list string) (ctx : Context)
    (ty : ImageType) (c : CmdState) :
  let images := images_of (guild_conf (store c) (guild_id (guild ctx))) ty in
  reachable dataFolder (store c) ->
  (images = ∅ ->
   imageList pagify ctx ty c
   = (Returned tt,
      mkCmdState (store c)
        (sent c ++ [Text ("There are no " +:+ imageType_str ty
                            +:+ ", please add some first!")])))
  /\ (images <> ∅ ->
      exists text,
        imageList pagify ctx ty c
        = (Returned tt,
           mkCmdState (store c)
             (sent c ++ [menu_of pagify
                           ("Server " +:+ getSingularImageType ty
                              +:+ " changes for " +:+ guild_name (guild ctx))
                           text]))).
Proof.
  intros images Hr. split.
  - apply imageList_empty.
  - intros Hne.
    pose proof (reachable_keys_parse dataFolder (store c) Hr
                  (guild_id (guild ctx)) ty) as Hp.
    by apply imageList_returns.
Qed.

Lemma imageList_on_reachable_witness :
  imageList one_page sample_ctx Banners added_state
  = (Returned tt,
     mkCmdState (store added_state)
       [Text "There are no banners, please add some first!"])
  /\ exists text,
       imageList one_page sample_ctx Icons added_state
       = (Returned tt,
          mkCmdState (store added_state)
            [Menu [mkEmbed "Server icon changes for Guild" text "Page 1/1"]]).
Proof.
  assert (Hr : reachable "/data" (store added_state)).
  { apply reachable_step, reachable_init. }
  split.
  - apply (proj1 (imageList_on_reachable "/data" one_page sample_ctx Banners
                    added_state Hr)).
    reflexivity.
  - apply (proj2 (imageList_on_reachable "/data" one_page sample_ctx Icons
                    added_state Hr)).
    intros He. apply (f_equal (fun m => m !! "winter")) in He.
    vm_compute in He. discriminate.
Defined.

(** ** The daily check, end to end *)

Lemma reachable_schedule_refers (dataFolder : string) (st : Store) :
  reachable dataFolder st -> schedule_refers_to_assets st.
Proof.
  intros Hr. induction Hr as [fs | st cmd snt Hr IH].
  - intros gid ty k n. unfold guild_conf. simpl. rewrite lookup_empty. simpl.
    destruct ty; simpl; by rewrite lookup_empty.
  - by apply run_command_preserves.
Qed.

(** X16. From the upload to the platform.  An accepted attachment is added
    under a new plain name and scheduled on a valid date; when the daily check of
    that guild and category reads a clock showing that month and day, and the
    platform accepts the edit, the check applies exactly one edit, to that
    guild and category, with the bytes of the attachment. *)
Theorem scheduled_asset_is_applied (folder : string) (ctx : Context)
    (incoming : list Message) (name : string) (ty : ImageType) (c : CmdState)
    (image : Attachment) (m d : Z)
    (clock : nat -> Calendar.DateTime) (env : Env) (g : Guild) (s : LoopState) :
  let c1 := (imageAdd folder ctx incoming name ty c).2 in
  let c2 := (imageDateSet ctx m d name ty c1).2 in
  plain_name name = true ->
  validateImageAttachment (message ctx) = Returned tt ->
  attachments (message ctx) = [image] ->
  images_of (guild_conf (store c) (guild_id (guild ctx))) ty !! name = None ->
  validDate m d = Returned true ->
  the_store env = store c2 -> dataFolder env = folder ->
  guild_id g = guild_id (guild ctx) ->
  Calendar.month (clock (ticks s)) = m -> Calendar.day (clock (ticks s)) = d ->
  edit_raises env ty (guild_id g) = None ->
  exists log',
    checkGuildImages clock env ty g s
    = (Returned tt,
       mkLoopState (lastChecked s) (S (ticks s)) log'
         (applied s ++ [mkEdit (guild_id g) ty (att_bytes image)
                          ("ServerManage changing " +:+ getSingularImageType ty
                             +:+ " to " +:+ name)])).
Proof.
  intros c1 c2 _ Hv Ha Hn Hd Hst Hfolder Hg Hmonth Hday Hedit.
  set (gid := guild_id (guild ctx)) in *.
  assert (Hc1 : store c1 = store_after_add folder ctx name ty c image).
  { subst c1. by rewrite (imageAdd_fresh_run _ _ _ _ _ _ image). }
  destruct (store_after_add_lookup folder ctx name ty c image) as [Hi1 Hf1].
  cbv zeta in Hi1, Hf1. rewrite <- Hc1 in Hi1, Hf1. fold gid in Hi1.
  assert (Hc2 : store c2
                = update_guild gid
                    (set_dates ty (<[date_key m d := name]>
                                     (dates_of (guild_conf (store c1) gid) ty)))
                    (store c1)).
  { subst c2. rewrite imageDateSet_ok; [done | done |].
    fold gid. rewrite Hi1. eauto. }
  apply (checkGuildImages_applied clock env ty g s name
           (mkImageDetails (name +:+ extension image)) (att_bytes image)).
  - rewrite Hst, Hc2, Hg. autorewrite with store.
    change (Calendar.strftime_md (clock (ticks s)))
      with (date_key (Calendar.month (clock (ticks s)))
                     (Calendar.day (clock (ticks s)))).
    rewrite Hmonth, Hday. apply lookup_insert_eq.
  - rewrite Hst, Hc2, Hg. by autorewrite with store.
  - rewrite Hst, Hc2, Hfolder. rewrite files_update_guild.
    unfold getFullFilepath in *. by rewrite Hg.
  - done.
Qed.

Lemma scheduled_asset_is_applied_witness :
  let c1 := (imageAdd "/data" ctx_gif [] "spring" Icons sample_state).2 in
  let c2 := (imageDateSet ctx_gif 12 25 "spring" Icons c1).2 in
  let env := mkEnv "/data" (store c2) [sample_guild] (fun _ _ => None) in
  exists log',
    checkGuildIcons christmas_clock env sample_guild (init christmas_clock)
    = (Returned tt,
       mkLoopState (lastChecked (init christmas_clock)) 2 log'
         [mkEdit 42 Icons [Byte.x47; Byte.x49] "ServerManage changing icon to spring"]).
Proof.
  intros c1 c2 env.
  exact (scheduled_asset_is_applied "/data" ctx_gif [] "spring" Icons sample_state
           (mkAttachment "Winter.GIF" (Some 64) (Some 64) [Byte.x47; Byte.x49])
           12 25 christmas_clock env sample_guild (init christmas_clock)
           eq_refl eq_refl eq_refl eq_refl eq_refl eq_refl eq_refl eq_refl eq_refl
           eq_refl eq_refl).
Defined.

(** X17. A refused edit and a day with nothing scheduled are both passed
    over by the check of a guild and category: with no entry for today's key
    it returns having applied nothing; when the platform answers [Forbidden]
    it logs the error, applies nothing and returns.  Either way the marker
    [lastChecked] is untouched and the clock was read once. *)
Theorem check_passes_over (clock : nat -> Calendar.DateTime) (env : Env)
    (ty : ImageType) (g : Guild) (s : LoopState) :
  let today := Calendar.strftime_md (clock (ticks s)) in
  let imageDates := dates_of (guild_conf (the_store env) (guild_id g)) ty in
  let images := images_of (guild_conf (the_store env) (guild_id g)) ty in
  let r := checkGuildImages clock env ty g s in
  (imageDates !! today = None ->
   r.1 = Returned tt /\ applied r.2 = applied s
   /\ lastChecked r.2 = lastChecked s /\ ticks r.2 = S (ticks s))
  /\ (forall imageName image data,
      imageDates !! today = Some imageName ->
      images !! imageName = Some image ->
      files (the_store env) !! getFullFilepath (dataFolder env) g image ty = Some data ->
      edit_raises env ty (guild_id g) = Some Forbidden ->
      r.1 = Returned tt /\ applied r.2 = applied s
      /\ lastChecked r.2 = lastChecked s /\ ticks r.2 = S (ticks s)
      /\ mkLogRecord ERROR
           ("Could not change " +:+ getSingularImageType ty
              +:+ ", ensure the bot has Manage Server permissions") []
         ∈ log r.2).
Proof.
  intros today imageDates images r. subst r. split.
  - intros Hd. by rewrite checkGuildImages_no_entry.
  - intros imageName image data Hd Hi Hf He.
    rewrite (checkGuildImages_forbidden clock env ty g s imageName image data)
      by done.
    simpl. repeat split; try done.
    apply elem_of_app. right. apply list_elem_of_further, list_elem_of_here.
Qed.

Lemma check_passes_over_witness :
  (checkGuildBanners christmas_clock env_forbidden (mkGuild 42 "First")
     (init christmas_clock)).1 = Returned tt
  /\ applied (checkGuildIcons christmas_clock env_forbidden (mkGuild 42 "First")
                (init christmas_clock)).2 = [].
Proof.
  split.
  - apply (proj1 (check_passes_over christmas_clock env_forbidden Banners
                    (mkGuild 42 "First") (init christmas_clock))).
    reflexivity.
  - apply (proj2 (check_passes_over christmas_clock env_forbidden Icons
                    (mkGuild 42 "First") (init christmas_clock))
             "winter" (mkImageDetails "winter.png") [Byte.x01]);
      reflexivity.
Defined.

(** X18. What can end a check, in a store the commands can reach: only a
    missing file of the image scheduled for today ([FileNotFoundError]) or
    an exception of the platform other than [Forbidden].  The lookup of the
    scheduled name in the registry never fails there. *)
Theorem check_failure_modes (folder : string) (clock : nat -> Calendar.DateTime)
    (env : Env) (ty : ImageType) (g : Guild) (s s' : LoopState) (e : PyExc) :
  let today := Calendar.strftime_md (clock (ticks s)) in
  let imageDates := dates_of (guild_conf (the_store env) (guild_id g)) ty in
  let images := images_of (guild_conf (the_store env) (guild_id g)) ty in
  reachable folder (the_store env) ->
  checkGuildImages clock env ty g s = (Raised e, s') ->
  (e = FileNotFoundError
   /\ exists imageName image,
        imageDates !! today = Some imageName /\ images !! imageName = Some image
        /\ files (the_store env) !! getFullFilepath (dataFolder env) g image ty = None)
  \/ (edit_raises env ty (guild_id g) = Some e /\ e <> Forbidden).
Proof.
  intros today imageDates images Hr Hrun.
  pose proof (reachable_schedule_refers folder _ Hr) as Hinv.
  destruct (imageDates !! today) as [imageName|] eqn:Hd.
  - destruct (Hinv (guild_id g) ty today imageName Hd) as [image Hi].
    fold images in Hi.
    destruct (files (the_store env) !! getFullFilepath (dataFolder env) g image ty)
      as [data|] eqn:Hf.
    + destruct (edit_raises env ty (guild_id g)) as [e'|] eqn:He.
      * destruct (decide (e' = Forbidden)) as [-> | Hne].
        -- rewrite (checkGuildImages_forbidden clock env ty g s imageName image data)
             in Hrun by done. discriminate.
        -- right. revert Hrun.
           unfold checkGuildImages, bind, logger, modify, now. simpl.
           fold today. fold imageDates. rewrite Hd. fold images. rewrite Hi, Hf.
           unfold try_except, guild_edit. rewrite He. unfold raise. simpl.
           rewrite decide_False by done. by intros [= <- _].
      * destruct (checkGuildImages_applied clock env ty g s imageName image data)
          as [log' Happ]; try done.
        rewrite Happ in Hrun. discriminate.
    + left. rewrite (checkGuildImages_missing_file clock env ty g s imageName image)
        in Hrun by done.
      injection Hrun as <- _. split; [done|]. by eauto.
  - rewrite checkGuildImages_no_entry in Hrun by done. discriminate.
Qed.

Lemma check_failure_modes_witness :
  let env := mkEnv "/nowhere" store_after_two_commands [sample_guild]
                   (fun _ _ => None) in
  exists imageName image,
    dates_of (guild_conf store_after_two_commands 42) Icons !! "12-25"
    = Some imageName
    /\ images_of (guild_conf store_after_two_commands 42) Icons !! imageName
       = Some image
    /\ files store_after_two_commands
         !! getFullFilepath "/nowhere" sample_guild image Icons = None.
Proof.
  intros env.
  destruct (check_failure_modes "/data" christmas_clock env Icons sample_guild
              (init christmas_clock)
              (checkGuildIcons christmas_clock env sample_guild
                 (init christmas_clock)).2 FileNotFoundError)
    as [[_ H] | [H _]].
  - unfold env. simpl. unfold store_after_two_commands.
    apply reachable_step, reachable_step, reachable_init.
  - by vm_compute.
  - exact H.
  - discriminate.
Defined.

(** X19. On load the marker is set one day back, so the first pass of the
    loop always checks: whether its reading falls on the day of the load or
    on the day after, the pass takes the transition and records the marker. *)
Theorem loop_checks_on_load (clock : nat -> Calendar.DateTime) (env : Env) :
  Calendar.well_formed (clock 0%nat) ->
  Calendar.date_of (clock 1%nat) = Calendar.date_of (clock 0%nat)
  \/ Calendar.date_of (clock 1%nat)
     = Calendar.next_date (Calendar.date_of (clock 0%nat)) ->
  day_changed clock (init clock) = true
  /\ lastChecked (imageLoop_body clock env (init clock)).2 = clock 2%nat
  /\ exists more,
       log (imageLoop_body clock env (init clock)).2 = checking_record :: more.
Proof.
  intros Hwf Hdate.
  assert (Hd : day_changed clock (init clock) = true).
  { unfold day_changed, init. simpl. apply negb_true_iff, Z.eqb_neq.
    destruct Hwf as (Hy & Hm & Hday).
    pose proof (days_in_month_ge_28 (Calendar.year (clock 0%nat))
                  (Calendar.month (clock 0%nat)) Hm) as H28.
    assert (Hcases : Calendar.day (clock 1%nat) = Calendar.day (clock 0%nat)
                     \/ Calendar.day (clock 1%nat)
                        = (Calendar.next_date (Calendar.date_of (clock 0%nat))).2).
    { destruct Hdate as [H | H]; [left | right].
      - unfold Calendar.date_of in H. congruence.
      - rewrite <- H. reflexivity. }
    unfold Calendar.minus_one_day, Calendar.next_date, Calendar.date_of in *.
    destruct (Z.ltb_spec 1 (Calendar.day (clock 0%nat)));
      destruct (Z.ltb_spec (Calendar.day (clock 0%nat))
                  (Calendar.days_in_month (Calendar.year (clock 0%nat))
                     (Calendar.month (clock 0%nat))));
      destruct (Z.ltb_spec (Calendar.month (clock 0%nat)) 12);
      destruct (Z.ltb_spec 1 (Calendar.month (clock 0%nat)));
      simpl in *;
      try pose proof (days_in_month_ge_28 (Calendar.year (clock 0%nat))
                        (Calendar.month (clock 0%nat) - 1));
      lia. }
  split; [done|].
  destruct (imageLoop_body_checking clock env (init clock) Hd) as (Hl & _ & more & Hlog).
  split; [done|]. by exists more.
Qed.

Lemma loop_checks_on_load_witness :
  day_changed christmas_clock (init christmas_clock) = true
  /\ lastChecked (imageLoop_body christmas_clock env_no_guild
                    (init christmas_clock)).2 = christmas_clock 2.
Proof.
  destruct (loop_checks_on_load christmas_clock env_no_guild) as (H1 & H2 & _).
  - vm_compute. intuition discriminate.
  - left. reflexivity.
  - split; [exact H1 | exact H2].
Defined.

(** ** The order of the listing *)

Lemma forallb_seqZ (f : Z -> bool) (a n k : Z) :
  forallb f (seqZ a n) = true -> a <= k < a + n -> f k = true.
Proof.
  intros Hf Hk. rewrite forallb_forall in Hf. apply Hf.
  apply list_elem_of_In, elem_of_seqZ. lia.
Qed.

(** The comparison of date keys agrees with the calendar, checked on every
    pair of month 1..12 and day 1..31. *)
Lemma key_order_checked :
  forallb (fun m1 => forallb (fun d1 => forallb (fun m2 => forallb (fun d2 =>
    implb ((m1 <? m2) || ((m1 =? m2) && (d1 <? d2)))
          (String.ltb (date_key m1 d1) (date_key m2 d2)))
    (seqZ 1 31)) (seqZ 1 12)) (seqZ 1 31)) (seqZ 1 12) = true.
Proof. by vm_compute. Qed.

Lemma date_key_ltb_checked (m1 d1 m2 d2 : Z) :
  1 <= m1 < 1 + 12 -> 1 <= d1 < 1 + 31 -> 1 <= m2 < 1 + 12 -> 1 <= d2 < 1 + 31 ->
  implb ((m1 <? m2) || ((m1 =? m2) && (d1 <? d2)))
        (String.ltb (date_key m1 d1) (date_key m2 d2)) = true.
Proof.
  intros Hm1 Hd1 Hm2 Hd2.
  exact (forallb_seqZ _ 1 31 d2
          (forallb_seqZ _ 1 12 m2
            (forallb_seqZ _ 1 31 d1
              (forallb_seqZ _ 1 12 m1 key_order_checked Hm1) Hd1) Hm2) Hd2).
Qed.

(** The keys of two valid dates compare as the dates do in the year. *)
Lemma date_key_ltb (m1 d1 m2 d2 : Z) :
  validDate m1 d1 = Returned true -> validDate m2 d2 = Returned true ->
  calendar_before m1 d1 m2 d2 ->
  String.ltb (date_key m1 d1) (date_key m2 d2) = true.
Proof.
  intros [Hm1 Hd1]%validDate_true [Hm2 Hd2]%validDate_true Hb.
  assert (Hr1 : 1 <= d1 < 1 + 31).
  { rewrite days_in_2020 in Hd1 by done. each_month Hm1; simpl in Hd1; lia. }
  assert (Hr2 : 1 <= d2 < 1 + 31).
  { rewrite days_in_2020 in Hd2 by done. each_month Hm2; simpl in Hd2; lia. }
  pose proof (date_key_ltb_checked m1 d1 m2 d2) as Hchk.
  revert Hchk. unfold calendar_before in Hb.
  destruct (String.ltb (date_key m1 d1) (date_key m2 d2)); [done|].
  destruct (Z.ltb_spec m1 m2) as [Hlt | Hge]; simpl;
    [intros Hchk; by apply Hchk; lia|].
  destruct (Z.eqb_spec m1 m2) as [Heq | Hneq]; simpl; [|lia].
  destruct (Z.ltb_spec d1 d2) as [Hlt | Hge']; simpl;
    [intros Hchk; by apply Hchk; lia | lia].
Qed.

Lemma sorted_items_order (dates : gmap string string) (k1 v1 k2 v2 : string) :
  String.ltb k1 k2 = true ->
  dates !! k1 = Some v1 -> dates !! k2 = Some v2 ->
  exists l1 l2 l3,
    sorted_items dates = (l1 ++ (k1, v1) :: l2 ++ (k2, v2) :: l3)%list.
Proof.
  intros Hlt H1 H2.
  pose proof (sorted_items_StronglySorted dates) as Hs.
  apply elem_of_sorted_items in H1, H2.
  apply list_elem_of_split in H1 as (l1 & rest & Heq).
  rewrite Heq in H2, Hs.
  assert (Hne : (k2, v2) <> (k1, v1)).
  { intros [= -> ->]. apply ltb_leb_ne in Hlt as [_ ?]. done. }
  assert (Hnot : ~ item_le (k2, v2) (k1, v1)).
  { unfold item_le. simpl. rewrite ltb_leb_ne.
    apply ltb_leb_ne in Hlt as [Hle Hk].
    intros [[Hge _] | [-> _]]; [|done]. apply Hk. by apply leb_antisym_eq. }
  apply elem_of_app in H2 as [Hin | Hin].
  - exfalso. apply Hnot.
    apply (StronglySorted_app_1_elem_of item_le l1 ((k1, v1) :: rest)); try done.
    apply list_elem_of_here.
  - apply elem_of_cons in Hin as [? | Hin]; [done|].
    apply list_elem_of_split in Hin as (l2 & l3 & ->).
    exists l1, l2, l3. exact Heq.
Qed.

(** The text built from a list in which one item comes before another has
    the line of the first before the line of the second. *)
Lemma list_lines_in_order l1 l2 l3 k1 v1 t1 k2 v2 t2 out :
  list_lines (l1 ++ (k1, v1) :: l2 ++ (k2, v2) :: l3)%list "" = Returned out ->
  Calendar.fromisoformat_2020 k1 = Returned t1 ->
  Calendar.fromisoformat_2020 k2 = Returned t2 ->
  exists pre mid post,
    out = pre +:+ date_line t1 v1 +:+ mid +:+ date_line t2 v2 +:+ post.
Proof.
  intros Hout Ht1 Ht2.
  rewrite list_lines_app in Hout.
  destruct (list_lines l1 "") as [pre|e]; [|discriminate].
  rewrite list_lines_cons, Ht1, list_lines_app in Hout.
  destruct (list_lines l2 (pre +:+ date_line t1 v1)) as [msg2|e] eqn:H2;
    [|discriminate].
  apply list_lines_extends in H2 as [mid ->].
  rewrite list_lines_cons, Ht2 in Hout.
  apply list_lines_extends in Hout as [post ->].
  exists pre, mid, post. by rewrite !append_assoc.
Qed.

(** X20. The listing is in calendar order: in every store the commands can
    reach, when two dates are scheduled and the first comes before the second
    in the year, the text that [imageList] builds and hands to [pagify] has
    the line of the first date before the line of the second; the menu is
    opened on the pages made of that text. *)
Theorem listing_in_calendar_order (dataFolder : string)
    (pagify : string -> Z -> list string) (ctx : Context)
    (ty : ImageType) (c : CmdState) (m1 d1 m2 d2 : Z) (v1 v2 : string) :
  let dates := dates_of (guild_conf (store c) (guild_id (guild ctx))) ty in
  let t1 := Calendar.mkDateTime 2020 m1 d1 0 0 0 0 in
  let t2 := Calendar.mkDateTime 2020 m2 d2 0 0 0 0 in
  reachable dataFolder (store c) ->
  validDate m1 d1 = Returned true -> validDate m2 d2 = Returned true ->
  calendar_before m1 d1 m2 d2 ->
  dates !! date_key m1 d1 = Some v1 -> dates !! date_key m2 d2 = Some v2 ->
  exists pre mid post,
    imageList pagify ctx ty c
    = (Returned tt,
       mkCmdState (store c)
         (sent c ++ [menu_of pagify (list_title ctx ty)
                       (pre +:+ date_line t1 v1 +:+ mid
                          +:+ date_line t2 v2 +:+ post)])).
Proof.
  intros dates t1 t2 Hr Hv1 Hv2 Hb H1 H2.
  pose proof (reachable_keys_parse dataFolder (store c) Hr
                (guild_id (guild ctx)) ty) as Hp.
  pose proof (reachable_schedule_refers dataFolder (store c) Hr
                (guild_id (guild ctx)) ty _ _ H1) as [details Hdet].
  assert (Hne : images_of (guild_conf (store c) (guild_id (guild ctx))) ty <> ∅).
  { intros He. rewrite He, lookup_empty in Hdet. discriminate. }
  destruct (list_lines_sorted_total _ Hp) as [out Hout].
  destruct (imageList_run pagify ctx ty c out Hne Hout) as (tail & _ & ->).
  destruct (sorted_items_order dates _ v1 _ v2 (date_key_ltb _ _ _ _ Hv1 Hv2 Hb)
              H1 H2) as (l1 & l2 & l3 & Hsplit).
  fold dates in Hout. rewrite Hsplit in Hout.
  destruct (list_lines_in_order _ _ _ _ _ t1 _ _ t2 _ Hout
              (fromisoformat_date_key _ _ Hv1) (fromisoformat_date_key _ _ Hv2))
    as (pre & mid & post & ->).
  exists pre, mid, (post +:+ tail). by rewrite !append_assoc.
Qed.

Lemma listing_in_calendar_order_witness :
  exists pre mid post,
    imageList one_page sample_ctx Icons listed_state
    = (Returned tt,
       mkCmdState (store listed_state)
         [Menu [mkEmbed "Server icon changes for Guild"
                  (pre +:+ ("July 01: summer" +:+ NL) +:+ mid
                     +:+ ("December 25: winter" +:+ NL) +:+ post)
                  "Page 1/1"]]).
Proof.
  apply (listing_in_calendar_order "/data" one_page sample_ctx Icons listed_state
           7 1 12 25 "summer" "winter").
  - exact (reachable_step "/data" listed_store_3 _ []
             (reachable_step "/data" listed_store_2 _ []
                (reachable_step "/data" listed_store_1 _ []
                   (reachable_step "/data" _ _ [] (reachable_init "/data" ∅))))).
  - reflexivity.
  - reflexivity.
  - left. lia.
  - by vm_compute.
  - by vm_compute.
Defined.
